(** * GitHub Repository Monitor: a shallow embedding of [github_monitor.py]
    and of the configuration summary of [setup_config.py].

    Python strings are [string]s whose characters stand for code points below
    256; the file system, the console, the clock and the network are fields
    of an explicit [world] that every method threads through a small
    state-and-exception monad. *)

From stdpp Require Import gmap strings list fin_maps pretty sorting.
From Stdlib Require Import Ascii String ZArith Lia.

Open Scope string_scope.

(** ** Python string primitives *)

Module PyStr.

(** [str.isspace] on one character, for code points below 256. *)
Definition isspace (c : ascii) : bool :=
  let n := nat_of_ascii c in
  (Nat.leb 9 n && Nat.leb n 13) || (Nat.leb 28 n && Nat.leb n 32)
  || Nat.eqb n 133 || Nat.eqb n 160.

Definition LF : ascii := ascii_of_nat 10.
Definition CR : ascii := ascii_of_nat 13.
Definition nl : string := String LF EmptyString.

(** [bool(s)]: a string is true when it is not empty. *)
Definition truthy (s : string) : bool :=
  match s with EmptyString => false | String _ _ => true end.

Fixpoint lstrip (s : string) : string :=
  match s with
  | EmptyString => EmptyString
  | String c s' => if isspace c then lstrip s' else s
  end.

Fixpoint rstrip (s : string) : string :=
  match s with
  | EmptyString => EmptyString
  | String c s' =>
      match rstrip s' with
      | EmptyString => if isspace c then EmptyString else String c EmptyString
      | r => String c r
      end
  end.

(** [s.strip()] *)
Definition strip (s : string) : string := rstrip (lstrip s).

(** [c in s] for a single character. *)
Fixpoint has_char (c : ascii) (s : string) : bool :=
  match s with
  | EmptyString => false
  | String d s' => Ascii.eqb c d || has_char c s'
  end.

(** [s[:n]] *)
Definition take (n : nat) (s : string) : string := String.substring 0 n s.

(** [s[-n:]] for [n > 0] *)
Definition last (n : nat) (s : string) : string :=
  String.substring (String.length s - n) n s.

(** [c * n] *)
Fixpoint times (c : string) (n : nat) : string :=
  match n with O => EmptyString | S k => c ++ times c k end.

(** [s.startswith(p)] *)
Definition startswith (p s : string) : bool := String.prefix p s.

(** [s.replace(old, new)] for a non-empty [old]: occurrences are replaced
    from left to right without overlap; [skip] counts the characters of a
    matched occurrence still to be dropped. *)
Fixpoint replace_from (old new : string) (skip : nat) (s : string) : string :=
  match s with
  | EmptyString => EmptyString
  | String c s' =>
      match skip with
      | S k => replace_from old new k s'
      | O =>
          if String.prefix old s
          then new ++ replace_from old new (String.length old - 1) s'
          else String c (replace_from old new 0 s')
      end
  end.

Definition replace (old new s : string) : string := replace_from old new 0 s.

Definition lower_char (c : ascii) : ascii :=
  let n := nat_of_ascii c in
  if Nat.leb 65 n && Nat.leb n 90 then ascii_of_nat (n + 32) else c.

(** [s.lower()], on the ASCII letters. *)
Fixpoint lower (s : string) : string :=
  match s with
  | EmptyString => EmptyString
  | String c s' => String (lower_char c) (lower s')
  end.

(** [sep.join(l)] *)
Definition join (sep : string) (l : list string) : string := String.concat sep l.

(** [str(b)] for a boolean. *)
Definition of_bool (b : bool) : string := if b then "True" else "False".

(** Text-mode reading translates ["\r\n"] and a lone ["\r"] to ["\n"]. *)
Fixpoint universal_newlines (s : string) : string :=
  match s with
  | EmptyString => EmptyString
  | String c s' =>
      if Ascii.eqb c CR then
        match s' with
        | String d s'' =>
            if Ascii.eqb d LF then String LF (universal_newlines s'')
            else String LF (universal_newlines s')
        | EmptyString => String LF EmptyString
        end
      else String c (universal_newlines s')
  end.

(** Iterating over a text file: the lines of [s], each with its ["\n"];
    a last line without ["\n"] is kept as it is. *)
Fixpoint lines (s : string) : list string :=
  match s with
  | EmptyString => []
  | String c s' =>
      if Ascii.eqb c LF then String LF EmptyString :: lines s'
      else
        match lines s' with
        | [] => [String c EmptyString]
        | l :: ls => String c l :: ls
        end
  end.

Definition readlines (content : string) : list string :=
  lines (universal_newlines content).

End PyStr.

(** ** Exceptions and the monad of the program *)

(** The exceptions the program meets. *)
Inductive exn :=
| RequestException (msg : string)  (* connection error, timeout, ... *)
| HTTPError (status_code : nat)    (* raised by [raise_for_status] *)
| JSONDecodeError                  (* [response.json()] on a body that is not JSON *)
| KeyError (key : string)
| TypeError (msg : string)
| AttributeError (msg : string)
| ValueError (msg : string).

(** How a computation ends: with a value, with an exception, or without an
    answer within the iterations it was allowed. *)
Inductive result (A : Type) :=
| Ok (a : A)
| Raise (e : exn)
| OutOfFuel.
Arguments Ok {A} a.
Arguments Raise {A} e.
Arguments OutOfFuel {A}.

(** *** What the program talks to *)

(** A parameter or header value. *)
Inductive pval := PStr (s : string) | PInt (n : nat).

(** The value of a field of the attachment sent to the webhook: the text
    "None", or one bullet line per repository. *)
Inductive field_value := NoneText | Bullets (repos : list string).

(** One field of the attachment sent to the webhook. *)
Record field := { f_title : string; f_value : field_value; f_short : bool }.

Record attachment := {
  a_color : string; a_title : string; a_text : string;
  a_fields : list field; a_footer : string; a_ts : nat }.

Record request := {
  method : string;
  url : string;
  params : list (string * pval);
  headers : list (string * string);
  timeout : nat;
  json : option (list attachment) }.

(** An element of a JSON array, as [repo["full_name"]] sees it. The listing
    endpoint gives objects whose [full_name] is a string. *)
Inductive item :=
| Repo (full_name : string)
| NoFullName      (* an object without that key *)
| NotAnObject.    (* a number, a string, null, ... *)

(** A response body, as [response.json()] sees it. *)
Inductive body :=
| NotJson
| JObject (message : option string)  (* an object, with its "message" if any *)
| JArray (items : list item)
| JScalar.

Inductive http_result :=
| Failed (msg : string)               (* the call raises a RequestException *)
| Response (status_code : nat) (b : body).

(** The network answers the [n]-th request of a run. *)
Definition network := nat -> request -> http_result.

(** A configuration file as [ConfigParser] holds it: sections of options. *)
Abbreviation ini := (gmap string (gmap string string)).

Record file := { mtime : nat; data : string }.

(** What the program prints. The table rule and the bullet are characters
    outside the range of [string], so the lines that carry them have
    constructors of their own. *)
Inductive output :=
| Print (s : string)                                  (* [print(s)] *)
| ConsolePrint (markup : string) (style : option string)
| ConsoleRule (before after : string)                 (* the 48-column rule, in bold *)
| ConsoleBullet (display_item : string)               (* a blue bullet line *)
| ConsoleTable (columns : list string) (rows : list (string * string)).

Record world := {
  files : gmap string file;       (* the working directory, by path *)
  dirs : gset string;             (* directories made by the program *)
  config_ini : option ini;        (* the configuration file, if it exists *)
  home : string;                  (* the user's home directory *)
  console : list output;          (* everything printed, oldest first *)
  clock : nat;                    (* seconds *)
  strftime : string -> nat -> string;  (* [datetime.strftime] of the clock *)
  net : network;
  sent : list request }.          (* the requests made, oldest first *)

Definition M (A : Type) : Type := world -> result A * world.

Definition ret {A} (a : A) : M A := fun w => (Ok a, w).

Definition bind {A B} (m : M A) (f : A -> M B) : M B :=
  fun w =>
    match m w with
    | (Ok a, w') => f a w'
    | (Raise e, w') => (Raise e, w')
    | (OutOfFuel, w') => (OutOfFuel, w')
    end.

Definition raise {A} (e : exn) : M A := fun w => (Raise e, w).

Definition out_of_fuel {A} : M A := fun w => (OutOfFuel, w).

(** [try: m except <handles> as e: h e] *)
Definition try_except {A} (m : M A) (handles : exn -> bool) (h : exn -> M A) : M A :=
  fun w =>
    match m w with
    | (Raise e, w') => if handles e then h e w' else (Raise e, w')
    | r => r
    end.

Definition get : M world := fun w => (Ok w, w).
Definition modify (f : world -> world) : M unit := fun w => (Ok tt, f w).

Notation "x <- c1 ;; c2" := (bind c1 (fun x => c2))
  (at level 100, c1 at next level, right associativity).
Notation "c1 ;; c2" := (bind c1 (fun _ => c2))
  (at level 100, right associativity).

(** [except Exception] *)
Definition any_exception (e : exn) : bool := true.

(** [except requests.exceptions.RequestException]: the network errors, the
    HTTP errors and the JSON decoding error of [requests] are its subclasses. *)
Definition is_RequestException (e : exn) : bool :=
  match e with
  | RequestException _ | HTTPError _ | JSONDecodeError => true
  | _ => false
  end.

(** [str(e)]; the wording of the library's messages is not part of the
    program. *)
Definition str_exn (e : exn) : string :=
  match e with
  | RequestException msg => msg
  | HTTPError st => pretty st ++ " Error"
  | JSONDecodeError => "Expecting value"
  | KeyError k => "'" ++ k ++ "'"
  | TypeError msg | AttributeError msg | ValueError msg => msg
  end.

(** *** World primitives *)

Definition set_files (f : gmap string file -> gmap string file) (w : world) : world :=
  {| files := f (files w); dirs := dirs w; config_ini := config_ini w;
     home := home w; console := console w; clock := clock w;
     strftime := strftime w; net := net w; sent := sent w |}.

Definition set_dirs (f : gset string -> gset string) (w : world) : world :=
  {| files := files w; dirs := f (dirs w); config_ini := config_ini w;
     home := home w; console := console w; clock := clock w;
     strftime := strftime w; net := net w; sent := sent w |}.

Definition set_config_ini (c : option ini) (w : world) : world :=
  {| files := files w; dirs := dirs w; config_ini := c;
     home := home w; console := console w; clock := clock w;
     strftime := strftime w; net := net w; sent := sent w |}.

Definition emit (o : output) (w : world) : world :=
  {| files := files w; dirs := dirs w; config_ini := config_ini w;
     home := home w; console := console w ++ [o]; clock := clock w;
     strftime := strftime w; net := net w; sent := sent w |}.

Definition advance (secs : nat) (w : world) : world :=
  {| files := files w; dirs := dirs w; config_ini := config_ini w;
     home := home w; console := console w; clock := clock w + secs;
     strftime := strftime w; net := net w; sent := sent w |}.

Definition record_request (r : request) (w : world) : world :=
  {| files := files w; dirs := dirs w; config_ini := config_ini w;
     home := home w; console := console w; clock := clock w;
     strftime := strftime w; net := net w; sent := sent w ++ [r] |}.

(** [print(s)] and [console.print(...)] *)
Definition print (s : string) : M unit := modify (emit (Print s)).
Definition console_print (markup : string) (style : option string) : M unit :=
  modify (emit (ConsolePrint markup style)).
Definition console_out (o : output) : M unit := modify (emit o).

(** [time.sleep(secs)] *)
Definition sleep (secs : nat) : M unit := modify (advance secs).

(** [datetime.now().strftime(fmt)] *)
Definition now (fmt : string) : M string := fun w => (Ok (strftime w fmt (clock w)), w).

(** [open(path, "w")] followed by one [write] of the whole content. *)
Definition write_file (path content : string) : M unit :=
  fun w => (Ok tt, set_files (insert path {| mtime := clock w; data := content |}) w).

(** [open(path, "a")] followed by [write(s)]. *)
Definition append_file (path s : string) : M unit :=
  fun w =>
    let old := match files w !! path with Some f => data f | None => "" end in
    (Ok tt, set_files (insert path {| mtime := clock w; data := old ++ s |}) w).

(** [os.path.exists(path)] *)
Definition path_exists (path : string) : M bool :=
  fun w => (Ok (bool_decide (is_Some (files w !! path)) || bool_decide (path ∈ dirs w)), w).

(** [open(path, "r").read()] on a file that exists. *)
Definition read_file (path : string) : M string :=
  fun w =>
    match files w !! path with
    | Some f => (Ok (data f), w)
    | None => (Raise (ValueError ("No such file or directory: '" ++ path ++ "'")), w)
    end.

(** [os.remove(path)] *)
Definition remove_file (path : string) : M unit := modify (set_files (delete path)).

(** [os.makedirs(path, exist_ok=True)] *)
Definition makedirs (path : string) : M unit := modify (set_dirs (union {[ path ]})).

(** A request through [requests]: the network's answer to it is recorded. *)
Definition http (r : request) : M http_result :=
  fun w => (Ok (net w (List.length (sent w)) r), record_request r w).

(** [response.raise_for_status()]: statuses 400 to 599 raise. *)
Definition raise_for_status (status_code : nat) : M unit :=
  if Nat.leb 400 status_code && Nat.ltb status_code 600
  then raise (HTTPError status_code) else ret tt.

(** [requests.get(...)] / [requests.post(...)]: the response, or the raised
    network error. *)
Definition send (r : request) : M (nat * body) :=
  a <- http r ;;
  match a with
  | Failed msg => raise (RequestException msg)
  | Response st b => ret (st, b)
  end.

(** [response.json()] *)
Definition response_json (b : body) : M body :=
  match b with NotJson => raise JSONDecodeError | _ => ret b end.

(** ** class GitHubMonitor *)

Record GitHubMonitor := {
  config : ini;                 (* the ConfigParser object *)
  config_file : string;
  organization : string;
  github_token : string;
  slack_webhook_url : string;
  enable_slack : bool;
  today : string }.

(** The file names are set once in [__init__] and never assigned again. *)
Definition repo_list_file (self : GitHubMonitor) : string := "repo-list-" ++ today self.
Definition added_repos_file (self : GitHubMonitor) : string := "added-repos-" ++ today self.
Definition deleted_repos_file (self : GitHubMonitor) : string := "deleted-repos-" ++ today self.
Definition backup_dir (self : GitHubMonitor) : string := "backups_" ++ today self.
Definition log_file : string := "github-monitor.log".

Definition with_config (c : ini) (self : GitHubMonitor) : GitHubMonitor :=
  {| config := c; config_file := config_file self;
     organization := organization self; github_token := github_token self;
     slack_webhook_url := slack_webhook_url self; enable_slack := enable_slack self;
     today := today self |}.

Definition with_settings (org token webhook : string) (enable : bool)
    (self : GitHubMonitor) : GitHubMonitor :=
  {| config := config self; config_file := config_file self;
     organization := org; github_token := token;
     slack_webhook_url := webhook; enable_slack := enable;
     today := today self |}.

(** *** Logging *)

Definition ESC : string := String (ascii_of_nat 27) EmptyString.
Definition Fore_GREEN : string := ESC ++ "[32m".
Definition Fore_YELLOW : string := ESC ++ "[33m".
Definition Fore_RED : string := ESC ++ "[31m".
Definition Fore_WHITE : string := ESC ++ "[37m".
Definition Style_RESET_ALL : string := ESC ++ "[0m".

(** [f"[{timestamp}] [{level}] {message}"] *)
Definition log_line (timestamp level message : string) : string :=
  "[" ++ timestamp ++ "] [" ++ level ++ "] " ++ message.

Definition log (level message : string) : M unit :=
  timestamp <- now "%Y-%m-%d %H:%M:%S" ;;
  let line := log_line timestamp level message in
  let console_msg :=
    if String.eqb level "INFO" then Fore_GREEN ++ line ++ Style_RESET_ALL
    else if String.eqb level "WARNING" then Fore_YELLOW ++ line ++ Style_RESET_ALL
    else if String.eqb level "ERROR" then Fore_RED ++ line ++ Style_RESET_ALL
    else Fore_WHITE ++ line ++ Style_RESET_ALL in
  print console_msg ;;
  let file_msg := line in
  append_file log_file (file_msg ++ PyStr.nl).

Definition log_info (message : string) : M unit := log "INFO" message.
Definition log_warning (message : string) : M unit := log "WARNING" message.
Definition log_error (message : string) : M unit := log "ERROR" message.

Definition setup_logging : M unit := log_info "GitHub Repository Monitor initialized".

(** *** Configuration *)

Definition settings_section (org token webhook enable : string) : gmap string string :=
  list_to_map [("organization", org); ("github_token", token);
               ("slack_webhook_url", webhook); ("enable_slack", enable)].

(** [config.get(section, option, fallback=...)] *)
Definition ini_get (c : ini) (section option fallback : string) : string :=
  match c !! section with
  | Some s => match s !! option with Some v => v | None => fallback end
  | None => fallback
  end.

(** [config.getboolean(section, option, fallback=...)] *)
Definition ini_getboolean (c : ini) (section option : string) (fallback : bool) : M bool :=
  match c !! section with
  | Some s =>
      match s !! option with
      | Some v =>
          let l := PyStr.lower v in
          if bool_decide (l ∈ ["1"; "yes"; "true"; "on"]) then ret true
          else if bool_decide (l ∈ ["0"; "no"; "false"; "off"]) then ret false
          else raise (ValueError ("Not a boolean: " ++ v))
      | None => ret fallback
      end
  | None => ret fallback
  end.

(** [config.read(file)]: the sections of the file are merged into the parser. *)
Definition ini_read (from_file c : ini) : ini :=
  union_with (fun a b => Some (a ∪ b)) from_file c.

(** Writing the file and restricting its permissions; permissions are not
    part of the [world]. *)
Definition save_config (self : GitHubMonitor) : M GitHubMonitor :=
  let c := <[ "Settings" :=
              settings_section (organization self) (github_token self)
                (slack_webhook_url self) (PyStr.of_bool (enable_slack self)) ]>
             (config self) in
  modify (set_config_ini (Some c)) ;;
  ret (with_config c self).

Definition load_config (self : GitHubMonitor) : M GitHubMonitor :=
  w <- get ;;
  makedirs (home w ++ "/.config/github-monitor") ;;
  match config_ini w with
  | Some from_file =>
      let c := ini_read from_file (config self) in
      let self := with_config c self in
      if bool_decide (is_Some (c !! "Settings")) then
        let org := ini_get c "Settings" "organization" "" in
        let token := ini_get c "Settings" "github_token" "" in
        let webhook := ini_get c "Settings" "slack_webhook_url" "" in
        enable <- ini_getboolean c "Settings" "enable_slack" false ;;
        ret (with_settings org token webhook enable self)
      else ret self
  | None =>
      let c := <[ "Settings" := settings_section "" "" "" "False" ]> (config self) in
      save_config (with_config c self)
  end.

(** [GitHubMonitor()] *)
Definition init : M GitHubMonitor :=
  w <- get ;;
  today <- now "%Y-%m-%d" ;;
  let self :=
    {| config := ∅;
       config_file := home w ++ "/.config/github-monitor/config.ini";
       organization := ""; github_token := ""; slack_webhook_url := "";
       enable_slack := false; today := today |} in
  self <- load_config self ;;
  setup_logging ;;
  ret self.

Definition update_config (self : GitHubMonitor)
    (org token webhook : option string) (enable : option bool) : M GitHubMonitor :=
  let org' := match org with Some o => o | None => organization self end in
  let token' := match token with Some t => t | None => github_token self end in
  let webhook' := match webhook with Some u => u | None => slack_webhook_url self end in
  let enable' := match enable with Some b => b | None => enable_slack self end in
  self <- save_config (with_settings org' token' webhook' enable' self) ;;
  log_info "Configuration updated successfully" ;;
  ret self.

(** The rows of the table that [show_config] prints. *)
Definition config_rows (self : GitHubMonitor) : list (string * string) :=
  let token_display :=
    if PyStr.truthy (github_token self) then "********" else "[italic]Not set[/italic]" in
  let webhook_display :=
    if PyStr.truthy (slack_webhook_url self) then "********" else "[italic]Not set[/italic]" in
  [ ("Organization",
     if PyStr.truthy (organization self) then organization self
     else "[italic]Not set[/italic]");
    ("GitHub Token", token_display);
    ("Slack Webhook URL", webhook_display);
    ("Slack Notifications", if enable_slack self then "Enabled" else "Disabled");
    ("Config File", config_file self) ].

Definition show_config (self : GitHubMonitor) : M unit :=
  console_print (PyStr.nl ++ "[bold]Current Configuration:[/bold]") None ;;
  console_out (ConsoleTable ["Setting"; "Value"] (config_rows self)) ;;
  console_print "" None.

(** *** Validation *)

Definition _get_auth_headers (self : GitHubMonitor) : list (string * string) :=
  let headers := [("Accept", "application/vnd.github.v3+json");
                  ("User-Agent", "GitHub-Repository-Monitor")] in
  if PyStr.truthy (github_token self)
  then app headers [("Authorization", "token " ++ github_token self)]
  else headers.

(** [response.json().get('message', 'Unknown error')] *)
Definition json_message (b : body) : M string :=
  data <- response_json b ;;
  match data with
  | JObject (Some m) => ret m
  | JObject None => ret "Unknown error"
  | _ => raise (AttributeError "object has no attribute 'get'")
  end.

Definition validate_token (self : GitHubMonitor) : M bool :=
  if negb (PyStr.truthy (github_token self)) then
    log_warning "No GitHub token provided" ;; ret false
  else
    let headers := _get_auth_headers self in
    try_except
      (response <- send {| method := "GET"; url := "https://api.github.com/user";
                           params := []; headers := headers; timeout := 10;
                           json := None |} ;;
       if Nat.eqb (fst response) 200 then
         log_info "GitHub token validated successfully" ;; ret true
       else
         m <- json_message (snd response) ;;
         log_error ("GitHub token validation failed: " ++ m) ;; ret false)
      is_RequestException
      (fun e => log_error ("Error validating GitHub token: " ++ str_exn e) ;; ret false).

Definition validate_organization (self : GitHubMonitor) : M bool :=
  if negb (PyStr.truthy (organization self)) then
    log_error "No organization name provided" ;; ret false
  else
    let headers := _get_auth_headers self in
    try_except
      (response <- send {| method := "GET";
                           url := "https://api.github.com/orgs/" ++ organization self;
                           params := []; headers := headers; timeout := 10;
                           json := None |} ;;
       if Nat.eqb (fst response) 200 then
         log_info ("Organization '" ++ organization self ++ "' validated successfully") ;;
         ret true
       else
         m <- json_message (snd response) ;;
         log_error ("Organization validation failed: " ++ m) ;; ret false)
      is_RequestException
      (fun e => log_error ("Error validating organization: " ++ str_exn e) ;; ret false).

(** *** Snapshot files *)

(** One [f.write(f"{item}\n")] per item, into a file opened for writing:
    what the file holds once it is closed. *)
Fixpoint snapshot_text (items : list string) : string :=
  match items with
  | [] => ""
  | item :: rest => (item ++ PyStr.nl) ++ snapshot_text rest
  end.

Definition _save_list_to_file (items : list string) (filename : string) : M unit :=
  write_file filename (snapshot_text items).

(** [[line.strip() for line in f if line.strip()]] *)
Definition stripped_lines (content : string) : list string :=
  map PyStr.strip
    (filter (fun line => Is_true (PyStr.truthy (PyStr.strip line)))
       (PyStr.readlines content)).

Definition load_list (filename : string) : M (list string) :=
  content <- read_file filename ;;
  ret (stripped_lines content).

(** [os.path.join(dir, name)] for a relative [name]. *)
Definition path_join (dir name : string) : string := dir ++ "/" ++ name.

Fixpoint backup_each (self : GitHubMonitor) (files : list string) : M unit :=
  match files with
  | [] => ret tt
  | file :: rest =>
      e <- path_exists file ;;
      (if e then
         let backup_path := path_join (backup_dir self) ("old_" ++ file) in
         log_info ("Backing up " ++ file ++ " to " ++ backup_path) ;;
         content <- read_file file ;;
         write_file backup_path content ;;
         remove_file file
       else ret tt) ;;
      backup_each self rest
  end.

Definition backup_files (self : GitHubMonitor) : M unit :=
  log_info "Backing up existing files" ;;
  makedirs (backup_dir self) ;;
  backup_each self [repo_list_file self; added_repos_file self; deleted_repos_file self].

(** *** Fetching *)

Definition repos_request (self : GitHubMonitor) (headers : list (string * string))
    (page : nat) : request :=
  {| method := "GET";
     url := "https://api.github.com/orgs/" ++ organization self ++ "/repos";
     params := [("type", PStr "all"); ("per_page", PInt 100); ("page", PInt page)];
     headers := headers; timeout := 30; json := None |}.

(** [for attempt in range(3)]: the response of the first attempt that
    succeeds; the last attempt raises what it caught. The range never runs
    out, as its last attempt either breaks or raises. *)
Fixpoint get_page (self : GitHubMonitor) (headers : list (string * string))
    (page : nat) (attempts : list nat) : M (nat * body) :=
  match attempts with
  | [] => raise (TypeError "local variable 'response' referenced before assignment")
  | attempt :: rest =>
      try_except
        (response <- send (repos_request self headers page) ;;
         raise_for_status (fst response) ;;
         ret response)
        is_RequestException
        (fun e =>
           if Nat.eqb attempt 2 then raise e
           else
             log_warning ("API call failed (attempt " ++ pretty (attempt + 1) ++ "): "
                          ++ str_exn e ++ ". Retrying...") ;;
             sleep 2 ;;
             get_page self headers page rest)
  end.

(** [[repo["full_name"] for repo in repos_data]] *)
Fixpoint full_names (repos_data : list item) : M (list string) :=
  match repos_data with
  | [] => ret []
  | Repo name :: rest => names <- full_names rest ;; ret (name :: names)
  | NoFullName :: _ => raise (KeyError "full_name")
  | NotAnObject :: _ => raise (TypeError "indices must be integers")
  end.

Inductive flow := Break | Continue.

(** One turn of [while True], from the loop variables to their next values. *)
Definition fetch_page (self : GitHubMonitor) (headers : list (string * string))
    (repositories : list string) (page total_repos : nat)
    : M (flow * list string * nat * nat) :=
  try_except
    (response <- get_page self headers page (seq 0 3) ;;
     repos_data <- response_json (snd response) ;;
     match repos_data with
     | JArray ((_ :: _) as l) =>
         page_repos <- full_names l ;;
         let repositories := app repositories page_repos in
         let count := List.length page_repos in
         let total_repos := total_repos + count in
         log_info ("Retrieved " ++ pretty count ++ " repositories on page "
                   ++ pretty page ++ " (total: " ++ pretty total_repos ++ ")") ;;
         if Nat.ltb count 100 then ret (Break, repositories, page, total_repos)
         else ret (Continue, repositories, page + 1, total_repos)
     | _ => ret (Break, repositories, page, total_repos)
     end)
    any_exception
    (fun e =>
       log_error ("Error fetching repositories: " ++ str_exn e) ;;
       ret (Break, repositories, page, total_repos)).

(** [while True], for at most [fuel] turns. *)
Fixpoint fetch_pages (fuel : nat) (self : GitHubMonitor) (headers : list (string * string))
    (repositories : list string) (page total_repos : nat) : M (list string * nat) :=
  match fuel with
  | O => out_of_fuel
  | S fuel' =>
      s <- fetch_page self headers repositories page total_repos ;;
      match s with
      | (Break, repositories, _, total_repos) => ret (repositories, total_repos)
      | (Continue, repositories, page, total_repos) =>
          fetch_pages fuel' self headers repositories page total_repos
      end
  end.

(** What [fetch_repositories] does with the loop variables once the loop is
    left: sort, save, log, return. *)
Definition finish_fetch (self : GitHubMonitor) (repositories : list string)
    (total_repos : nat) : M (list string) :=
  let repositories := merge_sort String.le repositories in
  _save_list_to_file repositories (repo_list_file self) ;;
  log_info ("Successfully fetched " ++ pretty total_repos ++ " repositories") ;;
  ret repositories.

(** [fetch_repositories] from the loop variables on. *)
Definition fetch_from (fuel : nat) (self : GitHubMonitor) (headers : list (string * string))
    (repositories : list string) (page total_repos : nat) : M (list string) :=
  r <- fetch_pages fuel self headers repositories page total_repos ;;
  finish_fetch self (fst r) (snd r).

Definition fetch_repositories (fuel : nat) (self : GitHubMonitor) : M (list string) :=
  log_info ("Fetching repositories for " ++ organization self) ;;
  if negb (PyStr.truthy (organization self)) then
    log_error "No organization name provided" ;; ret []
  else
    let headers := _get_auth_headers self in
    (if negb (PyStr.truthy (github_token self))
     then log_warning "GitHub token not provided. API rate limits may apply."
     else ret tt) ;;
    fetch_from fuel self headers [] 1 0.

(** *** Previous snapshot *)

(** [os.listdir(".")]: the names in the working directory, in the order the
    file map enumerates them (the order is the file system's own). *)
Definition listdir (w : world) : list string :=
  filter (fun f => Is_true (negb (PyStr.has_char "/"%char f)))
    (app (map fst (map_to_list (files w))) (elements (dirs w))).

(** [os.path.getmtime(f)] *)
Definition getmtime (w : world) (f : string) : nat :=
  match files w !! f with Some x => mtime x | None => 0 end.

(** A stable sort, newest first: [files.sort(key=getmtime, reverse=True)]. *)
Fixpoint insert_newest (key : string -> nat) (x : string) (l : list string) : list string :=
  match l with
  | [] => [x]
  | y :: l' => if Nat.leb (key y) (key x) then x :: l else y :: insert_newest key x l'
  end.

Definition sort_newest_first (key : string -> nat) (l : list string) : list string :=
  foldr (insert_newest key) [] l.

Definition find_previous_list (self : GitHubMonitor) : M (option string) :=
  w <- get ;;
  let files :=
    filter (fun f => Is_true (PyStr.startswith "repo-list-" f
                              && negb (String.eqb f (repo_list_file self))))
      (listdir w) in
  match sort_newest_first (getmtime w) files with
  | [] => log_warning "No previous repository list found" ;; ret None
  | previous_list :: _ => ret (Some previous_list)
  end.

(** *** Comparison *)

Definition compare_repositories (self : GitHubMonitor)
    (current_list previous_list : list string) : M (list string * list string) :=
  log_info "Comparing current list with previous list" ;;
  let added_repos := filter (fun repo => repo ∉ previous_list) current_list in
  let deleted_repos := filter (fun repo => repo ∉ current_list) previous_list in
  _save_list_to_file added_repos (added_repos_file self) ;;
  _save_list_to_file deleted_repos (deleted_repos_file self) ;;
  log_info ("Found " ++ pretty (List.length added_repos) ++ " new repositories and "
            ++ pretty (List.length deleted_repos) ++ " deleted repositories") ;;
  ret (added_repos, deleted_repos).

(** *** Reporting *)

(** [for x in l: f x] *)
Fixpoint for_each {A} (l : list A) (f : A -> M unit) : M unit :=
  match l with
  | [] => ret tt
  | x :: rest => f x ;; for_each rest f
  end.

Definition print_header (title : string) : M unit :=
  let width := 80%Z in
  let padding := Z.to_nat ((width - Z.of_nat (String.length title) - 2) / 2) in
  console_print "" None ;;
  console_print (PyStr.times "=" (Z.to_nat width)) (Some "bold") ;;
  console_print (PyStr.times " " padding ++ title ++ PyStr.times " " padding) (Some "bold") ;;
  console_print (PyStr.times "=" (Z.to_nat width)) (Some "bold") ;;
  console_print "" None.

Definition print_table (items : list string) (title : string) : M unit :=
  let count := List.length items in
  console_out (ConsoleRule PyStr.nl "") ;;
  console_print ("[bold]" ++ title ++ "[/bold]") None ;;
  console_out (ConsoleRule "" "") ;;
  console_print ("[cyan]Total count: " ++ pretty count ++ "[/cyan]") None ;;
  (if Nat.eqb count 0 then
     console_print "[yellow]No entries found[/yellow]" None
   else if Nat.ltb count 20 then
     for_each items (fun item =>
       let display_item :=
         if Nat.ltb 70 (String.length item) then PyStr.take 70 item ++ "..."
         else item in
       console_out (ConsoleBullet display_item))
   else
     console_print ("[yellow]Too many items to display (" ++ pretty count
                    ++ " repositories)[/yellow]") None ;;
     console_print "[yellow]Results saved to file[/yellow]" None) ;;
  console_out (ConsoleRule "" PyStr.nl).

(** *** Notification *)

Definition bullet_list (repos : list string) : field_value :=
  match repos with
  | [] => NoneText
  | _ => Bullets repos
  end.

Definition slack_payload (self : GitHubMonitor) (added_repos deleted_repos : list string)
    (ts : nat) : list attachment :=
  let added_count := List.length added_repos in
  let deleted_count := List.length deleted_repos in
  let color :=
    if Nat.ltb 0 added_count || Nat.ltb 0 deleted_count then "#ff9800" else "#36a64f" in
  [ {| a_color := color;
       a_title := "GitHub Repository Change Report for " ++ organization self;
       a_text := "Changes detected on " ++ today self;
       a_fields :=
         [ {| f_title := "Added Repositories (" ++ pretty added_count ++ ")";
              f_value := bullet_list added_repos; f_short := false |};
           {| f_title := "Deleted Repositories (" ++ pretty deleted_count ++ ")";
              f_value := bullet_list deleted_repos; f_short := false |} ];
       a_footer := "GitHub Repository Monitor";
       a_ts := ts |} ].

Definition slack_request (self : GitHubMonitor) (payload : list attachment) : request :=
  {| method := "POST"; url := slack_webhook_url self; params := [];
     headers := [("Content-Type", "application/json")];
     timeout := 10; json := Some payload |}.

Definition send_slack_notification (self : GitHubMonitor)
    (added_repos deleted_repos : list string) : M bool :=
  if negb (enable_slack self) || negb (PyStr.truthy (slack_webhook_url self)) then ret true
  else
    log_info "Sending notification to Slack" ;;
    w <- get ;;
    let payload := slack_payload self added_repos deleted_repos (clock w) in
    try_except
      (response <- send (slack_request self payload) ;;
       raise_for_status (fst response) ;;
       log_info "Slack notification sent successfully" ;;
       ret true)
      any_exception
      (fun e =>
         log_error ("Failed to send Slack notification: " ++ str_exn e) ;;
         ret false).

(** *** The run *)

Definition run (fuel : nat) (self : GitHubMonitor) : M bool :=
  if negb (PyStr.truthy (organization self)) then
    log_error "Organization name is not set. Use --org to set it." ;; ret false
  else
    token_bad <-
      (if PyStr.truthy (github_token self)
       then ok <- validate_token self ;; ret (negb ok)
       else ret false) ;;
    if (token_bad : bool) then
      log_error "Invalid GitHub token. Please check your token and try again." ;;
      ret false
    else
      org_ok <- validate_organization self ;;
      if negb org_ok then
        log_error ("Invalid organization: " ++ organization self
                   ++ ". Please check the name and try again.") ;;
        ret false
      else
        print_header "GitHub Repository Monitor" ;;
        log_info ("Starting repository monitoring for " ++ organization self) ;;
        backup_files self ;;
        current_repos <- fetch_repositories fuel self ;;
        match current_repos with
        | [] => log_error "Failed to fetch repositories" ;; ret false
        | _ :: _ =>
            previous_list_file <- find_previous_list self ;;
            match previous_list_file with
            | Some previous =>
                previous_repos <- load_list previous ;;
                let previous_date := PyStr.replace "repo-list-" "" previous in
                log_info ("Using previous list from " ++ previous_date ++ " for comparison") ;;
                diff <- compare_repositories self current_repos previous_repos ;;
                let added_repos := fst diff in
                let deleted_repos := snd diff in
                print_header "Repository Changes Report" ;;
                print_table added_repos "Added Repositories" ;;
                print_table deleted_repos "Deleted Repositories" ;;
                (if enable_slack self
                 then send_slack_notification self added_repos deleted_repos ;; ret tt
                 else ret tt)
            | None =>
                log_info "No previous repository list found. This is the first run." ;;
                print_header "Initial Repository Report" ;;
                print_table current_repos "Current Repositories"
            end ;;
            print_header "Summary" ;;
            match previous_list_file with
            | Some previous =>
                let previous_date := PyStr.replace "repo-list-" "" previous in
                previous_repos <- load_list previous ;;
                print_table previous_repos
                  ("Previous Repository List (" ++ previous_date ++ ")")
            | None => ret tt
            end ;;
            print_table current_repos ("Current Repository List (" ++ today self ++ ")") ;;
            log_info "Script completed successfully" ;;
            ret true
        end.

(** *** The command line *)

Record arguments := {
  arg_organization : option string;
  arg_github_token : option string;
  arg_slack_webhook_url : option string;
  arg_enable_slack : bool;
  arg_show_config : bool;
  arg_dry_run : bool }.

(** [bool(x)] for an optional string: neither [None] nor empty. *)
Definition given (x : option string) : bool :=
  match x with Some s => PyStr.truthy s | None => false end.

Definition main (fuel : nat) (args : arguments) : M nat :=
  monitor <- init ;;
  monitor <-
    (if given (arg_organization args) || given (arg_github_token args)
        || given (arg_slack_webhook_url args) || arg_enable_slack args
     then update_config monitor (arg_organization args) (arg_github_token args)
            (arg_slack_webhook_url args) (Some (arg_enable_slack args))
     else ret monitor) ;;
  if arg_show_config args then show_config monitor ;; ret 0
  else if negb (PyStr.truthy (organization monitor)) then
    console_print ("[red]Error:[/red] Organization name is required. "
                   ++ "Use --org to set it or check the configuration.") None ;;
    show_config monitor ;;
    ret 1
  else if negb (arg_dry_run args) then
    success <- run fuel monitor ;;
    ret (if (success : bool) then 0 else 1)
  else
    console_print "[yellow]Dry run mode:[/yellow] No changes will be made." None ;;
    show_config monitor ;;
    ret 0.

(** [if __name__ == "__main__"]: the exit code of the process. *)
Definition script (fuel : nat) (args : arguments) : M nat :=
  try_except (main fuel args) any_exception
    (fun e => print ("Error: " ++ str_exn e) ;; ret 1).

(** ** [setup_config.py]: the summary that ends [setup_configuration] *)

Module SetupConfig.

Definition configuration_summary (config : ini) : M unit :=
  console_print (PyStr.nl ++ "[bold]Configuration Summary:[/bold]") None ;;
  console_print ("Organization: " ++ ini_get config "Settings" "organization" "Not set")
    None ;;
  console_print
    ("GitHub token: " ++ PyStr.times "*" 8
     ++ (if Nat.ltb 4 (String.length (ini_get config "Settings" "github_token" ""))
         then PyStr.last 4 (ini_get config "Settings" "github_token" "Not set")
         else "Not set")) None ;;
  let slack_url := ini_get config "Settings" "slack_webhook_url" "" in
  console_print
    ("Slack webhook: " ++ PyStr.times "*" 20
     ++ (if Nat.ltb 8 (String.length slack_url) then PyStr.last 8 slack_url
         else "Not set")) None ;;
  enabled <- ini_getboolean config "Settings" "enable_slack" false ;;
  console_print ("Slack notifications: " ++ (if (enabled : bool) then "Enabled" else "Disabled"))
    None.

End SetupConfig.

(** ** [setup_config.py]: the whole utility *)

Module Setup.

(** A response body, as [response.json().get(...)] sees it here: the utility
    reads the "login" of the user and the "message" of an error. *)
Inductive jbody :=
| NotJson
| JObject (login message : option string)
| NotAnObject.    (* a list, a number, a string, null *)

Inductive answer :=
| Failed (msg : string)                 (* the call raises a RequestException *)
| Response (status_code : nat) (b : jbody).

(** The GitHub API answers the [n]-th request of an invocation. *)
Definition api := nat -> request -> answer.

(** [requests.get(url, headers=headers, timeout=timeout)] *)
Definition requests_get (net : api) (url : string) (headers : list (string * string))
    (timeout : nat) : M (nat * jbody) :=
  fun w =>
    let r := {| method := "GET"; url := url; params := []; headers := headers;
                timeout := timeout; json := None |} in
    match net (List.length (sent w)) r with
    | Failed msg => (Raise (RequestException msg), record_request r w)
    | Response st b => (Ok (st, b), record_request r w)
    end.

(** [response.json()] as far as [.get] goes: the login and the message of an
    object. *)
Definition response_object (b : jbody) : M (option string * option string) :=
  match b with
  | NotJson => raise JSONDecodeError
  | JObject login message => ret (login, message)
  | NotAnObject => raise (AttributeError "object has no attribute 'get'")
  end.

(** [f"{x}"] for an optional string. *)
Definition str_option (x : option string) : string :=
  match x with Some s => s | None => "None" end.

(** [config[section][option] = value] *)
Definition set_option (config : ini) (section option value : string) : M ini :=
  match config !! section with
  | Some s => ret (<[ section := <[ option := value ]> s ]> config)
  | None => raise (KeyError section)
  end.

(** The command line: [--enable-slack] and [--disable-slack] store True and
    False in the same place, which is None without them. *)
Record arguments := {
  args_token : option string;
  args_org : option string;
  args_slack : option string;
  args_enable_slack : option bool }.

Definition create_config_directory : M string :=
  w <- get ;;
  let config_dir := home w ++ "/.config/github-monitor" in
  makedirs config_dir ;;
  ret config_dir.

Definition load_existing_config : M (ini * string) :=
  config_dir <- create_config_directory ;;
  let config_file := config_dir ++ "/config.ini" in
  w <- get ;;
  match config_ini w with
  | Some from_file =>
      let config := ini_read from_file ∅ in
      console_print "[green]Loaded existing configuration[/green]" None ;;
      ret (config, config_file)
  | None =>
      let config := <[ "Settings" := settings_section "" "" "" "False" ]> ∅ in
      console_print "[yellow]No existing configuration found, creating new[/yellow]" None ;;
      ret (config, config_file)
  end.

(** The check mark and the cross are held as their UTF-8 bytes. *)
Definition validate_github_token (net : api) (token : string) : M bool :=
  if negb (PyStr.truthy token) then ret false
  else
    let headers := [("Authorization", "token " ++ token);
                    ("Accept", "application/vnd.github.v3+json");
                    ("User-Agent", "GitHub-Repository-Monitor")] in
    try_except
      (response <- requests_get net "https://api.github.com/user" headers 10 ;;
       if Nat.eqb (fst response) 200 then
         o <- response_object (snd response) ;;
         let username := fst o in
         console_print ("[green]✓ Token valid! Authenticated as: "
                        ++ str_option username ++ "[/green]") None ;;
         ret true
       else
         o <- response_object (snd response) ;;
         let error_msg := default "Unknown error" (snd o) in
         console_print ("[red]✗ Token validation failed: " ++ error_msg ++ "[/red]") None ;;
         ret false)
      any_exception
      (fun e =>
         console_print ("[red]✗ Error validating token: " ++ str_exn e ++ "[/red]") None ;;
         ret false).

Definition validate_organization (net : api) (token org_name : string) : M bool :=
  if negb (PyStr.truthy org_name) then ret false
  else
    let headers := [("Accept", "application/vnd.github.v3+json");
                    ("User-Agent", "GitHub-Repository-Monitor")] in
    let headers :=
      if PyStr.truthy token then app headers [("Authorization", "token " ++ token)]
      else headers in
    try_except
      (response <- requests_get net ("https://api.github.com/orgs/" ++ org_name)
                     headers 10 ;;
       if Nat.eqb (fst response) 200 then
         console_print ("[green]✓ Organization '" ++ org_name
                        ++ "' exists and is accessible[/green]") None ;;
         ret true
       else
         o <- response_object (snd response) ;;
         let error_msg := default "Unknown error" (snd o) in
         console_print ("[red]✗ Organization validation failed: " ++ error_msg
                        ++ "[/red]") None ;;
         ret false)
      any_exception
      (fun e =>
         console_print ("[red]✗ Error validating organization: " ++ str_exn e
                        ++ "[/red]") None ;;
         ret false).

(** [if x:] for an argument that is a string or None: the string, when it is
    there and not empty. *)
Definition if_given (x : option string) : option string :=
  match x with
  | Some s => if PyStr.truthy s then Some s else None
  | None => None
  end.

Definition setup_configuration (net : api) (args : arguments) : M unit :=
  console_print "[bold]GitHub Repository Monitor Configuration[/bold]" None ;;
  loaded <- load_existing_config ;;
  let config := fst loaded in
  let config_file := snd loaded in
  let current_org := ini_get config "Settings" "organization" "" in
  let current_token := ini_get config "Settings" "github_token" "" in
  let current_slack_url := ini_get config "Settings" "slack_webhook_url" "" in
  current_enable_slack <- ini_getboolean config "Settings" "enable_slack" false ;;
  config <-
    match if_given (args_token args) with
    | Some token =>
        console_print "[bold]GitHub Token Configuration[/bold]" None ;;
        valid <- validate_github_token net token ;;
        if (valid : bool) then
          config <- set_option config "Settings" "github_token" token ;;
          console_print "[green]GitHub token updated and validated successfully[/green]"
            None ;;
          ret config
        else
          console_print "[yellow]Token validation failed, but saving anyway[/yellow]" None ;;
          set_option config "Settings" "github_token" token
    | None =>
        if PyStr.truthy current_token then
          console_print "[bold]GitHub Token Configuration[/bold]" None ;;
          console_print ("Current token: " ++ PyStr.times "*" 8
                         ++ (if Nat.ltb 4 (String.length current_token)
                             then PyStr.last 4 current_token else "")) None ;;
          console_print "Validating existing token..." None ;;
          validate_github_token net current_token ;;
          ret config
        else
          console_print "[yellow]No GitHub token set. Please provide one with --token[/yellow]"
            None ;;
          ret config
    end ;;
  config <-
    match if_given (args_org args) with
    | Some org_name =>
        console_print "[bold]GitHub Organization Configuration[/bold]" None ;;
        let token := ini_get config "Settings" "github_token" "" in
        valid <- (if PyStr.truthy token then validate_organization net token org_name
                  else ret false) ;;
        if (valid : bool) then
          config <- set_option config "Settings" "organization" org_name ;;
          console_print ("[green]Organization '" ++ org_name
                         ++ "' validated and saved[/green]") None ;;
          ret config
        else
          console_print ("[yellow]Organization '" ++ org_name
                         ++ "' could not be validated, but saving anyway[/yellow]") None ;;
          set_option config "Settings" "organization" org_name
    | None =>
        if PyStr.truthy current_org then
          console_print "[bold]GitHub Organization Configuration[/bold]" None ;;
          console_print ("Current organization: " ++ current_org) None ;;
          (if PyStr.truthy (ini_get config "Settings" "github_token" "") then
             console_print "Validating existing organization..." None ;;
             validate_organization net (ini_get config "Settings" "github_token" "")
               current_org ;;
             ret tt
           else ret tt) ;;
          ret config
        else
          console_print "[yellow]No organization set. Please provide one with --org[/yellow]"
            None ;;
          ret config
    end ;;
  config <-
    match if_given (args_slack args) with
    | Some slack =>
        console_print "[bold]Slack Notifications Configuration[/bold]" None ;;
        config <- set_option config "Settings" "slack_webhook_url" slack ;;
        config <- set_option config "Settings" "enable_slack" "True" ;;
        console_print "[green]Slack webhook URL saved and notifications enabled[/green]"
          None ;;
        ret config
    | None =>
        match args_enable_slack args with
        | Some enable =>
            console_print "[bold]Slack Notifications Configuration[/bold]" None ;;
            if PyStr.truthy current_slack_url then
              config <- set_option config "Settings" "enable_slack" (PyStr.of_bool enable) ;;
              let status := if (enable : bool) then "enabled" else "disabled" in
              console_print ("[green]Slack notifications " ++ status ++ "[/green]") None ;;
              ret config
            else
              console_print
                "[yellow]Cannot enable Slack notifications without a webhook URL[/yellow]"
                None ;;
              ret config
        | None =>
            if PyStr.truthy current_slack_url then
              console_print "[bold]Slack Notifications Configuration[/bold]" None ;;
              console_print ("Current Slack webhook URL: " ++ PyStr.times "*" 20
                             ++ (if Nat.ltb 8 (String.length current_slack_url)
                                 then PyStr.last 8 current_slack_url else "")) None ;;
              console_print ("Slack notifications: "
                             ++ (if (current_enable_slack : bool)
                                 then "Enabled" else "Disabled")) None ;;
              ret config
            else ret config
        end
    end ;;
  modify (set_config_ini (Some config)) ;;
  console_print ("[green]✓ Configuration saved to " ++ config_file ++ "[/green]") None ;;
  SetupConfig.configuration_summary config.

(** [if __name__ == "__main__"]: the exit code of the process. *)
Definition script (net : api) (args : arguments) : M nat :=
  try_except (setup_configuration net args ;; ret 0) any_exception
    (fun e =>
       console_print ("[red]Error during configuration: " ++ str_exn e ++ "[/red]") None ;;
       ret 1).

End Setup.

(** ** Worlds and inputs for the examples *)

Module Examples.

(** A clock that always shows the morning of 2 January 2024. *)
Definition frozen_time (fmt : string) (t : nat) : string :=
  if String.eqb fmt "%Y-%m-%d" then "2024-01-02" else "2024-01-02 09:00:00".

(** An empty working directory, no configuration file, and the network
    [n]. *)
Definition fresh (n : network) : world :=
  {| files := ∅; dirs := ∅; config_ini := None; home := "/home/user";
     console := []; clock := 0; strftime := frozen_time;
     net := n; sent := [] |}.

Definition offline : network := fun _ _ => Failed "Connection refused".

Definition acme : GitHubMonitor :=
  {| config := ∅; config_file := "/home/user/.config/github-monitor/config.ini";
     organization := "acme"; github_token := ""; slack_webhook_url := "";
     enable_slack := false; today := "2024-01-02" |}.

(** [n] repository names [prefix0], [prefix1], ... *)
Definition names (prefix : string) (n : nat) : list string :=
  map (fun i => prefix ++ pretty i) (seq 0 n).


(** A network that serves pages of 100, 100 and 37 repositories. *)
Definition three_pages : network :=
  fun n _ =>
    match n with
    | 0 => Response 200 (JArray (map Repo (names "acme/a" 100)))
    | 1 => Response 200 (JArray (map Repo (names "acme/b" 100)))
    | 2 => Response 200 (JArray (map Repo (names "acme/c" 37)))
    | _ => Failed "Connection reset"
    end.

(** A network that serves a page of 100 repositories and then an empty
    page. *)
Definition full_page_then_empty : network :=
  fun n _ =>
    match n with
    | 0 => Response 200 (JArray (map Repo (names "acme/a" 100)))
    | _ => Response 200 (JArray [])
    end.

(** A world whose configuration file names the organization "acme". *)
Definition configured (n : network) : world :=
  {| files := ∅; dirs := ∅;
     config_ini := Some {[ "Settings" := settings_section "acme" "" "" "False" ]};
     home := "/home/user"; console := []; clock := 0;
     strftime := frozen_time; net := n; sent := [] |}.

(** The command line without any flag, and with [--dry-run] alone. *)
Definition no_flags : arguments :=
  {| arg_organization := None; arg_github_token := None;
     arg_slack_webhook_url := None; arg_enable_slack := false;
     arg_show_config := false; arg_dry_run := false |}.


(** The organization exists and has no repository. *)
Definition empty_organization : network :=
  fun n _ =>
    match n with
    | 0 => Response 200 (JObject None)
    | _ => Response 200 (JArray [])
    end.

(** The organization exists, has three repositories, and the webhook
    cannot be reached. *)
Definition webhook_unreachable : network :=
  fun n _ =>
    match n with
    | 0 => Response 200 (JObject None)
    | 1 => Response 200 (JArray [Repo "acme/a"; Repo "acme/c"; Repo "acme/d"])
    | _ => Failed "Connection refused"
    end.

(** A world with yesterday's snapshot, and a configuration that turns the
    notification on. *)
Definition notifying (n : network) : world :=
  {| files :=
       {[ "repo-list-2024-01-01" :=
            {| mtime := 0; data := snapshot_text ["acme/a"; "acme/b"; "acme/c"] |} ]};
     dirs := ∅;
     config_ini :=
       Some {[ "Settings" :=
                 settings_section "acme" "" "https://hooks.example/T1" "True" ]};
     home := "/home/user"; console := []; clock := 0;
     strftime := frozen_time; net := n; sent := [] |}.

End Examples.

(** ** Further inputs for the examples *)

Module Samples.

(** A page whose second entry has no [full_name]. *)
Definition broken_page : network :=
  fun _ _ => Response 200 (JArray [Repo "acme/api"; NoFullName]).

(** Every request is answered with the status 200. *)
Definition always_200 : network := fun _ _ => Response 200 (JObject None).

Definition acme_with_token : GitHubMonitor :=
  with_settings "acme" "ghp_0123456789" "" false Examples.acme.


(** [--show-config] *)
Definition show_only : arguments :=
  {| arg_organization := None; arg_github_token := None;
     arg_slack_webhook_url := None; arg_enable_slack := false;
     arg_show_config := true; arg_dry_run := false |}.

(** A configuration file edited by hand: [enable_slack = maybe]. *)
Definition edited (n : network) : world :=
  set_config_ini
    (Some {[ "Settings" := settings_section "acme" "" "" "maybe" ]})
    (Examples.fresh n).

(** The GitHub API cannot be reached. *)
Definition api_offline : Setup.api := fun _ _ => Setup.Failed "Connection refused".

(** [--token ghp_0123456789 --org acme] *)
Definition token_and_org : Setup.arguments :=
  {| Setup.args_token := Some "ghp_0123456789"; Setup.args_org := Some "acme";
     Setup.args_slack := None; Setup.args_enable_slack := None |}.

(** A configuration file without a section. *)
Definition no_section : world := set_config_ini (Some ∅) (Examples.fresh Examples.offline).

End Samples.

(** * The vocabulary of the properties *)

(** The spec's reading of the differ: scanning [l] in order and keeping
    exactly the entries that are not in [other]. *)
Inductive kept_from (other : list string) : list string -> list string -> Prop :=
| kept_nil : kept_from other [] []
| kept_keep x l r : x ∉ other -> kept_from other l r -> kept_from other (x :: l) (x :: r)
| kept_drop x l r : x ∈ other -> kept_from other l r -> kept_from other (x :: l) r.

(** An identifier that a snapshot file holds as it is: no white space at
    either end and no line break inside. *)
Definition plain (item : string) : Prop :=
  PyStr.strip item = item
  /\ PyStr.has_char PyStr.LF item = false
  /\ PyStr.has_char PyStr.CR item = false.

(** Printing the lines [l] one after the other. *)
Definition emit_all (l : list output) (w : world) : world :=
  foldl (fun w o => emit o w) w l.

(** What [print_table] shows of one entry. *)
Definition display_item (item : string) : string :=
  if Nat.ltb 70 (String.length item) then PyStr.take 70 item ++ "..." else item.

(** The lines of [print_table] between the header and the closing rule. *)
Definition table_body (items : list string) : list output :=
  if Nat.eqb (List.length items) 0 then
    [ConsolePrint "[yellow]No entries found[/yellow]" None]
  else if Nat.ltb (List.length items) 20 then
    map (fun item => ConsoleBullet (display_item item)) items
  else
    [ConsolePrint ("[yellow]Too many items to display (" ++ pretty (List.length items)
                   ++ " repositories)[/yellow]") None;
     ConsolePrint "[yellow]Results saved to file[/yellow]" None].

Definition table_lines (items : list string) (title : string) : list output :=
  [ConsoleRule PyStr.nl "";
   ConsolePrint ("[bold]" ++ title ++ "[/bold]") None;
   ConsoleRule "" "";
   ConsolePrint ("[cyan]Total count: " ++ pretty (List.length items) ++ "[/cyan]") None]
  ++ table_body items ++ [ConsoleRule "" PyStr.nl].


(** The world after [log level message]. *)
Definition logged (level message : string) (w : world) : world :=
  snd (log level message w).

(** What an answer of the network is to [get_page]: the exception that
    [session.get] or [raise_for_status] raises, or the response. *)
Definition outcome (a : http_result) : exn + nat * body :=
  match a with
  | Failed msg => inl (RequestException msg)
  | Response st b =>
      if Nat.leb 400 st && Nat.ltb st 600 then inl (HTTPError st) else inr (st, b)
  end.

Definition retry_message (attempt : nat) (e : exn) : string :=
  "API call failed (attempt " ++ pretty (attempt + 1) ++ "): "
  ++ str_exn e ++ ". Retrying...".

(** The world after a page of [count] names was taken in. *)
Definition page_taken (self : GitHubMonitor) (headers : list (string * string))
    (page count total_repos : nat) (w : world) : world :=
  logged "INFO"
    ("Retrieved " ++ pretty count ++ " repositories on page " ++ pretty page
     ++ " (total: " ++ pretty (total_repos + count) ++ ")")
    (record_request (repos_request self headers page) w).

(** The world after a failed attempt that is tried again. *)
Definition retried (self : GitHubMonitor) (headers : list (string * string))
    (page attempt : nat) (e : exn) (w : world) : world :=
  advance 2 (logged "WARNING" (retry_message attempt e)
               (record_request (repos_request self headers page) w)).

Definition is_page_request (self : GitHubMonitor) (headers : list (string * string))
    (r : request) : Prop :=
  method r = "GET" /\ ("per_page", PInt 100) ∈ params r
  /\ exists page, r = repos_request self headers page.

(** The world when [fetch_repositories] reaches its loop. *)
Definition started (self : GitHubMonitor) (w : world) : world :=
  let w1 := logged "INFO" ("Fetching repositories for " ++ organization self) w in
  if negb (PyStr.truthy (github_token self))
  then logged "WARNING" "GitHub token not provided. API rate limits may apply." w1
  else w1.

(** The steps of [run] before the fetch: whether the run goes on. *)
Definition checks (self : GitHubMonitor) : M bool :=
  if negb (PyStr.truthy (organization self)) then
    log_error "Organization name is not set. Use --org to set it." ;; ret false
  else
    token_bad <-
      (if PyStr.truthy (github_token self)
       then ok <- validate_token self ;; ret (negb ok)
       else ret false) ;;
    if (token_bad : bool) then
      log_error "Invalid GitHub token. Please check your token and try again." ;;
      ret false
    else
      org_ok <- validate_organization self ;;
      if negb org_ok then
        log_error ("Invalid organization: " ++ organization self
                   ++ ". Please check the name and try again.") ;;
        ret false
      else
        print_header "GitHub Repository Monitor" ;;
        log_info ("Starting repository monitoring for " ++ organization self) ;;
        backup_files self ;;
        ret true.

(** The steps of [run] after a fetch that gave [current_repos]. *)
Definition report (self : GitHubMonitor) (current_repos : list string) : M bool :=
  previous_list_file <- find_previous_list self ;;
  match previous_list_file with
  | Some previous =>
      previous_repos <- load_list previous ;;
      let previous_date := PyStr.replace "repo-list-" "" previous in
      log_info ("Using previous list from " ++ previous_date ++ " for comparison") ;;
      diff <- compare_repositories self current_repos previous_repos ;;
      let added_repos := fst diff in
      let deleted_repos := snd diff in
      print_header "Repository Changes Report" ;;
      print_table added_repos "Added Repositories" ;;
      print_table deleted_repos "Deleted Repositories" ;;
      (if enable_slack self
       then send_slack_notification self added_repos deleted_repos ;; ret tt
       else ret tt)
  | None =>
      log_info "No previous repository list found. This is the first run." ;;
      print_header "Initial Repository Report" ;;
      print_table current_repos "Current Repositories"
  end ;;
  print_header "Summary" ;;
  match previous_list_file with
  | Some previous =>
      let previous_date := PyStr.replace "repo-list-" "" previous in
      previous_repos <- load_list previous ;;
      print_table previous_repos
        ("Previous Repository List (" ++ previous_date ++ ")")
  | None => ret tt
  end ;;
  print_table current_repos ("Current Repository List (" ++ today self ++ ")") ;;
  log_info "Script completed successfully" ;;
  ret true.

(** [main] up to the monitor it works with: construction, and the update of
    the configuration when a setting is given. *)
Definition startup (args : arguments) : M GitHubMonitor :=
  monitor <- init ;;
  if given (arg_organization args) || given (arg_github_token args)
     || given (arg_slack_webhook_url args) || arg_enable_slack args
  then update_config monitor (arg_organization args) (arg_github_token args)
         (arg_slack_webhook_url args) (Some (arg_enable_slack args))
  else ret monitor.

(** The rest of [main]. *)
Definition dispatch (fuel : nat) (args : arguments) (monitor : GitHubMonitor) : M nat :=
  if arg_show_config args then show_config monitor ;; ret 0
  else if negb (PyStr.truthy (organization monitor)) then
    console_print ("[red]Error:[/red] Organization name is required. "
                   ++ "Use --org to set it or check the configuration.") None ;;
    show_config monitor ;;
    ret 1
  else if negb (arg_dry_run args) then
    success <- run fuel monitor ;;
    ret (if (success : bool) then 0 else 1)
  else
    console_print "[yellow]Dry run mode:[/yellow] No changes will be made." None ;;
    show_config monitor ;;
    ret 0.


(** The worlds after the steps of the report. *)
Definition header_printed (title : string) (w : world) : world :=
  snd (print_header title w).

Definition compared (self : GitHubMonitor) (current previous : list string)
    (w : world) : world :=
  snd (compare_repositories self current previous w).

Definition notified (self : GitHubMonitor) (added_repos deleted_repos : list string)
    (w : world) : world :=
  snd (send_slack_notification self added_repos deleted_repos w).

Definition config_dir (w : world) : string := home w ++ "/.config/github-monitor".

(** What a step leaves alone when all it does to the disk is appending to
    the log, making the configuration directory, or writing the configuration
    file: the network is not used and every other file is as it was. *)
Definition quiet (w w' : world) : Prop :=
  sent w' = sent w
  /\ home w' = home w
  /\ (forall path, path <> log_file -> files w' !! path = files w !! path)
  /\ (forall d, d ∈ dirs w' -> d ∈ dirs w \/ d = config_dir w).


(** Where [backup_files] puts the file [name]. *)
Definition backup_path (self : GitHubMonitor) (name : string) : string :=
  path_join (backup_dir self) ("old_" ++ name).

(** The three files of the day. *)
Definition files_of_the_day (self : GitHubMonitor) : list string :=
  [repo_list_file self; added_repos_file self; deleted_repos_file self].


(** The names that [find_previous_list] chooses from. *)
Definition candidates (self : GitHubMonitor) (w : world) : list string :=
  filter (fun f => Is_true (PyStr.startswith "repo-list-" f
                            && negb (String.eqb f (repo_list_file self))))
    (listdir w).


(** A value that [ConfigParser] gives back as it was stored: one line,
    without white space at its ends and without the interpolation sign. The
    configuration file is held as sections of options, which is exact for
    such values. *)
Definition storable (value : string) : Prop :=
  plain value /\ PyStr.has_char "%"%char value = false.

Definition organization_request (self : GitHubMonitor) : request :=
  {| method := "GET"; url := "https://api.github.com/orgs/" ++ organization self;
     params := []; headers := _get_auth_headers self; timeout := 10; json := None |}.

Definition user_request (self : GitHubMonitor) : request :=
  {| method := "GET"; url := "https://api.github.com/user";
     params := []; headers := _get_auth_headers self; timeout := 10; json := None |}.

(** Nothing on the disk changes but the log. *)
Definition log_only (w w' : world) : Prop :=
  (forall path, path <> log_file -> files w' !! path = files w !! path)
  /\ dirs w' = dirs w /\ config_ini w' = config_ini w.

(** The paths that a run of the day may write: the files of the day, their
    backups and the log. *)
Definition of_the_day (self : GitHubMonitor) (path : string) : Prop :=
  path = log_file
  \/ path ∈ files_of_the_day self
  \/ exists f, f ∈ files_of_the_day self /\ path = backup_path self f.

(** What the log file holds; nothing when it is not there. *)
Definition log_content (w : world) : string :=
  match files w !! log_file with Some f => data f | None => "" end.

(** The log of [w'] is the log of [w] with lines added at its end. *)
Definition log_extended (w w' : world) : Prop :=
  exists more, log_content w' = log_content w ++ more.

(** The files of the day of [self] and their backups are among the paths
    that may be written. *)
Definition may_write (writable : string -> Prop) (self : GitHubMonitor) : Prop :=
  forall f, f ∈ files_of_the_day self -> writable f /\ writable (backup_path self f).

(** The requests of a run of [self]: the two validation calls, the pages of
    the listing, and the notification. *)
Definition run_request (self : GitHubMonitor) (r : request) : Prop :=
  r = user_request self \/ r = organization_request self
  \/ (exists page, r = repos_request self (_get_auth_headers self) page)
  \/ (exists payload, r = slack_request self payload).

(** The requests of a run of [self] are among the requests that may be made. *)
Definition may_request (allowed : request -> Prop) (self : GitHubMonitor) : Prop :=
  forall r, run_request self r -> allowed r.

(** [m], started in [w], ends with a result and in a world that satisfy [Q]. *)
Definition wp {A} (m : M A) (Q : result A -> world -> Prop) (w : world) : Prop :=
  Q (fst (m w)) (snd (m w)).

(** The configuration that the utility starts from: the file, or the
    defaults when there is none. *)
Definition starting_config (w : world) : ini :=
  match config_ini w with
  | Some from_file => from_file
  | None => <[ "Settings" := settings_section "" "" "" "False" ]> ∅
  end.



(** A request of the setup utility: a GET to the GitHub API, with a token in
    its [Authorization] header. *)
Definition authenticated (r : request) : Prop :=
  method r = "GET" /\ timeout r = 10
  /\ PyStr.startswith "https://api.github.com/" (url r) = true
  /\ exists token, PyStr.truthy token = true
                   /\ ("Authorization", "token " ++ token) ∈ headers r.

(** From [w] to [w'] the requests [rs] were made and nothing was written. *)
Definition requested (rs : list request) (w w' : world) : Prop :=
  sent w' = (sent w ++ rs)%list
  /\ config_ini w' = config_ini w /\ files w' = files w /\ home w' = home w.

(** Whatever happens in [m], it makes at most [n] requests, each of them
    with the token, and writes no file of the working directory. *)
Definition asks {A} (n : nat) (m : M A) : Prop :=
  forall w, exists rs,
    sent (snd (m w)) = (sent w ++ rs)%list
    /\ List.length rs <= n /\ Forall authenticated rs
    /\ files (snd (m w)) = files w.


(** * Properties *)

(** ** The differ *)

Lemma filter_kept_from (other l : list string) :
  kept_from other l (filter (fun repo => repo ∉ other) l).
Proof.
  induction l as [|x l IH]; [constructor|].
  destruct (decide (x ∈ other)) as [Hin|Hnin].
  - rewrite filter_cons_False by (intros H; apply H, Hin).
    by apply kept_drop.
  - rewrite filter_cons_True by exact Hnin.
    by apply kept_keep.
Qed.

Lemma kept_from_unique (other l r1 r2 : list string) :
  kept_from other l r1 -> kept_from other l r2 -> r1 = r2.
Proof.
  intros H1; revert r2.
  induction H1 as [|x l r Hx _ IH|x l r Hx _ IH]; intros r2 H2;
    inversion H2; subst; try done.
  - f_equal. by apply IH.
  - by apply IH.
Qed.

Lemma filter_subset_nil (other l : list string) :
  (forall x, x ∈ l -> x ∈ other) -> filter (fun repo => repo ∉ other) l = [].
Proof.
  induction l as [|a l IH]; intros Hsub; [done|].
  rewrite filter_cons_False.
  - apply IH. intros x Hx. apply Hsub. by right.
  - intros H. apply H, Hsub. by left.
Qed.

Lemma filter_members_nil (l : list string) :
  filter (fun repo => repo ∉ l) l = [].
Proof. by apply filter_subset_nil. Qed.

Lemma compare_repositories_value (self : GitHubMonitor) (current previous : list string)
    (w : world) :
  fst (compare_repositories self current previous w)
  = Ok (filter (fun repo => repo ∉ previous) current,
        filter (fun repo => repo ∉ current) previous).
Proof. reflexivity. Qed.

(** C3: the differ returns as added exactly the identifiers of current that
    are not in previous, in the order of current, and as deleted exactly the
    identifiers of previous that are not in current, in the order of
    previous. *)
Theorem compare_repositories_exact (self : GitHubMonitor)
    (current previous : list string) (w : world) :
  exists added deleted,
    fst (compare_repositories self current previous w) = Ok (added, deleted)
    /\ kept_from previous current added
    /\ kept_from current previous deleted
    /\ (forall r, kept_from previous current r -> r = added)
    /\ (forall r, kept_from current previous r -> r = deleted)
    /\ added `sublist_of` current
    /\ deleted `sublist_of` previous
    /\ (forall x, x ∈ added <-> x ∈ current /\ x ∉ previous)
    /\ (forall x, x ∈ deleted <-> x ∈ previous /\ x ∉ current).
Proof.
  eexists _, _. split; [apply compare_repositories_value|].
  split; [apply filter_kept_from|].
  split; [apply filter_kept_from|].
  split.
  { intros r Hr. eapply kept_from_unique; [exact Hr|apply filter_kept_from]. }
  split.
  { intros r Hr. eapply kept_from_unique; [exact Hr|apply filter_kept_from]. }
  split; [apply sublist_filter|].
  split; [apply sublist_filter|].
  split; intros x; rewrite list_elem_of_filter; tauto.
Qed.

(** C4: added and deleted are disjoint, together they are the symmetric
    difference of the two snapshots, added(A,B) is deleted(B,A), and a
    snapshot diffed against itself gives two empty lists. *)
Theorem compare_repositories_algebra (self : GitHubMonitor) (A B : list string)
    (w w' : world) :
  exists added deleted added' deleted',
    fst (compare_repositories self A B w) = Ok (added, deleted)
    /\ fst (compare_repositories self B A w') = Ok (added', deleted')
    /\ (forall x, ~ (x ∈ added /\ x ∈ deleted))
    /\ (forall x, x ∈ added \/ x ∈ deleted
                  <-> (x ∈ A /\ x ∉ B) \/ (x ∈ B /\ x ∉ A))
    /\ added = deleted'
    /\ deleted = added'
    /\ fst (compare_repositories self A A w) = Ok ([], []).
Proof.
  eexists _, _, _, _.
  split; [apply compare_repositories_value|].
  split; [apply compare_repositories_value|].
  split; [|split; [|split; [|split]]].
  - intros x [Ha Hd]. apply list_elem_of_filter in Ha, Hd. tauto.
  - intros x. rewrite !list_elem_of_filter. tauto.
  - reflexivity.
  - reflexivity.
  - rewrite compare_repositories_value.
    by rewrite filter_members_nil.
Qed.

(** ** Snapshot files *)

Section StringFacts.
Import PyStr.
Local Arguments Ascii.eqb : simpl never.

Lemma has_char_app (c : ascii) (a b : string) :
  has_char c (a ++ b) = has_char c a || has_char c b.
Proof.
  induction a as [|d a IH]; simpl; [done|].
  rewrite IH. by rewrite orb_assoc.
Qed.

Lemma universal_newlines_id (s : string) :
  has_char CR s = false -> universal_newlines s = s.
Proof.
  induction s as [|c s IH]; simpl; [done|].
  intros H. apply orb_false_iff in H as [Hc Hs].
  rewrite Ascii.eqb_sym in Hc. rewrite Hc. by rewrite IH.
Qed.

Lemma lines_item (item rest : string) :
  has_char LF item = false ->
  lines ((item ++ nl) ++ rest) = (item ++ nl) :: lines rest.
Proof.
  induction item as [|c item IH]; simpl; [done|].
  intros H. apply orb_false_iff in H as [Hc Hs].
  rewrite Ascii.eqb_sym in Hc. rewrite Hc.
  by rewrite (IH Hs).
Qed.

Lemma lstrip_length (s : string) : String.length (lstrip s) <= String.length s.
Proof.
  induction s as [|c s IH]; simpl; [lia|].
  destruct (isspace c); simpl; lia.
Qed.

Lemma rstrip_length (s : string) : String.length (rstrip s) <= String.length s.
Proof.
  induction s as [|c s IH]; simpl; [lia|].
  destruct (rstrip s); [destruct (isspace c)|]; simpl in *; lia.
Qed.

Lemma rstrip_nl (s : string) : rstrip (s ++ nl) = rstrip s.
Proof.
  induction s as [|c s IH]; simpl; [done|].
  by rewrite IH.
Qed.

(** A string that [strip] leaves alone starts with no white space and is
    left alone by [rstrip]. *)
Lemma strip_fixed (c : ascii) (s : string) :
  strip (String c s) = String c s ->
  isspace c = false /\ rstrip (String c s) = String c s.
Proof.
  unfold strip. simpl lstrip.
  destruct (isspace c) eqn:Hc; [|done].
  intros H. exfalso.
  pose proof (rstrip_length (lstrip s)) as H1.
  pose proof (lstrip_length s) as H2.
  rewrite H in H1. simpl in H1. lia.
Qed.

Lemma strip_line (item : string) :
  strip item = item -> strip (item ++ nl) = item.
Proof.
  destruct item as [|c s]; [done|].
  intros H. destruct (strip_fixed c s H) as [Hc Hr].
  unfold strip. change (String c s ++ nl) with (String c (s ++ nl)).
  simpl lstrip. rewrite Hc.
  change (String c (s ++ nl)) with (String c s ++ nl).
  by rewrite rstrip_nl.
Qed.

Lemma truthy_ne (s : string) : Is_true (truthy s) <-> s <> "".
Proof. destruct s; simpl; split; (done || tauto). Qed.

End StringFacts.

Lemma snapshot_text_no_CR (items : list string) :
  (forall item, item ∈ items -> plain item) ->
  PyStr.has_char PyStr.CR (snapshot_text items) = false.
Proof.
  induction items as [|item items IH]; intros H; simpl; [done|].
  rewrite !has_char_app.
  destruct (H item) as (_ & _ & ->); [by left|].
  rewrite IH; [done|]. intros i Hi. apply H. by right.
Qed.

Lemma stripped_lines_snapshot (items : list string) :
  (forall item, item ∈ items -> plain item) ->
  stripped_lines (snapshot_text items) = filter (fun item => item <> "") items.
Proof.
  intros H. unfold stripped_lines, PyStr.readlines.
  rewrite universal_newlines_id by by apply snapshot_text_no_CR.
  induction items as [|item items IH]; simpl; [done|].
  destruct (H item) as (Hs & Hl & _); [by left|].
  rewrite lines_item by done.
  assert (forall i, i ∈ items -> plain i) as H' by (intros i Hi; apply H; by right).
  destruct (decide (item = "")) as [->|Hne].
  - rewrite filter_cons_False by (simpl; tauto).
    rewrite (filter_cons_False _ "") by tauto.
    by apply IH.
  - rewrite filter_cons_True.
    2:{ rewrite strip_line by done. by apply truthy_ne. }
    rewrite (filter_cons_True _ item) by done.
    simpl. rewrite strip_line by done. f_equal. by apply IH.
Qed.

(** C5, as the code has it: a list of identifiers without white space at
    their ends and without line breaks, saved to a snapshot file and loaded
    back, is the same list in the same order, without its empty entries. *)
Theorem save_load_roundtrip (items : list string) (filename : string) (w : world) :
  (forall item, item ∈ items -> plain item) ->
  fst (load_list filename (snd (_save_list_to_file items filename w)))
  = Ok (filter (fun item => item <> "") items).
Proof.
  intros H. unfold load_list, _save_list_to_file, write_file, read_file, bind, ret.
  simpl. rewrite lookup_insert_eq. simpl.
  by rewrite stripped_lines_snapshot.
Qed.

Lemma save_load_roundtrip_witness :
  fst (load_list "repo-list-2024-01-02"
         (snd (_save_list_to_file ["acme/api"; ""; "acme/web site"] "repo-list-2024-01-02"
                 (Examples.fresh Examples.offline))))
  = Ok ["acme/api"; "acme/web site"].
Proof.
  apply (save_load_roundtrip ["acme/api"; ""; "acme/web site"]).
  intros item Hi.
  repeat (apply elem_of_cons in Hi as [->|Hi]; [by vm_compute|]).
  by apply elem_of_nil in Hi.
Defined.

(** C5 as stated fails: an identifier with a leading blank comes back without
    it, so the loaded list is not the saved one, blank lines ignored or not. *)
Lemma save_load_padded_identifier :
  fst (load_list "repo-list-2024-01-02"
         (snd (_save_list_to_file [" acme/api"] "repo-list-2024-01-02"
                 (Examples.fresh Examples.offline))))
  = Ok ["acme/api"]
  /\ ["acme/api"] <> filter (fun item => item <> "") [" acme/api"].
Proof. split; [by vm_compute|]. by vm_compute. Qed.

(** ** The reporter *)

Lemma emit_all_app (l1 l2 : list output) (w : world) :
  emit_all (l1 ++ l2) w = emit_all l2 (emit_all l1 w).
Proof. apply foldl_app. Qed.

Lemma for_each_console_out {A} (f : A -> output) (l : list A) (w : world) :
  for_each l (fun x => console_out (f x)) w = (Ok tt, emit_all (map f l) w).
Proof.
  revert w. induction l as [|x l IH]; intros w; [done|].
  simpl. unfold bind at 1. unfold console_out at 1, modify at 1.
  apply IH.
Qed.

Lemma substring_prefix (n : nat) (s : string) :
  n <= String.length s ->
  String.length (String.substring 0 n s) = n
  /\ exists rest, s = String.substring 0 n s ++ rest.
Proof.
  revert s. induction n as [|n IH]; intros s Hn.
  - destruct s; simpl; split; eauto.
  - destruct s as [|c s]; simpl in *; [lia|].
    destruct (IH s) as [Hl [rest Hr]]; [lia|].
    split; [by rewrite Hl|]. exists rest.
    change (String c s = String c (String.substring 0 n s ++ rest)).
    by f_equal.
Qed.

Lemma print_table_lines (items : list string) (title : string) (w : world) :
  print_table items title w = (Ok tt, emit_all (table_lines items title) w).
Proof.
  unfold print_table, table_lines, table_body.
  rewrite !emit_all_app.
  destruct (Nat.eqb (List.length items) 0) eqn:H0; [reflexivity|].
  destruct (Nat.ltb (List.length items) 20) eqn:H20; [|reflexivity].
  unfold bind at 1 2 3 4 5. simpl.
  fold (display_item).
  change (fun item : string =>
            console_out
              (ConsoleBullet
                 (if Nat.ltb 70 (String.length item)
                  then PyStr.take 70 item ++ "..." else item)))
    with (fun item : string => console_out (ConsoleBullet (display_item item))).
  by rewrite (for_each_console_out (fun item => ConsoleBullet (display_item item))).
Qed.

(** C7: an empty list prints the no-entries message; a list of 1 to 19
    entries prints each entry on a line of its own, an entry of more than 70
    characters cut to its first 70 followed by three dots; a list of 20 or
    more entries prints only its count. *)
Theorem print_table_rule (items : list string) (title : string) (w : world) :
  exists body,
    print_table items title w
    = (Ok tt,
       emit_all
         ([ConsoleRule PyStr.nl "";
           ConsolePrint ("[bold]" ++ title ++ "[/bold]") None;
           ConsoleRule "" "";
           ConsolePrint ("[cyan]Total count: " ++ pretty (List.length items)
                         ++ "[/cyan]") None]
          ++ body ++ [ConsoleRule "" PyStr.nl]) w)
    /\ (List.length items = 0 ->
        body = [ConsolePrint "[yellow]No entries found[/yellow]" None])
    /\ (1 <= List.length items <= 19 ->
        List.length body = List.length items
        /\ forall i item, items !! i = Some item ->
             (String.length item <= 70 -> body !! i = Some (ConsoleBullet item))
             /\ (70 < String.length item ->
                 exists shown rest,
                   body !! i = Some (ConsoleBullet (shown ++ "..."))
                   /\ String.length shown = 70 /\ item = shown ++ rest))
    /\ (20 <= List.length items ->
        body = [ConsolePrint ("[yellow]Too many items to display ("
                              ++ pretty (List.length items)
                              ++ " repositories)[/yellow]") None;
                ConsolePrint "[yellow]Results saved to file[/yellow]" None]).
Proof.
  exists (table_body items).
  split; [apply print_table_lines|].
  unfold table_body.
  split; [by intros ->|].
  split.
  - intros [H1 H19].
    destruct (Nat.eqb_spec (List.length items) 0) as [|_]; [lia|].
    destruct (Nat.ltb_spec (List.length items) 20) as [_|]; [|lia].
    split; [by rewrite length_map|].
    intros i item Hi. rewrite list_lookup_fmap, Hi. simpl. unfold display_item.
    split.
    + intros Hle. destruct (Nat.ltb_spec 70 (String.length item)); [lia|done].
    + intros Hgt. destruct (Nat.ltb_spec 70 (String.length item)); [|lia].
      destruct (substring_prefix 70 item) as [Hl [rest Hr]]; [lia|].
      exists (PyStr.take 70 item), rest. done.
  - intros H20.
    destruct (Nat.eqb_spec (List.length items) 0) as [|_]; [lia|].
    destruct (Nat.ltb_spec (List.length items) 20) as [|_]; [lia|done].
Qed.

Lemma print_table_rule_witness :
  exists body,
    print_table (Examples.names "acme/r" 19) "Added Repositories"
      (Examples.fresh Examples.offline)
    = (Ok tt,
       emit_all
         ([ConsoleRule PyStr.nl "";
           ConsolePrint "[bold]Added Repositories[/bold]" None;
           ConsoleRule "" "";
           ConsolePrint "[cyan]Total count: 19[/cyan]" None]
          ++ body ++ [ConsoleRule "" PyStr.nl]) (Examples.fresh Examples.offline))
    /\ List.length body = 19.
Proof.
  destruct (print_table_rule (Examples.names "acme/r" 19) "Added Repositories"
              (Examples.fresh Examples.offline)) as (body & Hrun & _ & H19 & _).
  exists body. split; [exact Hrun|].
  apply H19. vm_compute. lia.
Defined.

(** ** Displaying the configuration *)










(** ** The fetcher *)

Lemma log_logged (level message : string) (w : world) :
  log level message w = (Ok tt, logged level message w).
Proof. reflexivity. Qed.

Lemma logged_files_other level message w path :
  path <> log_file -> files (logged level message w) !! path = files w !! path.
Proof. intros H. unfold logged, log. simpl. by rewrite lookup_insert_ne. Qed.


Section Fetch.
Variable self : GitHubMonitor.
Variable headers : list (string * string).

Local Arguments Nat.leb : simpl never.
Local Arguments Nat.ltb : simpl never.
Local Arguments Nat.eqb : simpl never.
Local Arguments log : simpl never.
Local Arguments pretty : simpl never.
Local Arguments String.append : simpl never.

Lemma get_page_cons (page attempt : nat) (rest : list nat) (w : world) :
  get_page self headers page (attempt :: rest) w
  = let req := repos_request self headers page in
    let w1 := record_request req w in
    match outcome (net w (List.length (sent w)) req) with
    | inl e =>
        if Nat.eqb attempt 2 then (Raise e, w1)
        else get_page self headers page rest
               (advance 2 (logged "WARNING" (retry_message attempt e) w1))
    | inr response => (Ok response, w1)
    end.
Proof.
  cbn [get_page]. unfold send, try_except, bind, http, outcome, raise_for_status.
  cbv beta zeta.
  destruct (net w (List.length (sent w)) (repos_request self headers page))
    as [msg|st b]; cbn.
  - destruct (Nat.eqb attempt 2); reflexivity.
  - destruct (Nat.leb 400 st && Nat.ltb st 600); cbn.
    + destruct (Nat.eqb attempt 2); reflexivity.
    + reflexivity.
Qed.

Lemma full_names_repos (names : list string) (w : world) :
  full_names (map Repo names) w = (Ok names, w).
Proof.
  revert w. induction names as [|n names IH]; intros w; [done|].
  simpl. unfold bind. by rewrite IH.
Qed.

Lemma fetch_page_names (repositories : list string) (page total_repos st : nat)
    (names : list string) (w : world) :
  net w (List.length (sent w)) (repos_request self headers page)
  = Response st (JArray (map Repo names)) ->
  Nat.leb 400 st && Nat.ltb st 600 = false ->
  names <> [] ->
  fetch_page self headers repositories page total_repos w
  = (Ok (if Nat.ltb (List.length names) 100 then Break else Continue,
         app repositories names,
         if Nat.ltb (List.length names) 100 then page else page + 1,
         total_repos + List.length names),
     page_taken self headers page (List.length names) total_repos w).
Proof.
  intros Hnet Hst Hne. unfold fetch_page, try_except, bind at 1.
  change (seq 0 3) with [0; 1; 2]. rewrite get_page_cons. cbn zeta.
  rewrite Hnet. unfold outcome. rewrite Hst. cbn [snd].
  destruct names as [|n names]; [done|].
  change (map Repo (n :: names)) with (Repo n :: map Repo names).
  unfold response_json, ret at 1, bind at 1.
  cbn beta iota.
  change (Repo n :: map Repo names) with (map Repo (n :: names)).
  unfold bind at 1. rewrite full_names_repos.
  unfold bind at 1, log_info. rewrite log_logged.
  unfold page_taken.
  destruct (Nat.ltb (List.length (n :: names)) 100); reflexivity.
Qed.

Lemma fetch_page_stops (repositories : list string) (page total_repos st : nat)
    (b : body) (w : world) :
  net w (List.length (sent w)) (repos_request self headers page) = Response st b ->
  Nat.leb 400 st && Nat.ltb st 600 = false ->
  b = JArray [] \/ b = JScalar \/ (exists m, b = JObject m) ->
  fetch_page self headers repositories page total_repos w
  = (Ok (Break, repositories, page, total_repos),
     record_request (repos_request self headers page) w).
Proof.
  intros Hnet Hst Hb. unfold fetch_page, try_except, bind at 1.
  change (seq 0 3) with [0; 1; 2]. rewrite get_page_cons. cbn zeta.
  rewrite Hnet. unfold outcome. rewrite Hst. cbn [snd].
  destruct Hb as [->|[->|[m ->]]]; reflexivity.
Qed.

End Fetch.

Section Retry.
Variable self : GitHubMonitor.
Variable headers : list (string * string).

Local Arguments Nat.leb : simpl never.
Local Arguments Nat.ltb : simpl never.
Local Arguments log : simpl never.
Local Arguments pretty : simpl never.
Local Arguments String.append : simpl never.
Local Arguments merge_sort : simpl never.

Lemma retried_net page attempt e w : net (retried self headers page attempt e w) = net w.
Proof. reflexivity. Qed.

Lemma retried_sent page attempt e w :
  List.length (sent (retried self headers page attempt e w)) = List.length (sent w) + 1.
Proof.
  change (sent (retried self headers page attempt e w))
    with (sent w ++ [repos_request self headers page])%list.
  by rewrite length_app.
Qed.



End Retry.




(** *** Pagination *)

Section Pagination.
Variable self : GitHubMonitor.
Variable headers : list (string * string).

Local Arguments Nat.leb : simpl never.
Local Arguments Nat.ltb : simpl never.
Local Arguments log : simpl never.
Local Arguments pretty : simpl never.
Local Arguments String.append : simpl never.
Local Arguments merge_sort : simpl never.

Lemma page_taken_net page count total w :
  net (page_taken self headers page count total w) = net w.
Proof. reflexivity. Qed.

Lemma page_taken_sent page count total w :
  sent (page_taken self headers page count total w)
  = (sent w ++ [repos_request self headers page])%list.
Proof. reflexivity. Qed.

Lemma page_taken_sent_length page count total w :
  List.length (sent (page_taken self headers page count total w))
  = List.length (sent w) + 1.
Proof. rewrite page_taken_sent. by rewrite length_app. Qed.

(** The requests of one page are all the same request for that page. *)
Lemma get_page_sent (page : nat) (attempts : list nat) (w : world) :
  exists k,
    sent (snd (get_page self headers page attempts w))
    = (sent w ++ replicate k (repos_request self headers page))%list.
Proof.
  revert w. induction attempts as [|attempt rest IH]; intros w.
  - exists 0. cbn. by rewrite app_nil_r.
  - rewrite get_page_cons. cbv zeta.
    destruct (outcome _) as [e|response].
    + destruct (Nat.eqb attempt 2).
      * by exists 1.
      * destruct (IH (advance 2 (logged "WARNING" (retry_message attempt e)
                        (record_request (repos_request self headers page) w))))
          as [k Hk].
        exists (S k). rewrite Hk.
        change (sent (advance 2 (logged "WARNING" (retry_message attempt e)
                        (record_request (repos_request self headers page) w))))
          with (sent w ++ [repos_request self headers page])%list.
        by rewrite <- app_assoc.
    + by exists 1.
Qed.

Lemma full_names_world (l : list item) (w : world) : snd (full_names l w) = w.
Proof.
  revert w. induction l as [|[name| |] l IH]; intros w; try reflexivity.
  cbn. unfold bind. specialize (IH w).
  destruct (full_names l w) as [[names|e|] w']; cbn in *; by subst.
Qed.

Lemma fetch_page_sent (repositories : list string) (page total_repos : nat) (w : world) :
  exists k,
    sent (snd (fetch_page self headers repositories page total_repos w))
    = (sent w ++ replicate k (repos_request self headers page))%list.
Proof.
  destruct (get_page_sent page (seq 0 3) w) as [k Hk]. exists k.
  rewrite <- Hk. unfold fetch_page, try_except, log_info, log_error, bind.
  destruct (get_page self headers page (seq 0 3) w) as [[[st b]|e|] w1];
    [|reflexivity|reflexivity].
  destruct b as [|m|[|i l]|]; try reflexivity.
  cbn [response_json snd]. unfold ret at 1. cbv beta iota.
  pose proof (full_names_world (i :: l) w1) as Hw.
  destruct (full_names (i :: l) w1) as [[names|e|] w2]; cbn in Hw; subst w2;
    [|reflexivity|reflexivity].
  rewrite log_logged.
  destruct (Nat.ltb (List.length names) 100); reflexivity.
Qed.

Lemma fetch_pages_sent (fuel : nat) (repositories : list string)
    (page total_repos : nat) (w : world) :
  exists rs,
    sent (snd (fetch_pages fuel self headers repositories page total_repos w))
    = (sent w ++ rs)%list
    /\ Forall (is_page_request self headers) rs.
Proof.
  revert repositories page total_repos w.
  induction fuel as [|fuel IH]; intros repositories page total_repos w.
  - exists []. split; [|constructor]. cbn. by rewrite app_nil_r.
  - cbn [fetch_pages]. unfold bind at 1.
    destruct (fetch_page_sent repositories page total_repos w) as [k Hk].
    assert (Forall (is_page_request self headers) (replicate k (repos_request self headers page)))
      as Hreq.
    { apply Forall_replicate. split; [done|]. split; [|by eexists].
      cbn. apply elem_of_cons. right. apply elem_of_cons. by left. }
    destruct (fetch_page self headers repositories page total_repos w)
      as [[[[[[|] repositories'] page'] total']|e|] w1]; cbn [snd] in Hk.
    + eexists. split; [exact Hk|exact Hreq].
    + destruct (IH repositories' page' total' w1) as (rs & Hrs & Hall).
      exists (replicate k (repos_request self headers page) ++ rs)%list.
      split; [|by apply Forall_app].
      rewrite Hrs, Hk. by rewrite app_assoc.
    + eexists. split; [exact Hk|exact Hreq].
    + eexists. split; [exact Hk|exact Hreq].
Qed.

End Pagination.

Section Scenarios.
Variable self : GitHubMonitor.

Local Arguments Nat.leb : simpl never.
Local Arguments Nat.ltb : simpl never.
Local Arguments log : simpl never.
Local Arguments pretty : simpl never.
Local Arguments String.append : simpl never.
Local Arguments merge_sort : simpl never.

Lemma started_net w : net (started self w) = net w.
Proof. unfold started. by destruct (negb _). Qed.

Lemma started_sent w : sent (started self w) = sent w.
Proof. unfold started. by destruct (negb _). Qed.

Lemma fetch_repositories_start (fuel : nat) (w : world) :
  PyStr.truthy (organization self) = true ->
  fetch_repositories fuel self w
  = fetch_from fuel self (_get_auth_headers self) [] 1 0 (started self w).
Proof.
  intros Horg. unfold fetch_repositories, started, bind at 1, log_info, log_warning.
  rewrite log_logged, Horg. cbn [negb]. unfold bind at 1.
  destruct (negb (PyStr.truthy (github_token self))); [rewrite log_logged|];
    reflexivity.
Qed.

Lemma fetch_repositories_no_organization (fuel : nat) (w : world) :
  PyStr.truthy (organization self) = false ->
  fetch_repositories fuel self w
  = (Ok [], logged "ERROR" "No organization name provided"
              (logged "INFO" ("Fetching repositories for " ++ organization self) w)).
Proof.
  intros Horg. unfold fetch_repositories, bind at 1, log_info, log_error.
  rewrite log_logged, Horg. reflexivity.
Qed.

Lemma fetch_repositories_sent (fuel : nat) (w : world) :
  exists rs,
    sent (snd (fetch_repositories fuel self w)) = (sent w ++ rs)%list
    /\ Forall (is_page_request self (_get_auth_headers self)) rs.
Proof.
  destruct (PyStr.truthy (organization self)) eqn:Horg.
  - rewrite fetch_repositories_start by done. unfold fetch_from, bind.
    destruct (fetch_pages_sent self (_get_auth_headers self) fuel [] 1 0
                (started self w)) as (rs & Hrs & Hall).
    exists rs. split; [|done].
    rewrite started_sent in Hrs.
    destruct (fetch_pages fuel self (_get_auth_headers self) [] 1 0 (started self w))
      as [[r|e|] w1]; cbn [snd] in *; done.
  - rewrite fetch_repositories_no_organization by done.
    exists []. split; [|constructor]. cbn [snd]. by rewrite app_nil_r.
Qed.

(** Three pages of 100, 100 and 37 entries. *)
Lemma fetch_from_100_100_37 (fuel : nat) (headers : list (string * string))
    (p1 p2 p3 : list string) (w : world) :
  let n := List.length (sent w) in
  net w n (repos_request self headers 1) = Response 200 (JArray (map Repo p1)) ->
  net w (n + 1) (repos_request self headers 2) = Response 200 (JArray (map Repo p2)) ->
  net w (n + 2) (repos_request self headers 3) = Response 200 (JArray (map Repo p3)) ->
  List.length p1 = 100 -> List.length p2 = 100 -> List.length p3 = 37 ->
  exists w',
    fetch_from (S (S (S fuel))) self headers [] 1 0 w
    = (Ok (merge_sort String.le (p1 ++ p2 ++ p3)), w')
    /\ sent w' = (sent w ++ [repos_request self headers 1; repos_request self headers 2;
                             repos_request self headers 3])%list.
Proof.
  intros n H1 H2 H3 L1 L2 L3. unfold n in *. clear n.
  unfold fetch_from. unfold bind at 1. cbn [fetch_pages]. unfold bind at 1.
  rewrite (fetch_page_names self headers [] 1 0 200 p1 w H1 eq_refl)
    by (intros ->; discriminate).
  rewrite L1. change (Nat.ltb 100 100) with false. cbv iota.
  unfold bind at 1.
  rewrite (fetch_page_names self headers _ 2 _ 200 p2).
  2:{ by rewrite page_taken_net, page_taken_sent_length. }
  2:{ reflexivity. }
  2:{ intros ->; discriminate. }
  rewrite L2. change (Nat.ltb 100 100) with false. cbv iota.
  unfold bind at 1.
  rewrite (fetch_page_names self headers _ 3 _ 200 p3).
  2:{ rewrite !page_taken_net, !page_taken_sent_length.
      by replace (List.length (sent w) + 1 + 1) with (List.length (sent w) + 2) by lia. }
  2:{ reflexivity. }
  2:{ intros ->; discriminate. }
  rewrite L3. change (Nat.ltb 37 100) with true. cbv iota.
  eexists. split.
  - cbn [fst snd ret]. unfold finish_fetch, bind, _save_list_to_file, log_info.
    rewrite app_assoc. reflexivity.
  - transitivity (((sent w ++ [repos_request self headers 1])
                   ++ [repos_request self headers 2])
                  ++ [repos_request self headers 3])%list; [reflexivity|].
    by rewrite <- !app_assoc.
Qed.

(** A page of 100 entries followed by an empty page. *)
Lemma fetch_from_100_0 (fuel : nat) (headers : list (string * string))
    (p1 : list string) (w : world) :
  let n := List.length (sent w) in
  net w n (repos_request self headers 1) = Response 200 (JArray (map Repo p1)) ->
  net w (n + 1) (repos_request self headers 2) = Response 200 (JArray []) ->
  List.length p1 = 100 ->
  exists w',
    fetch_from (S (S fuel)) self headers [] 1 0 w
    = (Ok (merge_sort String.le p1), w')
    /\ sent w' = (sent w ++ [repos_request self headers 1;
                             repos_request self headers 2])%list.
Proof.
  intros n H1 H2 L1. unfold n in *. clear n.
  unfold fetch_from. unfold bind at 1. cbn [fetch_pages]. unfold bind at 1.
  rewrite (fetch_page_names self headers [] 1 0 200 p1 w H1 eq_refl)
    by (intros ->; discriminate).
  rewrite L1. change (Nat.ltb 100 100) with false. cbv iota.
  unfold bind at 1.
  rewrite (fetch_page_stops self headers _ 2 _ 200 (JArray [])).
  2:{ by rewrite page_taken_net, page_taken_sent_length. }
  2:{ reflexivity. }
  2:{ by left. }
  eexists. split.
  - cbn [fst snd ret]. unfold finish_fetch, bind, _save_list_to_file, log_info.
    reflexivity.
  - transitivity ((sent w ++ [repos_request self headers 1])
                  ++ [repos_request self headers 2])%list; [reflexivity|].
    by rewrite <- !app_assoc.
Qed.

End Scenarios.

(** C6: every listing request asks for 100 entries per page; a page of 100
    entries makes the fetch ask for the next page, a shorter page, an empty
    page or a body that is not a list ends it; pages of 100, 100 and 37
    entries give 237 entries after three requests, and a page of 100 followed
    by an empty page gives 100 entries. *)
Theorem pagination_rule (self : GitHubMonitor) :
  (forall fuel w, exists rs,
      sent (snd (fetch_repositories fuel self w)) = (sent w ++ rs)%list
      /\ Forall (fun r => ("per_page", PInt 100) ∈ params r) rs)
  /\ (forall headers repositories page total_repos st names w,
        net w (List.length (sent w)) (repos_request self headers page)
        = Response st (JArray (map Repo names)) ->
        Nat.leb 400 st && Nat.ltb st 600 = false ->
        exists flow page' w',
          fetch_page self headers repositories page total_repos w
          = (Ok (flow, app repositories names, page', total_repos + List.length names), w')
          /\ (List.length names < 100 -> flow = Break)
          /\ (List.length names = 100 -> flow = Continue /\ page' = page + 1))
  /\ (forall headers repositories page total_repos st b w,
        net w (List.length (sent w)) (repos_request self headers page) = Response st b ->
        Nat.leb 400 st && Nat.ltb st 600 = false ->
        b = JScalar \/ (exists m, b = JObject m) ->
        exists w',
          fetch_page self headers repositories page total_repos w
          = (Ok (Break, repositories, page, total_repos), w'))
  /\ (forall fuel p1 p2 p3 w,
        let h := _get_auth_headers self in
        let n := List.length (sent w) in
        PyStr.truthy (organization self) = true ->
        net w n (repos_request self h 1) = Response 200 (JArray (map Repo p1)) ->
        net w (n + 1) (repos_request self h 2) = Response 200 (JArray (map Repo p2)) ->
        net w (n + 2) (repos_request self h 3) = Response 200 (JArray (map Repo p3)) ->
        List.length p1 = 100 -> List.length p2 = 100 -> List.length p3 = 37 ->
        exists l w',
          fetch_repositories (3 + fuel) self w = (Ok l, w')
          /\ List.length l = 237
          /\ l ≡ₚ (p1 ++ p2 ++ p3)%list
          /\ List.length (sent w') = n + 3)
  /\ (forall fuel p1 w,
        let h := _get_auth_headers self in
        let n := List.length (sent w) in
        PyStr.truthy (organization self) = true ->
        net w n (repos_request self h 1) = Response 200 (JArray (map Repo p1)) ->
        net w (n + 1) (repos_request self h 2) = Response 200 (JArray []) ->
        List.length p1 = 100 ->
        exists l w',
          fetch_repositories (2 + fuel) self w = (Ok l, w')
          /\ List.length l = 100
          /\ l ≡ₚ p1
          /\ List.length (sent w') = n + 2).
Proof.
  split; [|split; [|split; [|split]]].
  - intros fuel w. destruct (fetch_repositories_sent self fuel w) as (rs & Hrs & Hall).
    exists rs. split; [done|].
    eapply Forall_impl; [exact Hall|]. by intros r (_ & H & _).
  - intros headers repositories page total_repos st names w Hnet Hst.
    destruct names as [|name names].
    + eexists Break, page, _. split.
      * rewrite (fetch_page_stops self headers repositories page total_repos st
                   (JArray []) w Hnet Hst) by by left.
        rewrite app_nil_r. cbn [List.length]. by rewrite Nat.add_0_r.
      * split; [done|]. cbn. lia.
    + eexists _, _, _. split.
      * by apply (fetch_page_names self headers repositories page total_repos st
                    (name :: names) w Hnet Hst).
      * split.
        -- intros Hlt. apply Nat.ltb_lt in Hlt. by rewrite Hlt.
        -- intros ->. done.
  - intros headers repositories page total_repos st b w Hnet Hst Hb.
    eexists.
    apply (fetch_page_stops self headers repositories page total_repos st b w Hnet Hst).
    by right.
  - intros fuel p1 p2 p3 w h n Horg H1 H2 H3 L1 L2 L3.
    rewrite fetch_repositories_start by done.
    destruct (fetch_from_100_100_37 self fuel h p1 p2 p3 (started self w))
      as (w' & Hrun & Hsent); try done.
    1-3: by rewrite started_net, started_sent.
    eexists _, w'. split; [exact Hrun|].
    split; [|split].
    + rewrite merge_sort_Permutation, !length_app. lia.
    + apply merge_sort_Permutation.
    + rewrite Hsent, started_sent, length_app. done.
  - intros fuel p1 w h n Horg H1 H2 L1.
    rewrite fetch_repositories_start by done.
    destruct (fetch_from_100_0 self fuel h p1 (started self w))
      as (w' & Hrun & Hsent); try done.
    1-2: by rewrite started_net, started_sent.
    eexists _, w'. split; [exact Hrun|].
    split; [|split].
    + by rewrite merge_sort_Permutation.
    + apply merge_sort_Permutation.
    + rewrite Hsent, started_sent, length_app. done.
Qed.

Lemma pagination_rule_witness :
  (exists l w',
     fetch_repositories 3 Examples.acme (Examples.fresh Examples.three_pages) = (Ok l, w')
     /\ List.length l = 237 /\ List.length (sent w') = 3)
  /\ (exists l w',
        fetch_repositories 2 Examples.acme (Examples.fresh Examples.full_page_then_empty)
        = (Ok l, w')
        /\ List.length l = 100 /\ List.length (sent w') = 2).
Proof.
  destruct (pagination_rule Examples.acme) as (_ & _ & _ & H237 & H100).
  split.
  - destruct (H237 0 (Examples.names "acme/a" 100) (Examples.names "acme/b" 100)
                (Examples.names "acme/c" 37) (Examples.fresh Examples.three_pages))
      as (l & w' & Hrun & Hlen & _ & Hsent); [reflexivity..|].
    exists l, w'. auto.
  - destruct (H100 0 (Examples.names "acme/a" 100)
                (Examples.fresh Examples.full_page_then_empty))
      as (l & w' & Hrun & Hlen & _ & Hsent); [reflexivity..|].
    exists l, w'. auto.
Defined.

(** ** The run *)

Lemma bind_run {A B} (m : M A) (f : A -> M B) (w : world) :
  bind m f w
  = match m w with
    | (Ok a, w') => f a w'
    | (Raise e, w') => (Raise e, w')
    | (OutOfFuel, w') => (OutOfFuel, w')
    end.
Proof. reflexivity. Qed.

(** [run] is its checks, the fetch, and the report of a fetch that is not
    empty. *)
Lemma run_split (fuel : nat) (self : GitHubMonitor) (w : world) :
  run fuel self w
  = match checks self w with
    | (Ok true, w1) =>
        match fetch_repositories fuel self w1 with
        | (Ok [], w2) => (Ok false, logged "ERROR" "Failed to fetch repositories" w2)
        | (Ok (r :: rs), w2) => report self (r :: rs) w2
        | (Raise e, w2) => (Raise e, w2)
        | (OutOfFuel, w2) => (OutOfFuel, w2)
        end
    | (Ok false, w1) => (Ok false, w1)
    | (Raise e, w1) => (Raise e, w1)
    | (OutOfFuel, w1) => (OutOfFuel, w1)
    end.
Proof.
  unfold run, checks.
  destruct (PyStr.truthy (organization self)); [|reflexivity]. cbn [negb].
  rewrite !bind_run.
  destruct ((if PyStr.truthy (github_token self)
             then ok <- validate_token self;; ret (negb ok) else ret false) w)
    as [[[|]|e|] w0]; [reflexivity| |reflexivity|reflexivity].
  rewrite !bind_run.
  destruct (validate_organization self w0) as [[[|]|e|] w1];
    [|reflexivity|reflexivity|reflexivity].
  cbn [negb]. rewrite !bind_run.
  destruct (print_header "GitHub Repository Monitor" w1) as [[[]|e|] w2];
    [|reflexivity|reflexivity].
  rewrite !bind_run.
  destruct (log_info _ w2) as [[[]|e|] w3]; [|reflexivity|reflexivity].
  rewrite !bind_run.
  destruct (backup_files self w3) as [[[]|e|] w4]; [|reflexivity|reflexivity].
  rewrite !bind_run. change (ret true w4) with (Ok true, w4). cbv beta match.
  destruct (fetch_repositories fuel self w4) as [[[|r rs]|e|] w5]; reflexivity.
Qed.

(** ** The command line *)

Lemma main_split (fuel : nat) (args : arguments) (w : world) :
  main fuel args w
  = match startup args w with
    | (Ok monitor, w1) => dispatch fuel args monitor w1
    | (Raise e, w1) => (Raise e, w1)
    | (OutOfFuel, w1) => (OutOfFuel, w1)
    end.
Proof.
  unfold main, startup. rewrite !bind_run.
  destruct (init w) as [[monitor|e|] w0]; [|reflexivity|reflexivity].
  rewrite !bind_run.
  destruct ((if given (arg_organization args) || given (arg_github_token args)
                || given (arg_slack_webhook_url args) || arg_enable_slack args
             then update_config monitor (arg_organization args) (arg_github_token args)
                    (arg_slack_webhook_url args) (Some (arg_enable_slack args))
             else ret monitor) w0) as [[monitor'|e|] w1]; reflexivity.
Qed.

Lemma script_run (fuel : nat) (args : arguments) (w : world) :
  script fuel args w
  = match main fuel args w with
    | (Raise e, w') => (Ok 1, emit (Print ("Error: " ++ str_exn e)) w')
    | r => r
    end.
Proof.
  unfold script, try_except.
  destruct (main fuel args w) as [[code|e|] w']; reflexivity.
Qed.

Lemma checks_true_organization (self : GitHubMonitor) (w : world) :
  fst (checks self w) = Ok true -> PyStr.truthy (organization self) = true.
Proof.
  unfold checks. destruct (PyStr.truthy (organization self)); [done|].
  cbn [negb]. rewrite bind_run. unfold log_error. rewrite log_logged. discriminate.
Qed.

(** C10: when the fetch gives an empty list (as it does without a request
    when no organization is set), [run] logs the failure and returns False,
    nothing of the diff and of the report is done, and the process ends with
    code 1. *)
Theorem empty_fetch_fails (fuel : nat) (self : GitHubMonitor) (w : world) :
  (PyStr.truthy (organization self) = false ->
   exists w', fetch_repositories fuel self w = (Ok [], w') /\ sent w' = sent w)
  /\ (fst (checks self w) = Ok true ->
      fst (fetch_repositories fuel self (snd (checks self w))) = Ok [] ->
      run fuel self w
      = (Ok false,
         logged "ERROR" "Failed to fetch repositories"
           (snd (fetch_repositories fuel self (snd (checks self w)))))
      /\ forall args w0,
           startup args w0 = (Ok self, w) ->
           arg_show_config args = false -> arg_dry_run args = false ->
           fst (script fuel args w0) = Ok 1).
Proof.
  split.
  - intros Horg. eexists. split.
    + by apply fetch_repositories_no_organization.
    + reflexivity.
  - intros Hchecks Hfetch.
    assert (run fuel self w
            = (Ok false,
               logged "ERROR" "Failed to fetch repositories"
                 (snd (fetch_repositories fuel self (snd (checks self w)))))) as Hrun.
    { rewrite run_split.
      destruct (checks self w) as [r w1]. cbn [fst snd] in *. subst r.
      destruct (fetch_repositories fuel self w1) as [r w2]. cbn [fst snd] in *.
      by subst r. }
    split; [exact Hrun|].
    intros args w0 Hstart Hshow Hdry.
    rewrite script_run, main_split, Hstart. unfold dispatch.
    rewrite Hshow, Hdry, (checks_true_organization self w Hchecks).
    cbn [negb]. rewrite bind_run, Hrun. reflexivity.
Qed.

Lemma empty_fetch_fails_witness :
  fst (script 5 Examples.no_flags (Examples.configured Examples.empty_organization))
  = Ok 1.
Proof.
  pose (w0 := Examples.configured Examples.empty_organization).
  pose (self := match fst (startup Examples.no_flags w0) with
                | Ok m => m | _ => Examples.acme end).
  pose (w := snd (startup Examples.no_flags w0)).
  destruct (empty_fetch_fails 5 self w) as [_ H].
  destruct H as [_ H]; [by vm_compute|by vm_compute|].
  apply (H Examples.no_flags w0); by vm_compute.
Defined.

(** ** Notification *)





Lemma files_emit_all l w : files (emit_all l w) = files w.
Proof.
  revert w. induction l as [|o l IH]; intros w; [done|].
  change (emit_all (o :: l) w) with (emit_all l (emit o w)). by rewrite IH.
Qed.


Lemma send_slack_notification_run (self : GitHubMonitor)
    (added_repos deleted_repos : list string) (w : world) :
  send_slack_notification self added_repos deleted_repos w
  = if negb (enable_slack self) || negb (PyStr.truthy (slack_webhook_url self))
    then (Ok true, w)
    else
      let w1 := logged "INFO" "Sending notification to Slack" w in
      let req :=
        slack_request self (slack_payload self added_repos deleted_repos (clock w)) in
      match outcome (net w (List.length (sent w)) req) with
      | inl e =>
          (Ok false,
           logged "ERROR" ("Failed to send Slack notification: " ++ str_exn e)
             (record_request req w1))
      | inr _ =>
          (Ok true,
           logged "INFO" "Slack notification sent successfully" (record_request req w1))
      end.
Proof.
  unfold send_slack_notification.
  destruct (negb (enable_slack self) || negb (PyStr.truthy (slack_webhook_url self)));
    [reflexivity|].
  unfold send, try_except, bind, http, outcome, raise_for_status, log_info, log_error, get.
  cbv beta zeta.
  rewrite log_logged. cbv beta match.
  change (sent (logged "INFO" "Sending notification to Slack" w)) with (sent w).
  change (net (logged "INFO" "Sending notification to Slack" w)) with (net w).
  change (clock (logged "INFO" "Sending notification to Slack" w)) with (clock w).
  destruct (net w (List.length (sent w))
              (slack_request self (slack_payload self added_repos deleted_repos (clock w))))
    as [msg|st b]; [reflexivity|].
  unfold ret, raise. cbv beta match. cbn [fst].
  destruct (Nat.leb 400 st && Nat.ltb st 600); reflexivity.
Qed.


Lemma print_header_printed title w :
  print_header title w = (Ok tt, header_printed title w).
Proof. reflexivity. Qed.

Lemma compare_repositories_compared self current previous w :
  compare_repositories self current previous w
  = (Ok (filter (fun repo => repo ∉ previous) current,
         filter (fun repo => repo ∉ current) previous),
     compared self current previous w).
Proof. reflexivity. Qed.

(** The notification step never raises. *)
Lemma send_slack_notification_notified self added_repos deleted_repos w :
  exists sent_ok,
    send_slack_notification self added_repos deleted_repos w
    = (Ok sent_ok, notified self added_repos deleted_repos w).
Proof.
  unfold notified. rewrite send_slack_notification_run.
  destruct (negb (enable_slack self) || negb (PyStr.truthy (slack_webhook_url self)));
    [by eexists|].
  cbv zeta. destruct (outcome _); by eexists.
Qed.








Lemma find_previous_list_run (self : GitHubMonitor) (w : world) :
  find_previous_list self w
  = (Ok None, logged "WARNING" "No previous repository list found" w)
  \/ exists previous, find_previous_list self w = (Ok (Some previous), w).
Proof.
  unfold find_previous_list, get. rewrite bind_run. cbv beta match.
  destruct (sort_newest_first _ _) as [|previous rest].
  - left. reflexivity.
  - right. by exists previous.
Qed.

(** Running the steps that always succeed. *)
Ltac run_total :=
  repeat first
    [ rewrite bind_run
    | rewrite log_logged
    | rewrite print_header_printed
    | rewrite print_table_lines
    | rewrite compare_repositories_compared
    | progress unfold ret
    | progress cbv beta match ].





(** ** The dry run *)

Lemma quiet_refl w : quiet w w.
Proof. repeat split; auto. Qed.

Lemma quiet_trans w1 w2 w3 : quiet w1 w2 -> quiet w2 w3 -> quiet w1 w3.
Proof.
  intros (S1 & H1 & F1 & D1) (S2 & H2 & F2 & D2). repeat split.
  - by rewrite S2.
  - by rewrite H2.
  - intros path Hp. rewrite F2 by done. by apply F1.
  - intros d Hd. destruct (D2 d Hd) as [Hd2|Hd2].
    + by apply D1.
    + right. rewrite Hd2. unfold config_dir. by rewrite H1.
Qed.



Lemma quiet_makedirs_config w : quiet w (set_dirs (union {[ config_dir w ]}) w).
Proof.
  repeat split; auto. intros d Hd. cbn in Hd.
  apply elem_of_union in Hd as [Hd|Hd]; [|by left].
  right. by apply elem_of_singleton in Hd.
Qed.

Lemma quiet_save_config self w : quiet w (snd (save_config self w)).
Proof. repeat split; auto. Qed.

Lemma quiet_load_config self w : quiet w (snd (load_config self w)).
Proof.
  unfold load_config, get, makedirs. rewrite !bind_run. cbv beta match.
  change (modify (set_dirs (union {[home w ++ "/.config/github-monitor"]})) w)
    with (Ok tt, set_dirs (union {[ config_dir w ]}) w).
  cbv beta match.
  eapply quiet_trans; [apply quiet_makedirs_config|].
  set (w1 := set_dirs _ w).
  destruct (config_ini w) as [from_file|].
  - destruct (bool_decide _); [|apply quiet_refl].
    rewrite bind_run.
    unfold ini_getboolean, ret, raise.
    repeat case_match; simplify_eq; apply quiet_refl.
  - apply quiet_save_config.
Qed.














(** * Further properties *)

(** ** The fetcher, further *)

Lemma merge_sort_order_free (l1 l2 : list string) :
  l1 ≡ₚ l2 -> merge_sort String.le l1 = merge_sort String.le l2.
Proof.
  intros Hp. apply (StronglySorted_unique String.le).
  - apply StronglySorted_merge_sort; apply _.
  - apply StronglySorted_merge_sort; apply _.
  - by rewrite !merge_sort_Permutation.
Qed.

Lemma retried_clock self headers page attempt e w :
  clock (retried self headers page attempt e w) = clock w + 2.
Proof. reflexivity. Qed.

Lemma retried_sent_list self headers page attempt e w :
  sent (retried self headers page attempt e w)
  = (sent w ++ [repos_request self headers page])%list.
Proof. reflexivity. Qed.

(** X1: one page is asked for at most three times, always with the same
    request. An attempt is made only after all the earlier ones failed, two
    seconds pass between two attempts, the first answer that is not a failure
    is the response, and the failure of the third attempt is raised. *)
Theorem get_page_retry_policy (self : GitHubMonitor) (headers : list (string * string))
    (page : nat) (w : world) :
  let req := repos_request self headers page in
  let n := List.length (sent w) in
  let r := get_page self headers page (seq 0 3) w in
  exists k,
    1 <= k <= 3
    /\ sent (snd r) = (sent w ++ replicate k req)%list
    /\ clock (snd r) = clock w + 2 * (k - 1)
    /\ (forall i, i < k - 1 -> exists e, outcome (net w (n + i) req) = inl e)
    /\ match fst r with
       | Ok response => outcome (net w (n + (k - 1)) req) = inr response
       | Raise e => k = 3 /\ outcome (net w (n + 2) req) = inl e
       | OutOfFuel => False
       end.
Proof.
  cbv zeta. change (seq 0 3) with [0; 1; 2].
  rewrite get_page_cons. cbv zeta.
  destruct (outcome (net w (List.length (sent w)) (repos_request self headers page)))
    as [e0|r0] eqn:H0.
  2:{ exists 1. cbn [fst snd]. split; [lia|]. split; [done|].
      split; [cbn; lia|]. split; [intros i Hi; lia|].
      by rewrite Nat.add_0_r. }
  change (Nat.eqb 0 2) with false. cbv iota.
  fold (retried self headers page 0 e0 w).
  rewrite get_page_cons. cbv zeta.
  rewrite retried_net, retried_sent.
  destruct (outcome (net w (List.length (sent w) + 1) (repos_request self headers page)))
    as [e1|r1] eqn:H1.
  2:{ exists 2. cbn [fst snd]. split; [lia|]. split.
      { cbn. by rewrite <- app_assoc. }
      split; [cbn; lia|]. split.
      { intros i Hi. assert (i = 0) as -> by lia. rewrite Nat.add_0_r. eauto. }
      done. }
  change (Nat.eqb 1 2) with false. cbv iota.
  fold (retried self headers page 1 e1 (retried self headers page 0 e0 w)).
  rewrite get_page_cons. cbv zeta.
  rewrite !retried_net, !retried_sent.
  replace (List.length (sent w) + 1 + 1) with (List.length (sent w) + 2) by lia.
  assert (forall i, i < 2 ->
            exists e, outcome (net w (List.length (sent w) + i)
                                 (repos_request self headers page)) = inl e) as Hfail.
  { intros i Hi. assert (i = 0 \/ i = 1) as [-> | ->] by lia.
    - rewrite Nat.add_0_r. eauto.
    - eauto. }
  exists 3.
  destruct (outcome (net w (List.length (sent w) + 2) (repos_request self headers page)))
    as [e2|r2] eqn:H2; cbn [fst snd Nat.eqb].
  - split; [lia|]. split.
    { cbn. by rewrite <- !app_assoc. }
    split; [cbn; lia|]. split; [exact Hfail|]. done.
  - split; [lia|]. split.
    { cbn. by rewrite <- !app_assoc. }
    split; [cbn; lia|]. split; [exact Hfail|]. done.
Qed.





Lemma fetch_from_result (fuel : nat) (self : GitHubMonitor)
    (headers : list (string * string)) (repositories : list string)
    (page total_repos : nat) (w w' : world) (l : list string) :
  fetch_from fuel self headers repositories page total_repos w = (Ok l, w') ->
  StronglySorted String.le l
  /\ data <$> files w' !! repo_list_file self = Some (snapshot_text l).
Proof.
  unfold fetch_from. rewrite bind_run.
  destruct (fetch_pages fuel self headers repositories page total_repos w)
    as [[r|e|] w1]; [|done|done].
  intros [= <- <-]. split.
  - apply StronglySorted_merge_sort; apply _.
  - cbn. rewrite lookup_insert_ne by done. by rewrite lookup_insert_eq.
Qed.

(** X3: with an organization set, the list that [fetch_repositories]
    returns is sorted, and the snapshot file of the day holds exactly this
    list, one name per line. *)
Theorem fetch_result_sorted_and_saved (fuel : nat) (self : GitHubMonitor)
    (w w' : world) (l : list string) :
  PyStr.truthy (organization self) = true ->
  fetch_repositories fuel self w = (Ok l, w') ->
  StronglySorted String.le l
  /\ data <$> files w' !! repo_list_file self = Some (snapshot_text l).
Proof.
  intros Horg. rewrite fetch_repositories_start by done. apply fetch_from_result.
Qed.

Lemma fetch_result_sorted_and_saved_witness :
  exists l w',
    fetch_repositories 3 Examples.acme (Examples.fresh Examples.three_pages) = (Ok l, w')
    /\ StronglySorted String.le l
    /\ data <$> files w' !! repo_list_file Examples.acme = Some (snapshot_text l).
Proof.
  pose (r := fetch_repositories 3 Examples.acme (Examples.fresh Examples.three_pages)).
  exists (match fst r with Ok l => l | _ => [] end), (snd r).
  assert (fetch_repositories 3 Examples.acme (Examples.fresh Examples.three_pages)
          = (Ok (match fst r with Ok l => l | _ => [] end), snd r)) as Hr
    by (vm_compute; reflexivity).
  split; [exact Hr|].
  exact (fetch_result_sorted_and_saved 3 Examples.acme _ _ _ eq_refl Hr).
Defined.

(** X4: the order in which the names were received does not show: two
    fetches that received the same names in different orders return the same
    list and leave the same files. *)
Theorem finish_fetch_order_free (self : GitHubMonitor) (l1 l2 : list string)
    (total_repos : nat) (w : world) :
  l1 ≡ₚ l2 ->
  finish_fetch self l1 total_repos w = finish_fetch self l2 total_repos w.
Proof.
  intros Hp. unfold finish_fetch. by rewrite (merge_sort_order_free l1 l2 Hp).
Qed.

Lemma finish_fetch_order_free_witness :
  finish_fetch Examples.acme ["acme/web"; "acme/api"] 2 (Examples.fresh Examples.offline)
  = finish_fetch Examples.acme ["acme/api"; "acme/web"] 2 (Examples.fresh Examples.offline).
Proof. apply finish_fetch_order_free. apply perm_swap. Defined.

Lemma full_names_malformed (l : list item) (w : world) :
  Exists (fun i => forall name, i <> Repo name) l ->
  exists e, full_names l w = (Raise e, w).
Proof.
  induction 1 as [i l Hi|i l _ IH].
  - destruct i as [name| |]; [by destruct (Hi name)| |]; by eexists.
  - destruct IH as [e He]. destruct i as [name| |]; try by eexists.
    cbn. rewrite bind_run, He. by eexists.
Qed.

(** X5: a page that cannot be read (a body that is not JSON, or a list
    with an entry that has no [full_name]) is dropped as a whole, also the
    names before the bad entry: the error is logged, the loop ends, and the
    names collected from the earlier pages are what is left. *)
Theorem fetch_page_drops_unreadable_page (self : GitHubMonitor)
    (headers : list (string * string)) (repositories : list string)
    (page total_repos st : nat) (b : body) (w : world) :
  net w (List.length (sent w)) (repos_request self headers page) = Response st b ->
  Nat.leb 400 st && Nat.ltb st 600 = false ->
  b = NotJson
  \/ (exists l, b = JArray l /\ Exists (fun i => forall name, i <> Repo name) l) ->
  exists e w',
    fetch_page self headers repositories page total_repos w
    = (Ok (Break, repositories, page, total_repos),
       logged "ERROR" ("Error fetching repositories: " ++ str_exn e) w')
    /\ w' = record_request (repos_request self headers page) w.
Proof.
  intros Hnet Hst Hb. unfold fetch_page, try_except, log_error.
  rewrite bind_run. change (seq 0 3) with [0; 1; 2].
  rewrite get_page_cons. cbv zeta. rewrite Hnet. unfold outcome. rewrite Hst.
  cbv beta match. cbn [snd].
  destruct Hb as [->|(l & -> & Hbad)].
  - eexists _, _. split; [|reflexivity]. reflexivity.
  - destruct (full_names_malformed l
                (record_request (repos_request self headers page) w) Hbad) as [e He].
    destruct l as [|i l]; [by apply Exists_nil in Hbad|].
    cbn [response_json]. rewrite bind_run.
    change (ret (JArray (i :: l)) ?x) with (Ok (JArray (i :: l)), x).
    cbv beta match. rewrite bind_run, He. cbv beta match.
    exists e. eexists. split; [|reflexivity]. reflexivity.
Qed.

Lemma fetch_page_drops_unreadable_page_witness :
  exists e w',
    fetch_page Examples.acme [] ["acme/old"] 1 1 (Examples.fresh Samples.broken_page)
    = (Ok (Break, ["acme/old"], 1, 1),
       logged "ERROR" ("Error fetching repositories: " ++ str_exn e) w').
Proof.
  destruct (fetch_page_drops_unreadable_page Examples.acme [] ["acme/old"] 1 1 200
              (JArray [Repo "acme/api"; NoFullName]) (Examples.fresh Samples.broken_page))
    as (e & w' & Hrun & _).
  - reflexivity.
  - reflexivity.
  - right. eexists. split; [reflexivity|].
    apply Exists_cons_tl, Exists_cons_hd. discriminate.
  - by exists e, w'.
Defined.


(** ** The snapshot store, further *)





Lemma backup_path_not_log (self : GitHubMonitor) (f : string) :
  backup_path self f <> log_file.
Proof. unfold backup_path, path_join, backup_dir, log_file. cbn. discriminate. Qed.






Lemma insert_newest_elem (key : string -> nat) (x y : string) (l : list string) :
  y ∈ insert_newest key x l <-> y = x \/ y ∈ l.
Proof.
  induction l as [|z l IH]; cbn.
  - rewrite list_elem_of_singleton, elem_of_nil. tauto.
  - destruct (Nat.leb (key z) (key x)).
    + by rewrite elem_of_cons.
    + rewrite !elem_of_cons, IH. tauto.
Qed.

Lemma sort_newest_first_elem (key : string -> nat) (y : string) (l : list string) :
  y ∈ sort_newest_first key l <-> y ∈ l.
Proof.
  induction l as [|x l IH]; cbn; [done|].
  change (foldr (insert_newest key) [] l) with (sort_newest_first key l).
  by rewrite insert_newest_elem, elem_of_cons, IH.
Qed.

(** The head of the sorted list is the first of the newest names. *)
Lemma sort_newest_first_head (key : string -> nat) (l : list string) (p : string)
    (rest : list string) :
  sort_newest_first key l = p :: rest ->
  forall q, q ∈ l -> key q <= key p.
Proof.
  revert p rest. induction l as [|x l IH]; intros p rest; cbn; [done|].
  change (foldr (insert_newest key) [] l) with (sort_newest_first key l).
  destruct (sort_newest_first key l) as [|z zs] eqn:Hs; cbn.
  - intros [= <- <-] q Hq. apply elem_of_cons in Hq as [->|Hq]; [done|].
    apply (sort_newest_first_elem key) in Hq. rewrite Hs in Hq.
    by apply elem_of_nil in Hq.
  - destruct (Nat.leb_spec (key z) (key x)) as [Hle|Hlt].
    + intros [= <- <-] q Hq. apply elem_of_cons in Hq as [->|Hq]; [done|].
      specialize (IH z zs eq_refl q Hq). lia.
    + intros [= <- <-] q Hq. apply elem_of_cons in Hq as [->|Hq]; [lia|].
      by apply (IH z _ eq_refl).
Qed.

(** X7: [find_previous_list] gives a name of the working directory that
    starts with [repo-list-], is not the snapshot of the day, and has the
    latest modification time of all such names; it changes nothing. It gives
    nothing exactly when there is no such name. *)
Theorem find_previous_list_newest (self : GitHubMonitor) (w : world) :
  (exists previous,
     find_previous_list self w = (Ok (Some previous), w)
     /\ previous ∈ listdir w
     /\ PyStr.startswith "repo-list-" previous = true
     /\ previous <> repo_list_file self
     /\ forall other, other ∈ candidates self w ->
          getmtime w other <= getmtime w previous)
  \/ (fst (find_previous_list self w) = Ok None /\ candidates self w = []).
Proof.
  unfold find_previous_list, get. rewrite bind_run. cbv beta match.
  fold (candidates self w).
  destruct (sort_newest_first (getmtime w) (candidates self w)) as [|p rest] eqn:Hs.
  - right. split; [reflexivity|].
    destruct (candidates self w) as [|c cs] eqn:Hc; [done|].
    assert (c ∈ sort_newest_first (getmtime w) (c :: cs)) as Hin
      by (apply sort_newest_first_elem; by left).
    rewrite Hs in Hin. by apply elem_of_nil in Hin.
  - left. exists p. split; [reflexivity|].
    assert (p ∈ candidates self w) as Hp.
    { apply (sort_newest_first_elem (getmtime w)). rewrite Hs. by left. }
    unfold candidates in Hp. apply list_elem_of_filter in Hp as [Hp Hin].
    apply Is_true_true, andb_true_iff in Hp as [Hpre Hne].
    split; [done|]. split; [done|]. split.
    + intros ->. rewrite String.eqb_refl in Hne. done.
    + intros other Ho. by apply (sort_newest_first_head _ _ _ _ Hs).
Qed.

(** ** The differ, further *)

(** X8: [compare_repositories] writes the added names to the
    added-file of the day and the deleted names to the deleted-file of the
    day, makes no request, and leaves every other file but the log as it
    was. *)
Theorem compare_repositories_persists (self : GitHubMonitor)
    (current previous : list string) (w : world) :
  let w' := snd (compare_repositories self current previous w) in
  data <$> files w' !! added_repos_file self
  = Some (snapshot_text (filter (fun repo => repo ∉ previous) current))
  /\ data <$> files w' !! deleted_repos_file self
     = Some (snapshot_text (filter (fun repo => repo ∉ current) previous))
  /\ sent w' = sent w
  /\ forall path,
       path <> added_repos_file self -> path <> deleted_repos_file self ->
       path <> log_file ->
       files w' !! path = files w !! path.
Proof.
  cbv zeta. cbn. split; [|split; [|split]].
  - rewrite lookup_insert_ne by done. rewrite lookup_insert_ne by done.
    by rewrite lookup_insert_eq.
  - rewrite lookup_insert_ne by done. by rewrite lookup_insert_eq.
  - reflexivity.
  - intros path Ha Hd Hl. by rewrite !lookup_insert_ne by done.
Qed.

(** X9: the diff depends on the other list only through its members:
    neither the order nor a repetition in the previous list changes the
    added names, or which names are deleted. *)
Theorem compare_repositories_by_membership (self : GitHubMonitor)
    (current previous previous' : list string) (w w' : world) :
  (forall x, x ∈ previous <-> x ∈ previous') ->
  exists added deleted deleted',
    fst (compare_repositories self current previous w) = Ok (added, deleted)
    /\ fst (compare_repositories self current previous' w') = Ok (added, deleted')
    /\ forall x, x ∈ deleted <-> x ∈ deleted'.
Proof.
  intros Hsame. eexists _, _, _. split; [reflexivity|]. split.
  - cbn. do 2 f_equal. apply list_filter_iff. intros x. by rewrite Hsame.
  - intros x. rewrite !list_elem_of_filter. by rewrite Hsame.
Qed.

Lemma compare_repositories_by_membership_witness :
  exists added deleted deleted',
    fst (compare_repositories Examples.acme ["acme/a"; "acme/d"] ["acme/a"; "acme/b"]
           (Examples.fresh Examples.offline)) = Ok (added, deleted)
    /\ fst (compare_repositories Examples.acme ["acme/a"; "acme/d"]
              ["acme/b"; "acme/a"; "acme/b"] (Examples.fresh Examples.offline))
       = Ok (added, deleted')
    /\ forall x, x ∈ deleted <-> x ∈ deleted'.
Proof.
  apply compare_repositories_by_membership.
  intros x. rewrite !elem_of_cons, !elem_of_nil. tauto.
Defined.


(** ** The configuration, further *)

Lemma ini_read_fresh (from_file : ini) : ini_read from_file ∅ = from_file.
Proof. unfold ini_read. apply (right_id ∅ (union_with _)). Qed.

Lemma getboolean_of_bool (c : ini) (s : gmap string string) (b : bool) (w : world) :
  c !! "Settings" = Some s ->
  s !! "enable_slack" = Some (PyStr.of_bool b) ->
  ini_getboolean c "Settings" "enable_slack" false w = (Ok b, w).
Proof.
  intros Hc Hs. unfold ini_getboolean. rewrite Hc, Hs. by destruct b.
Qed.

Lemma settings_section_lookup (org token webhook enable : string) :
  settings_section org token webhook enable !! "organization" = Some org
  /\ settings_section org token webhook enable !! "github_token" = Some token
  /\ settings_section org token webhook enable !! "slack_webhook_url" = Some webhook
  /\ settings_section org token webhook enable !! "enable_slack" = Some enable.
Proof. unfold settings_section. cbn. by simplify_map_eq. Qed.

(** Loading a configuration file that [save_config] wrote. *)
Lemma load_config_saved (self : GitHubMonitor) (c0 : ini)
    (org token webhook : string) (enable : bool) (w : world) :
  config self = ∅ ->
  config_ini w
  = Some (<[ "Settings" := settings_section org token webhook (PyStr.of_bool enable) ]> c0) ->
  exists loaded w',
    load_config self w = (Ok loaded, w')
    /\ organization loaded = org /\ github_token loaded = token
    /\ slack_webhook_url loaded = webhook /\ enable_slack loaded = enable.
Proof.
  intros Hfresh Hc. unfold load_config, get, makedirs.
  rewrite !bind_run. cbv beta match.
  match goal with
  | |- context [modify ?f ?y] => change (modify f y) with (Ok tt, f y)
  end.
  cbv beta match. rewrite Hc, Hfresh, ini_read_fresh.
  destruct (settings_section_lookup org token webhook (PyStr.of_bool enable))
    as (Ho & Ht & Hu & He).
  rewrite bool_decide_eq_true_2 by (rewrite lookup_insert_eq; eauto).
  rewrite bind_run.
  rewrite (getboolean_of_bool _ _ enable _ (lookup_insert_eq _ _ _) He).
  cbv beta match. eexists _, _. split; [reflexivity|].
  unfold ini_get. rewrite lookup_insert_eq, Ho, Ht, Hu. done.
Qed.

(** X10: the settings that [update_config] saves are the settings that
    the next [GitHubMonitor()] loads: the given values replace the old ones,
    the values not given stay, and all four come back from the file. *)
Theorem saved_settings_are_loaded (self : GitHubMonitor)
    (org token webhook : option string) (enable : option bool) (w : world) :
  storable (default (organization self) org) ->
  storable (default (github_token self) token) ->
  storable (default (slack_webhook_url self) webhook) ->
  exists saved w1 loaded w2,
    update_config self org token webhook enable w = (Ok saved, w1)
    /\ init w1 = (Ok loaded, w2)
    /\ organization saved = default (organization self) org
    /\ github_token saved = default (github_token self) token
    /\ slack_webhook_url saved = default (slack_webhook_url self) webhook
    /\ enable_slack saved = default (enable_slack self) enable
    /\ organization loaded = organization saved
    /\ github_token loaded = github_token saved
    /\ slack_webhook_url loaded = slack_webhook_url saved
    /\ enable_slack loaded = enable_slack saved.
Proof.
  intros _ _ _.
  set (saved := with_settings (default (organization self) org)
                  (default (github_token self) token)
                  (default (slack_webhook_url self) webhook)
                  (default (enable_slack self) enable) self).
  set (c := <[ "Settings" :=
                 settings_section (organization saved) (github_token saved)
                   (slack_webhook_url saved) (PyStr.of_bool (enable_slack saved)) ]>
              (config self)).
  set (w1 := logged "INFO" "Configuration updated successfully"
               (set_config_ini (Some c) w)).
  assert (update_config self org token webhook enable w = (Ok (with_config c saved), w1))
    as Hupdate by (destruct org, token, webhook, enable; reflexivity).
  unfold init, get, now, setup_logging, log_info.
  set (fresh := {| config := ∅;
                   config_file := home w1 ++ "/.config/github-monitor/config.ini";
                   organization := ""; github_token := ""; slack_webhook_url := "";
                   enable_slack := false;
                   today := strftime w1 "%Y-%m-%d" (clock w1) |}).
  destruct (load_config_saved fresh (config self) (organization saved)
              (github_token saved) (slack_webhook_url saved) (enable_slack saved) w1
              eq_refl eq_refl) as (loaded & w2 & Hload & Ho & Ht & Hu & He).
  exists (with_config c saved), w1, loaded.
  eexists. split; [exact Hupdate|]. split.
  { rewrite !bind_run. cbv beta match. fold fresh. rewrite Hload.
    cbv beta match. rewrite bind_run, log_logged. reflexivity. }
  destruct org, token, webhook, enable; cbn; done.
Qed.

Lemma saved_settings_are_loaded_witness :
  exists saved w1 loaded w2,
    update_config Examples.acme (Some "octo") None None (Some true)
      (Examples.fresh Examples.offline) = (Ok saved, w1)
    /\ init w1 = (Ok loaded, w2)
    /\ organization loaded = "octo" /\ enable_slack loaded = true.
Proof.
  destruct (saved_settings_are_loaded Examples.acme (Some "octo") None None (Some true)
              (Examples.fresh Examples.offline))
    as (saved & w1 & loaded & w2 & Hsave & Hload & Ho & _ & _ & He & Ho' & _ & _ & He').
  - repeat split; reflexivity.
  - repeat split; reflexivity.
  - repeat split; reflexivity.
  - exists saved, w1, loaded, w2. split; [exact Hsave|]. split; [exact Hload|].
    split; [by rewrite Ho', Ho|by rewrite He', He].
Defined.



(** ** Validation *)

(** The request of [validate_organization]. *)
(** The request of [validate_token]. *)
(** Every way a validation call can end. *)
Lemma validation_cases (r : request) (ok_msg : string) (failed : string -> string)
    (error : exn -> string) (w : world) :
  let body_of :=
    try_except
      (response <- send r ;;
       if Nat.eqb (fst response) 200 then log_info ok_msg ;; ret true
       else m <- json_message (snd response) ;; log_error (failed m) ;; ret false)
      is_RequestException
      (fun e => log_error (error e) ;; ret false) in
  let w1 := record_request r w in
  match net w (List.length (sent w)) r with
  | Failed msg =>
      body_of w = (Ok false, logged "ERROR" (error (RequestException msg)) w1)
  | Response st b =>
      if Nat.eqb st 200 then body_of w = (Ok true, logged "INFO" ok_msg w1)
      else
        match b with
        | NotJson => body_of w = (Ok false, logged "ERROR" (error JSONDecodeError) w1)
        | JObject (Some m) => body_of w = (Ok false, logged "ERROR" (failed m) w1)
        | JObject None =>
            body_of w = (Ok false, logged "ERROR" (failed "Unknown error") w1)
        | _ => body_of w
               = (Raise (AttributeError "object has no attribute 'get'"), w1)
        end
  end.
Proof.
  cbv zeta. unfold send, try_except, http, log_info, log_error.
  rewrite !bind_run. cbv beta match.
  destruct (net w (List.length (sent w)) r) as [msg|st b]; [reflexivity|].
  change (ret (st, b) ?x) with (Ok (st, b), x). cbv beta match. cbn [fst snd].
  destruct (Nat.eqb st 200); [reflexivity|].
  destruct b as [|[m|]|l|]; reflexivity.
Qed.

(** X12: [validate_organization] says yes exactly when the answer has the
    status 200, and a network error only makes it say no. *)
Theorem validate_organization_accepts_only_200 (self : GitHubMonitor) (w : world) :
  PyStr.truthy (organization self) = true ->
  (fst (validate_organization self w) = Ok true
   <-> exists b, net w (List.length (sent w)) (organization_request self)
                 = Response 200 b)
  /\ (forall msg, net w (List.length (sent w)) (organization_request self) = Failed msg ->
        fst (validate_organization self w) = Ok false).
Proof.
  intros Horg. unfold validate_organization. rewrite Horg. cbn [negb].
  pose proof (validation_cases (organization_request self)
                ("Organization '" ++ organization self ++ "' validated successfully")
                (fun m => "Organization validation failed: " ++ m)
                (fun e => "Error validating organization: " ++ str_exn e) w) as H.
  cbv zeta in H. unfold organization_request in *.
  destruct (net w (List.length (sent w)) _) as [msg|st b].
  - rewrite H. split; [|done]. split; [done|]. by intros [b Hb].
  - split; [|done]. destruct (Nat.eqb_spec st 200) as [->|Hne].
    + rewrite H. split; [by eexists|done].
    + split; [|by intros [b' [= E _]]].
      destruct b as [|[m|]|l|]; rewrite H; done.
Qed.

Lemma validate_organization_accepts_only_200_witness :
  fst (validate_organization Examples.acme (Examples.fresh Samples.always_200)) = Ok true.
Proof.
  apply (validate_organization_accepts_only_200 Examples.acme
           (Examples.fresh Samples.always_200) eq_refl).
  by eexists.
Defined.

(** X13: [validate_token] says yes exactly when the answer has the status
    200, and a network error only makes it say no. *)
Theorem validate_token_accepts_only_200 (self : GitHubMonitor) (w : world) :
  PyStr.truthy (github_token self) = true ->
  (fst (validate_token self w) = Ok true
   <-> exists b, net w (List.length (sent w)) (user_request self) = Response 200 b)
  /\ (forall msg, net w (List.length (sent w)) (user_request self) = Failed msg ->
        fst (validate_token self w) = Ok false).
Proof.
  intros Htok. unfold validate_token. rewrite Htok. cbn [negb].
  pose proof (validation_cases (user_request self)
                "GitHub token validated successfully"
                (fun m => "GitHub token validation failed: " ++ m)
                (fun e => "Error validating GitHub token: " ++ str_exn e) w) as H.
  cbv zeta in H. unfold user_request in *.
  destruct (net w (List.length (sent w)) _) as [msg|st b].
  - rewrite H. split; [|done]. split; [done|]. by intros [b Hb].
  - split; [|done]. destruct (Nat.eqb_spec st 200) as [->|Hne].
    + rewrite H. split; [by eexists|done].
    + split; [|by intros [b' [= E _]]].
      destruct b as [|[m|]|l|]; rewrite H; done.
Qed.

Lemma validate_token_accepts_only_200_witness :
  fst (validate_token Samples.acme_with_token (Examples.fresh Examples.offline))
  = Ok false.
Proof.
  apply (proj2 (validate_token_accepts_only_200 Samples.acme_with_token
                  (Examples.fresh Examples.offline) eq_refl) "Connection refused").
  reflexivity.
Defined.

(** ** The run, further *)

Lemma log_only_refl w : log_only w w.
Proof. split; [done|split; reflexivity]. Qed.

Lemma log_only_trans w1 w2 w3 : log_only w1 w2 -> log_only w2 w3 -> log_only w1 w3.
Proof.
  intros (F1 & D1 & C1) (F2 & D2 & C2).
  split; [|split; congruence].
  intros path Hp. rewrite F2 by done. by apply F1.
Qed.

Lemma log_only_logged level message w : log_only w (logged level message w).
Proof.
  split; [intros path Hp; by apply logged_files_other|split; reflexivity].
Qed.

Lemma log_only_sent r w : log_only w (record_request r w).
Proof. split; [done|split; reflexivity]. Qed.

Lemma validation_effect (r : request) (ok_msg : string) (failed : string -> string)
    (error : exn -> string) (w : world) :
  let w' :=
    snd (try_except
           (response <- send r ;;
            if Nat.eqb (fst response) 200 then log_info ok_msg ;; ret true
            else m <- json_message (snd response) ;; log_error (failed m) ;; ret false)
           is_RequestException
           (fun e => log_error (error e) ;; ret false) w) in
  log_only w w' /\ sent w' = (sent w ++ [r])%list.
Proof.
  pose proof (validation_cases r ok_msg failed error w) as H. cbv zeta in *.
  destruct (net w (List.length (sent w)) r) as [msg|st b].
  - rewrite H. split; [|done].
    eapply log_only_trans; [apply log_only_sent|apply log_only_logged].
  - destruct (Nat.eqb st 200).
    + rewrite H. split; [|done].
      eapply log_only_trans; [apply log_only_sent|apply log_only_logged].
    + destruct b as [|[m|]|l|]; rewrite H; (split; [|done]);
        first [ apply log_only_sent
              | eapply log_only_trans; [apply log_only_sent|apply log_only_logged] ].
Qed.

Lemma validate_token_effect (self : GitHubMonitor) (w : world) :
  log_only w (snd (validate_token self w))
  /\ (sent (snd (validate_token self w)) = sent w
      \/ sent (snd (validate_token self w)) = (sent w ++ [user_request self])%list).
Proof.
  unfold validate_token. destruct (negb _).
  - split; [apply log_only_logged|by left].
  - destruct (validation_effect (user_request self)
                "GitHub token validated successfully"
                (fun m => "GitHub token validation failed: " ++ m)
                (fun e => "Error validating GitHub token: " ++ str_exn e) w) as [H1 H2].
    split; [exact H1|right; exact H2].
Qed.

Lemma validate_organization_effect (self : GitHubMonitor) (w : world) :
  log_only w (snd (validate_organization self w))
  /\ (sent (snd (validate_organization self w)) = sent w
      \/ sent (snd (validate_organization self w))
         = (sent w ++ [organization_request self])%list).
Proof.
  unfold validate_organization. destruct (negb _).
  - split; [apply log_only_logged|by left].
  - destruct (validation_effect (organization_request self)
                ("Organization '" ++ organization self ++ "' validated successfully")
                (fun m => "Organization validation failed: " ++ m)
                (fun e => "Error validating organization: " ++ str_exn e) w) as [H1 H2].
    split; [exact H1|right; exact H2].
Qed.

(** X14: a run whose checks fail ends before the backup and the fetch: it
    returns False, has asked nothing but the validation questions, and has
    changed nothing on the disk but the log. *)
Theorem run_stops_at_failed_check (fuel : nat) (self : GitHubMonitor) (w : world) :
  fst (checks self w) = Ok false ->
  exists w' rs,
    run fuel self w = (Ok false, w')
    /\ log_only w w'
    /\ sent w' = (sent w ++ rs)%list
    /\ Forall (fun r => r = user_request self \/ r = organization_request self) rs.
Proof.
  intros Hchecks. rewrite run_split.
  destruct (checks self w) as [c w'] eqn:E. cbn [fst] in Hchecks. subst c.
  exists w'. revert E. unfold checks, log_error.
  destruct (PyStr.truthy (organization self)); cbn [negb].
  2:{ rewrite bind_run, log_logged. intros [= <-]. exists [].
      split; [done|]. split; [apply log_only_logged|].
      split; [by rewrite app_nil_r|constructor]. }
  rewrite bind_run.
  assert (exists bad w0 rs0,
            (if PyStr.truthy (github_token self)
             then ok <- validate_token self ;; ret (negb ok) else ret false) w
            = (bad, w0)
            /\ log_only w w0 /\ sent w0 = (sent w ++ rs0)%list
            /\ Forall (fun r => r = user_request self \/ r = organization_request self)
                 rs0) as (bad & w0 & rs0 & -> & L0 & S0 & F0).
  { destruct (PyStr.truthy (github_token self)).
    - rewrite bind_run.
      destruct (validate_token_effect self w) as [HL HS].
      destruct (validate_token self w) as [[ok|e|] w0]; cbn [snd] in *.
      all: eexists _, w0; destruct HS as [HS|HS];
        [exists []; split; [reflexivity|]; split; [done|];
         split; [by rewrite app_nil_r|constructor]
        |exists [user_request self]; split; [reflexivity|]; split; [done|];
         split; [done|]; constructor; [by left|constructor]].
    - eexists _, w, []. split; [reflexivity|]. split; [apply log_only_refl|].
      split; [by rewrite app_nil_r|constructor]. }
  destruct bad as [[|]|e|]; [| |done|done].
  { rewrite bind_run, log_logged. intros [= <-]. exists rs0.
    split; [done|]. split; [eapply log_only_trans; [exact L0|apply log_only_logged]|].
    split; [done|done]. }
  rewrite bind_run.
  destruct (validate_organization_effect self w0) as [HL HS].
  destruct (validate_organization self w0) as [[[|]|e|] w1]; cbn [snd negb] in *;
    [|rewrite bind_run, log_logged|done|done].
  - rewrite bind_run. change (print_header ?t ?x) with (Ok tt, header_printed t x).
    cbv beta match. rewrite bind_run. unfold log_info. rewrite log_logged.
    cbv beta match. rewrite bind_run.
    destruct (backup_files self _) as [[[]|e|] w2]; done.
  - intros [= <-].
    assert (log_only w (logged "ERROR"
              ("Invalid organization: " ++ organization self
               ++ ". Please check the name and try again.") w1)) as HLw.
    { eapply log_only_trans; [exact L0|].
      eapply log_only_trans; [exact HL|apply log_only_logged]. }
    destruct HS as [HS|HS].
    + exists rs0. split; [done|]. split; [exact HLw|].
      split; [cbn; congruence|done].
    + exists (rs0 ++ [organization_request self])%list. split; [done|].
      split; [exact HLw|]. split.
      * cbn. rewrite HS, S0. by rewrite app_assoc.
      * apply Forall_app. split; [done|]. constructor; [by right|constructor].
Qed.

Lemma run_stops_at_failed_check_witness :
  exists w' rs,
    run 5 Examples.acme (Examples.notifying Examples.offline) = (Ok false, w')
    /\ log_only (Examples.notifying Examples.offline) w'
    /\ sent w' = (sent (Examples.notifying Examples.offline) ++ rs)%list
    /\ Forall (fun r => r = user_request Examples.acme
                        \/ r = organization_request Examples.acme) rs.
Proof.
  apply (run_stops_at_failed_check 5 Examples.acme
           (Examples.notifying Examples.offline)).
  by vm_compute.
Defined.


Lemma sent_emit_all l w : sent (emit_all l w) = sent w.
Proof.
  revert w. induction l as [|o l IH]; intros w; [done|].
  change (emit_all (o :: l) w) with (emit_all l (emit o w)). by rewrite IH.
Qed.

(** X15: on a first run, without an earlier snapshot, the report compares
    nothing: it returns True, writes no diff file and sends no notification,
    whatever the configuration says. *)
Theorem first_run_report (self : GitHubMonitor) (current_repos : list string)
    (w : world) :
  fst (find_previous_list self w) = Ok None ->
  exists w',
    report self current_repos w = (Ok true, w')
    /\ sent w' = sent w
    /\ forall path, path <> log_file -> files w' !! path = files w !! path.
Proof.
  intros Hnone.
  destruct (find_previous_list_run self w) as [Hrun|[previous Hrun]];
    [|by rewrite Hrun in Hnone].
  unfold report, log_info. rewrite bind_run, Hrun. run_total.
  eexists. split; [reflexivity|]. split.
  - change (sent (logged ?l ?m ?x)) with (sent x). rewrite sent_emit_all.
    change (sent (header_printed ?t ?x)) with (sent x). rewrite sent_emit_all.
    reflexivity.
  - intros path Hp.
    rewrite logged_files_other by done. rewrite files_emit_all.
    change (files (header_printed ?t ?x)) with (files x). rewrite files_emit_all.
    change (files (header_printed ?t ?x)) with (files x).
    by rewrite !logged_files_other by done.
Qed.

Lemma first_run_report_witness :
  exists w',
    report Examples.acme ["acme/api"] (Examples.fresh Examples.offline) = (Ok true, w')
    /\ sent w' = [].
Proof.
  destruct (first_run_report Examples.acme ["acme/api"]
              (Examples.fresh Examples.offline))
    as (w' & Hrun & Hsent & _); [by vm_compute|].
  by exists w'.
Defined.



(** ** The reporter, further *)

Lemma length_append (a b : string) :
  String.length (a ++ b) = String.length a + String.length b.
Proof.
  induction a as [|c a IH]; [done|].
  change (S (String.length (a ++ b)) = S (String.length a) + String.length b).
  by rewrite IH.
Qed.

Lemma length_times (c : ascii) (n : nat) :
  String.length (PyStr.times (String c "") n) = n.
Proof.
  induction n as [|n IH]; [done|].
  change (S (String.length (PyStr.times (String c "") n)) = S n). by rewrite IH.
Qed.

(** X17: the banner of [print_header] is two rules of 80 signs around the
    title, which has the same number of blanks on either side and is never
    cut. A title of up to 78 characters gives a line of 78 or 77 characters;
    a longer one is printed as it is. *)
Theorem print_header_banner (title : string) (w : world) :
  let n := String.length title in
  let padding := PyStr.times " " ((78 - n) / 2) in
  let rule := PyStr.times "=" 80 in
  print_header title w
  = (Ok tt, emit_all [ConsolePrint "" None;
                      ConsolePrint rule (Some "bold");
                      ConsolePrint (padding ++ title ++ padding) (Some "bold");
                      ConsolePrint rule (Some "bold");
                      ConsolePrint "" None] w)
  /\ String.length rule = 80
  /\ String.length (padding ++ title ++ padding)
     = (if Nat.leb n 78 then 78 - n mod 2 else n).
Proof.
  cbv zeta. split; [|split].
  - unfold print_header. cbv zeta.
    replace (Z.to_nat ((80 - Z.of_nat (String.length title) - 2) / 2))
      with ((78 - String.length title) / 2).
    + reflexivity.
    + destruct (Nat.leb_spec (String.length title) 78) as [Hle|Hgt].
      * replace (80 - Z.of_nat (String.length title) - 2)%Z
          with (Z.of_nat (78 - String.length title)) by lia.
        change 2%Z with (Z.of_nat 2). rewrite <- Nat2Z.inj_div. by rewrite Nat2Z.id.
      * rewrite Nat.div_small by lia.
        symmetry. apply Z2Nat.nonpos.
        apply Z.lt_succ_r. apply Z.div_lt_upper_bound; lia.
  - apply length_times.
  - rewrite !length_append, !length_times.
    destruct (Nat.leb_spec (String.length title) 78) as [Hle|Hgt].
    + pose proof (Nat.div_mod_eq (78 - String.length title) 2) as Hdiv.
      pose proof (Nat.mod_upper_bound (String.length title) 2 ltac:(done)) as Hm.
      assert ((78 - String.length title) mod 2 = String.length title mod 2) as Hpar.
      { pose proof (Nat.div_mod_eq (String.length title) 2) as Hd2.
        pose proof (Nat.mod_upper_bound (78 - String.length title) 2 ltac:(done)).
        lia. }
      lia.
    + rewrite Nat.div_small by lia. lia.
Qed.

(** ** The notification, further *)

(** X18: [send_slack_notification] answers True without a request when
    the notifications are off or no webhook is set. Otherwise it makes
    exactly one request, a POST of one attachment to the webhook: green when
    both lists are empty and orange otherwise, with the two lists as its
    fields (the text None for an empty list), stamped with the time of the
    call; the answer is True when the request succeeds and False when it
    fails. *)
Theorem send_slack_notification_request (self : GitHubMonitor)
    (added_repos deleted_repos : list string) (w : world) :
  let r := send_slack_notification self added_repos deleted_repos w in
  if enable_slack self && PyStr.truthy (slack_webhook_url self) then
    exists a req,
      sent (snd r) = (sent w ++ [req])%list
      /\ method req = "POST" /\ url req = slack_webhook_url self
      /\ json req = Some [a]
      /\ (a_color a = "#36a64f" <-> added_repos = [] /\ deleted_repos = [])
      /\ (a_color a = "#ff9800" <-> added_repos <> [] \/ deleted_repos <> [])
      /\ map f_value (a_fields a)
         = [match added_repos with [] => NoneText | _ => Bullets added_repos end;
            match deleted_repos with [] => NoneText | _ => Bullets deleted_repos end]
      /\ a_ts a = clock w
      /\ (fst r = Ok true
          <-> exists response, outcome (net w (List.length (sent w)) req) = inr response)
      /\ (fst r = Ok false
          <-> exists e, outcome (net w (List.length (sent w)) req) = inl e)
  else r = (Ok true, w).
Proof.
  cbv zeta. rewrite send_slack_notification_run.
  destruct (enable_slack self); [|reflexivity].
  destruct (PyStr.truthy (slack_webhook_url self)); [|reflexivity].
  cbn [negb orb andb]. cbv zeta.
  eexists _, (slack_request self (slack_payload self added_repos deleted_repos (clock w))).
  split.
  { destruct (outcome _); reflexivity. }
  split; [reflexivity|]. split; [reflexivity|]. split; [reflexivity|].
  split; [|split; [|split; [|split; [|split]]]].
  - cbn. destruct added_repos, deleted_repos; cbn; split; try done.
    all: by intros [? ?].
  - cbn. destruct added_repos, deleted_repos; cbn; split; try done.
    + by intros [?|?].
    + intros _. by right.
    + intros _. by left.
    + intros _. by left.
  - reflexivity.
  - reflexivity.
  - destruct (outcome _) as [e|response]; cbn [fst]; split; try done.
    + by intros [? ?].
    + by eexists.
  - destruct (outcome _) as [e|response]; cbn [fst]; split; try done.
    + by eexists.
    + by intros [? ?].
Qed.

(** ** An unreadable configuration *)

(** X19: a configuration file whose [enable_slack] is not one of the
    words that [getboolean] reads stops every invocation at the construction
    of the monitor: an error is printed, the exit code is 1, and nothing else
    has happened, not even a line in the log. *)
Theorem unreadable_enable_slack_stops_the_program (fuel : nat) (args : arguments)
    (w : world) (c : ini) (s : gmap string string) (v : string) :
  config_ini w = Some c ->
  c !! "Settings" = Some s ->
  s !! "enable_slack" = Some v ->
  PyStr.lower v ∉ ["1"; "yes"; "true"; "on"; "0"; "no"; "false"; "off"] ->
  exists w',
    script fuel args w = (Ok 1, w')
    /\ (exists message, console w' = (console w ++ [Print ("Error: " ++ message)])%list)
    /\ sent w' = sent w /\ files w' = files w /\ config_ini w' = config_ini w.
Proof.
  intros Hc Hs Hv Hbad.
  assert (init w
          = (Raise (ValueError ("Not a boolean: " ++ v)),
             set_dirs (union {[ home w ++ "/.config/github-monitor" ]}) w)) as Hinit.
  { unfold init, get, now. rewrite !bind_run. cbv beta match.
    unfold load_config, get, makedirs. rewrite !bind_run. cbv beta match.
    match goal with
    | |- context [modify ?f ?y] => change (modify f y) with (Ok tt, f y)
    end.
    cbv beta match. rewrite Hc. cbn [config]. rewrite ini_read_fresh.
    rewrite bool_decide_eq_true_2 by eauto.
    rewrite bind_run. unfold ini_getboolean. rewrite Hs, Hv. cbv zeta.
    rewrite bool_decide_eq_false_2.
    2:{ intros Hin. apply Hbad. rewrite !elem_of_cons in Hin. rewrite !elem_of_cons.
        tauto. }
    rewrite bool_decide_eq_false_2.
    2:{ intros Hin. apply Hbad. rewrite !elem_of_cons in Hin. rewrite !elem_of_cons.
        tauto. }
    reflexivity. }
  rewrite script_run, main_split. unfold startup. rewrite bind_run, Hinit.
  eexists. split; [reflexivity|]. split; [by eexists|]. by cbn.
Qed.

Lemma unreadable_enable_slack_stops_the_program_witness :
  exists w',
    script 5 Samples.show_only (Samples.edited Examples.offline) = (Ok 1, w')
    /\ files w' = ∅.
Proof.
  destruct (unreadable_enable_slack_stops_the_program 5 Samples.show_only
              (Samples.edited Examples.offline)
              {[ "Settings" := settings_section "acme" "" "" "maybe" ]}
              (settings_section "acme" "" "" "maybe") "maybe")
    as (w' & Hrun & _ & _ & Hfiles & _).
  - reflexivity.
  - apply lookup_singleton_eq.
  - apply settings_section_lookup.
  - rewrite !elem_of_cons, elem_of_nil. intros H.
    repeat (destruct H as [H|H]; [discriminate|]). exact H.
  - exists w'. split; [exact Hrun|]. rewrite Hfiles. reflexivity.
Defined.

(** ** What the program leaves alone *)

Lemma load_list_world previous w : snd (load_list previous w) = w.
Proof.
  unfold load_list, read_file. rewrite bind_run.
  by destruct (files w !! previous).
Qed.

(** A relation between the world before and the world after that holds of
    every step of the program holds of the program. The steps are: writing a
    line to the log, writing or removing a file of the day or a backup,
    making one of the requests of a run, and whatever leaves the files and
    the requests made as they are. *)
Section Frame.
Variable R : world -> world -> Prop.
Variable writable : string -> Prop.
Variable allowed : request -> Prop.
Hypothesis R_refl : forall w, R w w.
Hypothesis R_trans : forall w1 w2 w3, R w1 w2 -> R w2 w3 -> R w1 w3.
Hypothesis R_logged : forall level message w, R w (logged level message w).
Hypothesis R_same : forall w w', files w' = files w -> sent w' = sent w -> R w w'.
Hypothesis R_request : forall r w, allowed r -> R w (record_request r w).
Hypothesis R_write : forall path x w, writable path -> R w (set_files (insert path x) w).
Hypothesis R_remove : forall path w, writable path -> R w (set_files (delete path) w).

Lemma R_header_printed title w x : R w x -> R w (header_printed title x).
Proof. intros H. apply (R_trans w x); [exact H|]. by apply R_same. Qed.

Lemma R_record_request r w x : allowed r -> R w x -> R w (record_request r x).
Proof. intros Hr H. apply (R_trans w x); [exact H|]. by apply R_request. Qed.

Lemma R_advance secs w x : R w x -> R w (advance secs x).
Proof. intros H. apply (R_trans w x); [exact H|]. by apply R_same. Qed.

Lemma R_emit o w x : R w x -> R w (emit o x).
Proof. intros H. apply (R_trans w x); [exact H|]. by apply R_same. Qed.

Lemma R_emit_all l w x : R w x -> R w (emit_all l x).
Proof.
  intros H. apply (R_trans w x); [exact H|].
  apply R_same; [apply files_emit_all|apply sent_emit_all].
Qed.

Lemma R_set_dirs f w x : R w x -> R w (set_dirs f x).
Proof. intros H. apply (R_trans w x); [exact H|]. by apply R_same. Qed.

Lemma R_set_config_ini c w x : R w x -> R w (set_config_ini c x).
Proof. intros H. apply (R_trans w x); [exact H|]. by apply R_same. Qed.

Lemma R_then_logged level message w x : R w x -> R w (logged level message x).
Proof. intros H. apply (R_trans w x); [exact H|]. apply R_logged. Qed.

Lemma R_then_write path v w x : writable path -> R w x -> R w (set_files (insert path v) x).
Proof. intros Hp H. apply (R_trans w x); [exact H|]. by apply R_write. Qed.

Lemma R_then_remove path w x : writable path -> R w x -> R w (set_files (delete path) x).
Proof. intros Hp H. apply (R_trans w x); [exact H|]. by apply R_remove. Qed.

Ltac frame :=
  repeat match goal with
    | |- R _ (logged _ _ _) => apply R_then_logged
    | |- R _ (record_request _ _) => apply R_record_request
    | |- R _ (advance _ _) => apply R_advance
    | |- R _ (emit _ _) => apply R_emit
    | |- R _ (emit_all _ _) => apply R_emit_all
    | |- R _ (header_printed _ _) => apply R_header_printed
    | |- R _ (set_dirs _ _) => apply R_set_dirs
    | |- R _ (set_config_ini _ _) => apply R_set_config_ini
    | |- R _ (set_files (insert _ _) _) => apply R_then_write
    | |- R _ (set_files (delete _) _) => apply R_then_remove
    | H : R ?w ?x |- R ?w ?x => exact H
    | |- R ?w ?w => apply R_refl
    end.

Lemma frame_validation (r : request) (ok_msg : string) (failed : string -> string)
    (error : exn -> string) (w : world) :
  allowed r ->
  R w (snd (try_except
              (response <- send r ;;
               if Nat.eqb (fst response) 200 then log_info ok_msg ;; ret true
               else m <- json_message (snd response) ;; log_error (failed m) ;; ret false)
              is_RequestException
              (fun e => log_error (error e) ;; ret false) w)).
Proof.
  intros Hr.
  pose proof (validation_cases r ok_msg failed error w) as H. cbv zeta in H.
  destruct (net w (List.length (sent w)) r) as [msg|st b].
  - rewrite H. cbn [snd]. frame; exact Hr.
  - destruct (Nat.eqb st 200).
    + rewrite H. cbn [snd]. frame; exact Hr.
    + destruct b as [|[m|]|l|]; rewrite H; cbn [snd]; frame; exact Hr.
Qed.

Lemma frame_validate_token (self : GitHubMonitor) (w : world) :
  allowed (user_request self) ->
  R w (snd (validate_token self w)).
Proof.
  intros Hr. unfold validate_token. destruct (negb _).
  - unfold log_warning. rewrite bind_run, log_logged. cbv beta match. cbn [snd ret].
    frame.
  - by apply frame_validation.
Qed.

Lemma frame_validate_organization (self : GitHubMonitor) (w : world) :
  allowed (organization_request self) ->
  R w (snd (validate_organization self w)).
Proof.
  intros Hr. unfold validate_organization. destruct (negb _).
  - unfold log_error. rewrite bind_run, log_logged. cbv beta match. cbn [snd ret].
    frame.
  - by apply frame_validation.
Qed.

Lemma frame_backup_each (self : GitHubMonitor) (fs : list string) (w : world) :
  (forall f, f ∈ fs -> writable f /\ writable (backup_path self f)) ->
  R w (snd (backup_each self fs w)).
Proof.
  revert w. induction fs as [|f fs IH]; intros w Hfs; [apply R_refl|].
  assert (forall g, g ∈ fs -> writable g /\ writable (backup_path self g)) as Hrest
    by (intros g Hg; apply Hfs; by right).
  destruct (Hfs f) as [Hf Hb]; [by left|].
  cbn [backup_each]. unfold path_exists, log_info. rewrite bind_run. cbv beta match.
  destruct (_ || _).
  - rewrite !bind_run, log_logged. cbv beta match. rewrite bind_run.
    unfold read_file at 1.
    destruct (files (logged _ _ w) !! f) as [x|] eqn:Hx.
    + cbv beta match.
      match goal with
      | |- context [(write_file ?a ?b ;; remove_file ?g) ?c] =>
          change ((write_file a b ;; remove_file g) c)
            with (Ok tt, set_files (delete g)
                           (set_files (insert a {| mtime := clock c; data := b |}) c))
      end.
      cbv beta match. eapply R_trans; [|apply IH; exact Hrest].
      frame; assumption.
    + cbn [snd]. frame.
  - rewrite bind_run. change (ret tt w) with (Ok tt, w). cbv beta match. by apply IH.
Qed.

Lemma frame_backup_files (self : GitHubMonitor) (w : world) :
  may_write writable self -> R w (snd (backup_files self w)).
Proof.
  intros Hday. unfold backup_files, log_info, makedirs.
  rewrite bind_run, log_logged. cbv beta match. rewrite bind_run.
  match goal with
  | |- context [modify ?f ?y] => change (modify f y) with (Ok tt, f y)
  end.
  cbv beta match. eapply R_trans; [|apply frame_backup_each; exact Hday]. frame.
Qed.

Lemma frame_checks (self : GitHubMonitor) (w : world) :
  may_write writable self -> may_request allowed self -> R w (snd (checks self w)).
Proof.
  intros Hday Hreq.
  assert (allowed (user_request self)) as Huser by (apply Hreq; by left).
  assert (allowed (organization_request self)) as Horg
    by (apply Hreq; right; by left).
  unfold checks, log_error, log_info.
  destruct (PyStr.truthy (organization self)); cbn [negb].
  2:{ rewrite bind_run, log_logged. cbv beta match. cbn [snd ret]. frame. }
  rewrite bind_run.
  assert (exists bad w0,
            (if PyStr.truthy (github_token self)
             then ok <- validate_token self ;; ret (negb ok) else ret false) w
            = (bad, w0)
            /\ R w w0) as (bad & w0 & -> & R0).
  { destruct (PyStr.truthy (github_token self)).
    - rewrite bind_run.
      pose proof (frame_validate_token self w Huser) as HR.
      destruct (validate_token self w) as [[ok|e|] w0]; cbn [snd] in *;
        by eexists _, w0.
    - eexists _, w. split; [reflexivity|apply R_refl]. }
  destruct bad as [[|]|e|]; [| |exact R0|exact R0].
  { rewrite bind_run, log_logged. cbv beta match. cbn [snd ret]. frame. }
  rewrite bind_run.
  pose proof (R_trans _ _ _ R0 (frame_validate_organization self w0 Horg)) as R1.
  destruct (validate_organization self w0) as [[[|]|e|] w1]; cbn [snd negb] in *;
    [| |exact R1|exact R1].
  - rewrite bind_run. change (print_header ?t ?x) with (Ok tt, header_printed t x).
    cbv beta match. rewrite bind_run, log_logged. cbv beta match. rewrite bind_run.
    match goal with
    | |- context [backup_files self ?x] =>
        pose proof (frame_backup_files self x Hday) as Hb;
        destruct (backup_files self x) as [[[]|e|] w2]
    end; cbn [snd] in *; cbv beta match; cbn [snd ret];
      (eapply R_trans; [|exact Hb]); frame.
  - rewrite bind_run, log_logged. cbv beta match. cbn [snd ret]. frame.
Qed.

Lemma frame_get_page (self : GitHubMonitor) (headers : list (string * string))
    (page : nat) (attempts : list nat) (w : world) :
  allowed (repos_request self headers page) ->
  R w (snd (get_page self headers page attempts w)).
Proof.
  intros Hr.
  revert w. induction attempts as [|attempt rest IH]; intros w; [apply R_refl|].
  rewrite get_page_cons. cbv zeta.
  destruct (outcome _) as [e|response]; [|cbn [snd]; frame; exact Hr].
  destruct (Nat.eqb attempt 2); [cbn [snd]; frame; exact Hr|].
  eapply R_trans; [|apply IH]. frame; exact Hr.
Qed.

Lemma frame_fetch_page (self : GitHubMonitor) (headers : list (string * string))
    (repositories : list string) (page total_repos : nat) (w : world) :
  allowed (repos_request self headers page) ->
  R w (snd (fetch_page self headers repositories page total_repos w)).
Proof.
  intros Hr.
  pose proof (frame_get_page self headers page (seq 0 3) w Hr) as Hg.
  unfold fetch_page, try_except, log_info, log_error. rewrite bind_run.
  destruct (get_page self headers page (seq 0 3) w) as [[[st b]|e|] w1];
    cbn [snd] in Hg; [| |exact Hg].
  2:{ cbv beta match. unfold any_exception. cbv beta match.
      rewrite bind_run, log_logged. cbv beta match. cbn [snd ret]. frame. }
  cbn [snd]. rewrite bind_run.
  destruct b as [|m|[|i l]|].
  - cbn [response_json]. unfold raise at 1. cbv beta match. unfold any_exception.
    cbv beta match. rewrite bind_run, log_logged. cbv beta match. cbn [snd ret]. frame.
  - cbn [response_json]. unfold ret at 1. cbv beta match. cbn [snd ret]. frame.
  - cbn [response_json]. unfold ret at 1. cbv beta match. cbn [snd ret]. frame.
  - cbn [response_json]. unfold ret at 1. cbv beta match. rewrite bind_run.
    pose proof (full_names_world (i :: l) w1) as Hw.
    destruct (full_names (i :: l) w1) as [[names|e|] w2]; cbn [snd] in Hw; subst w2.
    + cbv beta match. rewrite bind_run, log_logged. cbv beta match.
      destruct (Nat.ltb (List.length names) 100); cbn [snd ret]; frame.
    + cbv beta match. unfold any_exception. cbv beta match.
      rewrite bind_run, log_logged. cbv beta match. cbn [snd ret]. frame.
    + cbv beta match. cbn [snd]. frame.
  - cbn [response_json]. unfold ret at 1. cbv beta match. cbn [snd ret]. frame.
Qed.

Lemma frame_fetch_pages (fuel : nat) (self : GitHubMonitor)
    (headers : list (string * string)) (repositories : list string)
    (page total_repos : nat) (w : world) :
  (forall n, allowed (repos_request self headers n)) ->
  R w (snd (fetch_pages fuel self headers repositories page total_repos w)).
Proof.
  intros Hr. revert repositories page total_repos w.
  induction fuel as [|fuel IH]; intros repositories page total_repos w; [apply R_refl|].
  cbn [fetch_pages]. rewrite bind_run.
  pose proof (frame_fetch_page self headers repositories page total_repos w (Hr page))
    as Hp.
  destruct (fetch_page self headers repositories page total_repos w)
    as [[[[[[|] repositories'] page'] total']|e|] w1]; cbn [snd] in Hp;
    [exact Hp| |exact Hp|exact Hp].
  eapply R_trans; [exact Hp|apply IH].
Qed.

Lemma frame_fetch_repositories (fuel : nat) (self : GitHubMonitor) (w : world) :
  writable (repo_list_file self) ->
  (forall n, allowed (repos_request self (_get_auth_headers self) n)) ->
  R w (snd (fetch_repositories fuel self w)).
Proof.
  intros Hrepo Hr. destruct (PyStr.truthy (organization self)) eqn:Horg.
  - rewrite fetch_repositories_start by done. unfold fetch_from. rewrite bind_run.
    pose proof (frame_fetch_pages fuel self (_get_auth_headers self) [] 1 0
                  (started self w) Hr) as Hp.
    assert (R w (started self w)) as Hs.
    { unfold started. destruct (negb _); frame. }
    pose proof (R_trans _ _ _ Hs Hp) as Hsp.
    destruct (fetch_pages fuel self (_get_auth_headers self) [] 1 0 (started self w))
      as [[r|e|] w1]; cbn [snd] in *; [|exact Hsp|exact Hsp].
    unfold finish_fetch, _save_list_to_file, log_info. rewrite bind_run.
    match goal with
    | |- context [write_file ?a ?b ?c] =>
        change (write_file a b c)
          with (Ok tt, set_files (insert a {| mtime := clock c; data := b |}) c)
    end.
    cbv beta match. rewrite bind_run, log_logged. cbv beta match. cbn [snd ret].
    frame. exact Hrepo.
  - rewrite fetch_repositories_no_organization by done. cbn [snd]. frame.
Qed.

Lemma frame_compared (self : GitHubMonitor) (current previous : list string) (w : world) :
  writable (added_repos_file self) -> writable (deleted_repos_file self) ->
  R w (compared self current previous w).
Proof.
  intros Ha Hd. unfold compared, compare_repositories, _save_list_to_file, log_info.
  rewrite bind_run, log_logged. cbv beta match. rewrite bind_run.
  match goal with
  | |- context [write_file ?a ?b ?c] =>
      change (write_file a b c)
        with (Ok tt, set_files (insert a {| mtime := clock c; data := b |}) c)
  end.
  cbv beta match. rewrite bind_run.
  match goal with
  | |- context [write_file ?a ?b ?c] =>
      change (write_file a b c)
        with (Ok tt, set_files (insert a {| mtime := clock c; data := b |}) c)
  end.
  cbv beta match. rewrite bind_run, log_logged. cbv beta match. cbn [snd ret].
  frame; assumption.
Qed.

Lemma frame_notified (self : GitHubMonitor) (added_repos deleted_repos : list string)
    (w : world) :
  (forall payload, allowed (slack_request self payload)) ->
  R w (notified self added_repos deleted_repos w).
Proof.
  intros Hr. unfold notified. rewrite send_slack_notification_run.
  destruct (_ || _); [apply R_refl|]. cbv zeta.
  destruct (outcome _); cbn [snd]; frame; apply Hr.
Qed.

Lemma frame_report (self : GitHubMonitor) (current_repos : list string) (w : world) :
  writable (added_repos_file self) -> writable (deleted_repos_file self) ->
  (forall payload, allowed (slack_request self payload)) ->
  R w (snd (report self current_repos w)).
Proof.
  intros Ha Hd Hr. unfold report, log_info.
  destruct (find_previous_list_run self w) as [Hnone|[previous Hsome]].
  - rewrite bind_run, Hnone. run_total. cbn [snd]. frame.
  - rewrite bind_run, Hsome. cbv beta match. rewrite bind_run, bind_run.
    pose proof (load_list_world previous w) as Hw.
    destruct (load_list previous w) as [[previous_repos|e|] w1]; cbn [snd] in Hw;
      subst w1; [|apply R_refl|apply R_refl].
    run_total. cbn [fst snd].
    assert (forall x, R w x ->
              R w (snd ((print_header "Summary";;
                  (previous_repos0 <- load_list previous;;
                   print_table previous_repos0
                     ("Previous Repository List ("
                      ++ PyStr.replace "repo-list-" "" previous ++ ")"));;
                  print_table current_repos
                    ("Current Repository List (" ++ today self ++ ")");;
                  log "INFO" "Script completed successfully";;
                  ret true) x))) as Htail.
    { intros x Hx. run_total.
      pose proof (load_list_world previous (header_printed "Summary" x)) as Hl.
      destruct (load_list previous (header_printed "Summary" x)) as [[again|e|] x1];
        cbn [snd] in Hl; subst x1; [|cbn [snd]; frame|cbn [snd]; frame].
      run_total. cbn [snd]. frame. }
    assert (R w (compared self current_repos previous_repos
                   (logged "INFO"
                      ("Using previous list from "
                       ++ PyStr.replace "repo-list-" "" previous
                       ++ " for comparison") w))) as Hc.
    { eapply R_trans; [|by apply frame_compared]. frame. }
    destruct (enable_slack self).
    + match goal with
      | |- context [send_slack_notification self ?a ?d] =>
          match goal with
          | |- context [(_ ;; _) ?x] =>
              destruct (send_slack_notification_notified self a d x)
                as [sent_ok Hslack];
              pose proof (frame_notified self a d x Hr) as Hn
          end
      end.
      rewrite bind_run, Hslack. cbv beta match.
      change (ret tt ?x) with (Ok tt, x). cbv beta match.
      apply Htail. eapply R_trans; [|exact Hn]. frame.
    + change (ret tt ?x) with (Ok tt, x). cbv beta match.
      apply Htail. frame.
Qed.

Lemma frame_run (fuel : nat) (self : GitHubMonitor) (w : world) :
  may_write writable self -> may_request allowed self -> R w (snd (run fuel self w)).
Proof.
  intros Hday Hreq.
  assert (forall n, allowed (repos_request self (_get_auth_headers self) n)) as Hpages
    by (intros n; apply Hreq; do 2 right; left; by exists n).
  assert (forall payload, allowed (slack_request self payload)) as Hslack
    by (intros payload; apply Hreq; do 3 right; by exists payload).
  destruct (Hday (repo_list_file self)) as [Hr _]; [by left|].
  destruct (Hday (added_repos_file self)) as [Ha _]; [right; by left|].
  destruct (Hday (deleted_repos_file self)) as [Hd _]; [do 2 right; by left|].
  rewrite run_split.
  pose proof (frame_checks self w Hday Hreq) as Hc.
  destruct (checks self w) as [[[|]|e|] w1]; cbn [snd] in *; try exact Hc.
  pose proof (R_trans _ _ _ Hc (frame_fetch_repositories fuel self w1 Hr Hpages))
    as Hfetch.
  destruct (fetch_repositories fuel self w1) as [[[|r rs]|e|] w2]; cbn [snd] in *.
  - frame.
  - eapply R_trans; [exact Hfetch|]. by apply frame_report.
  - exact Hfetch.
  - exact Hfetch.
Qed.

Lemma frame_load_config (self : GitHubMonitor) (w : world) :
  R w (snd (load_config self w)).
Proof.
  apply R_same; [|by apply (quiet_load_config self w)].
  apply map_eq. intros path.
  destruct (decide (path = log_file)) as [->|Hne].
  - unfold load_config, get, makedirs. rewrite !bind_run. cbv beta match.
    match goal with
    | |- context [modify ?f ?y] => change (modify f y) with (Ok tt, f y)
    end.
    cbv beta match.
    destruct (config_ini w) as [from_file|]; [|reflexivity].
    destruct (bool_decide _); [|reflexivity].
    rewrite bind_run. unfold ini_getboolean, ret, raise.
    repeat case_match; simplify_eq; reflexivity.
  - by apply (quiet_load_config self w).
Qed.

Lemma frame_init (w : world) : R w (snd (init w)).
Proof.
  unfold init, get, now, setup_logging, log_info. rewrite !bind_run. cbv beta match.
  set (self := {| config := ∅; today := _ |}).
  pose proof (frame_load_config self w) as Hload.
  destruct (load_config self w) as [[monitor|e|] w1]; cbn [snd] in *; try exact Hload.
  rewrite bind_run, log_logged. cbv beta match. cbn [snd ret]. frame.
Qed.

Lemma frame_update_config (self : GitHubMonitor) (org token webhook : option string)
    (enable : option bool) (w : world) :
  R w (snd (update_config self org token webhook enable w)).
Proof.
  unfold update_config, log_info. rewrite bind_run.
  set (self' := with_settings _ _ _ _ self).
  change (save_config self' w)
    with (Ok (with_config (<[ "Settings" :=
                settings_section (organization self') (github_token self')
                  (slack_webhook_url self') (PyStr.of_bool (enable_slack self')) ]>
                (config self')) self'),
          set_config_ini (Some (<[ "Settings" :=
                settings_section (organization self') (github_token self')
                  (slack_webhook_url self') (PyStr.of_bool (enable_slack self')) ]>
                (config self'))) w).
  cbv beta match. rewrite bind_run, log_logged. cbv beta match. cbn [snd ret]. frame.
Qed.

Lemma frame_startup (args : arguments) (w : world) : R w (snd (startup args w)).
Proof.
  unfold startup. rewrite bind_run.
  pose proof (frame_init w) as Hinit.
  destruct (init w) as [[monitor|e|] w1]; cbn [snd] in *; try exact Hinit.
  destruct (_ || _); [|exact Hinit].
  eapply R_trans; [exact Hinit|apply frame_update_config].
Qed.

Lemma frame_script (fuel : nat) (args : arguments) (w : world) :
  (forall self, may_write writable self) ->
  (forall self, may_request allowed self) ->
  R w (snd (script fuel args w)).
Proof.
  intros Hday Hreq. rewrite script_run, main_split.
  pose proof (frame_startup args w) as Hstart.
  destruct (startup args w) as [[monitor|e|] w1]; cbn [snd] in *;
    [|frame|exact Hstart].
  assert (R w1 (snd (dispatch fuel args monitor w1))) as Hd.
  { unfold dispatch.
    destruct (arg_show_config args); [by apply R_same|].
    destruct (negb (PyStr.truthy (organization monitor))); [by apply R_same|].
    destruct (negb (arg_dry_run args)); [|by apply R_same].
    rewrite bind_run.
    pose proof (frame_run fuel monitor w1 (Hday monitor) (Hreq monitor)) as Hrun.
    destruct (run fuel monitor w1) as [[success|e|] w2]; exact Hrun. }
  pose proof (R_trans _ _ _ Hstart Hd) as Hsd.
  destruct (dispatch fuel args monitor w1) as [[code|e|] w2]; cbn [snd] in *;
    [exact Hsd|frame|exact Hsd].
Qed.

End Frame.

(** ** Readings of the frame *)

Lemma append_empty (s : string) : s ++ "" = s.
Proof.
  induction s as [|c s IH]; [done|].
  change (String c (s ++ "") = String c s). by rewrite IH.
Qed.

Lemma append_append (a b c : string) : (a ++ b) ++ c = a ++ b ++ c.
Proof.
  induction a as [|x a IH]; [done|].
  change (String x ((a ++ b) ++ c) = String x (a ++ b ++ c)). by rewrite IH.
Qed.

Lemma log_content_logged (level message : string) (w : world) :
  exists line, log_content (logged level message w) = log_content w ++ line ++ PyStr.nl.
Proof.
  unfold log_content, logged, log. simpl. rewrite lookup_insert_eq. simpl.
  eexists. reflexivity.
Qed.

Lemma day_files_not_log (self : GitHubMonitor) :
  may_write (fun path => path <> log_file) self.
Proof.
  intros f Hf. split; [|apply backup_path_not_log].
  unfold files_of_the_day in Hf.
  repeat (apply elem_of_cons in Hf as [->|Hf]; [cbn; discriminate|]).
  by apply elem_of_nil in Hf.
Qed.

(** X20: the program only ever adds to its log: whatever the log held
    before an invocation is the beginning of what it holds after. *)
Theorem script_appends_to_log (fuel : nat) (args : arguments) (w : world) :
  exists more, log_content (snd (script fuel args w)) = log_content w ++ more.
Proof.
  apply (frame_script log_extended (fun path => path <> log_file) (fun _ => True)).
  - intros x. exists "". unfold log_content. by rewrite append_empty.
  - intros w1 w2 w3 [m1 H1] [m2 H2]. exists (m1 ++ m2).
    rewrite H2, H1. by rewrite append_append.
  - intros level message x.
    destruct (log_content_logged level message x) as [line Hline]. by eexists.
  - intros x y Hfiles _. exists "". unfold log_content. rewrite Hfiles.
    by rewrite append_empty.
  - intros r x _. exists "". unfold log_content. cbn [files record_request].
    by rewrite append_empty.
  - intros path x y Hpath. exists "". unfold log_content. cbn [files set_files].
    rewrite lookup_insert_ne by done. by rewrite append_empty.
  - intros path y Hpath. exists "". unfold log_content. cbn [files set_files].
    rewrite lookup_delete_ne by done. by rewrite append_empty.
  - apply day_files_not_log.
  - done.
Qed.

(** X21: a run writes the log, the files of the day and their backups;
    every other file, so every earlier snapshot, is after the run as it was
    before. *)
Theorem run_keeps_other_files (fuel : nat) (self : GitHubMonitor) (w : world)
    (path : string) :
  ~ of_the_day self path ->
  files (snd (run fuel self w)) !! path = files w !! path.
Proof.
  intros Hday.
  assert (path <> log_file) as Hlog by (intros ->; apply Hday; by left).
  apply (frame_run (fun x y => files y !! path = files x !! path)
           (fun p => p <> path) (fun _ => True)).
  - done.
  - intros w1 w2 w3 H1 H2. by rewrite H2.
  - intros level message x. by apply logged_files_other.
  - intros x y Hfiles _. by rewrite Hfiles.
  - done.
  - intros p x y Hp. cbn [files set_files]. by rewrite lookup_insert_ne.
  - intros p y Hp. cbn [files set_files]. by rewrite lookup_delete_ne.
  - intros f Hf. split; intros E; apply Hday; right.
    + left. by rewrite <- E.
    + right. by exists f.
  - done.
Qed.

Lemma run_keeps_other_files_witness :
  files (snd (run 5 Examples.acme (Examples.notifying Examples.webhook_unreachable)))
  !! "repo-list-2024-01-01"
  = files (Examples.notifying Examples.webhook_unreachable) !! "repo-list-2024-01-01".
Proof.
  apply run_keeps_other_files.
  intros [H|[H|(f & Hf & H)]].
  - discriminate.
  - unfold files_of_the_day in H.
    repeat (apply elem_of_cons in H as [H|H]; [discriminate|]).
    by apply elem_of_nil in H.
  - unfold files_of_the_day in Hf.
    repeat (apply elem_of_cons in Hf as [->|Hf]; [discriminate|]).
    by apply elem_of_nil in Hf.
Defined.

(** X22: a run talks to nobody but the GitHub API and the webhook: every
    request it makes is one of the two validation calls, a page of the
    listing, or the notification; and a request that carries an
    [Authorization] header goes to the GitHub API. *)
Theorem run_requests (fuel : nat) (self : GitHubMonitor) (w : world) :
  exists rs,
    sent (snd (run fuel self w)) = (sent w ++ rs)%list
    /\ Forall (run_request self) rs
    /\ forall r value,
         r ∈ rs -> ("Authorization", value) ∈ headers r ->
         PyStr.startswith "https://api.github.com/" (url r) = true.
Proof.
  destruct (frame_run
              (fun x y => exists rs, sent y = (sent x ++ rs)%list
                                     /\ Forall (run_request self) rs)
              (fun _ => True) (run_request self)) with (fuel := fuel) (self := self)
                                                          (w := w)
    as (rs & Hsent & Hall).
  - intros x. exists []. split; [by rewrite app_nil_r|constructor].
  - intros w1 w2 w3 (r1 & S1 & F1) (r2 & S2 & F2). exists (r1 ++ r2)%list.
    split; [by rewrite S2, S1, app_assoc|by apply Forall_app].
  - intros level message x. exists []. split; [by rewrite app_nil_r|constructor].
  - intros x y _ Hsame. exists []. split; [by rewrite app_nil_r|constructor].
  - intros r x Hr. exists [r]. split; [done|by constructor].
  - intros path x y _. exists []. split; [by rewrite app_nil_r|constructor].
  - intros path y _. exists []. split; [by rewrite app_nil_r|constructor].
  - done.
  - intros r Hr. exact Hr.
  - exists rs. split; [exact Hsent|]. split; [exact Hall|].
    intros r value Hin Hauth.
    rewrite Forall_forall in Hall.
    destruct (Hall r Hin) as [->|[->|[[page ->]|[payload ->]]]]; try reflexivity.
    cbn in Hauth. apply list_elem_of_singleton in Hauth. discriminate.
Qed.

Lemma report_files (self : GitHubMonitor) (path : string) (current_repos : list string)
    (w : world) :
  path <> log_file -> path <> added_repos_file self -> path <> deleted_repos_file self ->
  files (snd (report self current_repos w)) !! path = files w !! path.
Proof.
  intros Hl Ha Hd.
  apply (frame_report (fun x y => files y !! path = files x !! path)
           (fun p => p <> path) (fun _ => True)).
  - done.
  - intros w1 w2 w3 H1 H2. by rewrite H2.
  - intros level message x. by apply logged_files_other.
  - intros x y Hfiles _. by rewrite Hfiles.
  - done.
  - intros p x y Hp. cbn [files set_files]. by rewrite lookup_insert_ne.
  - by apply not_eq_sym.
  - by apply not_eq_sym.
  - done.
Qed.

(** X23: a run that returns True has left a snapshot of the day that is
    sorted and not empty. *)
Theorem successful_run_snapshot (fuel : nat) (self : GitHubMonitor) (w w' : world) :
  run fuel self w = (Ok true, w') ->
  exists l,
    l <> []
    /\ StronglySorted String.le l
    /\ data <$> files w' !! repo_list_file self = Some (snapshot_text l).
Proof.
  rewrite run_split.
  pose proof (checks_true_organization self w) as Horg.
  destruct (checks self w) as [[[|]|e|] w1]; cbn [fst] in Horg; try done.
  specialize (Horg eq_refl).
  pose proof (fetch_repositories_start self fuel w1 Horg) as Hstart.
  destruct (fetch_repositories fuel self w1) as [[[|r rs]|e|] w2]; try done.
  destruct (fetch_from_result _ _ _ _ _ _ _ _ _ (eq_sym Hstart)) as [Hsorted Hfile].
  intros Hreport. exists (r :: rs). split; [done|]. split; [exact Hsorted|].
  rewrite <- Hfile.
  pose proof (report_files self (repo_list_file self) (r :: rs) w2
                ltac:(done) ltac:(done) ltac:(done)) as Hsame.
  rewrite Hreport in Hsame. cbn [snd] in Hsame. by rewrite Hsame.
Qed.

Lemma successful_run_snapshot_witness :
  exists l,
    l <> []
    /\ StronglySorted String.le l
    /\ data <$> files (snd (run 5 Examples.acme
                              (Examples.notifying Examples.webhook_unreachable)))
                !! repo_list_file Examples.acme
       = Some (snapshot_text l).
Proof.
  apply (successful_run_snapshot 5 Examples.acme
           (Examples.notifying Examples.webhook_unreachable)).
  vm_compute. reflexivity.
Defined.

(** * The setup utility *)

(** ** The rules of the program logic *)

Lemma wp_ret {A} (a : A) (Q : result A -> world -> Prop) (w : world) :
  Q (Ok a) w -> wp (ret a) Q w.
Proof. done. Qed.

Lemma wp_bind {A B} (m : M A) (k : A -> M B) (Q : result B -> world -> Prop)
    (w : world) :
  wp m (fun r w' =>
          match r with
          | Ok a => wp (k a) Q w'
          | Raise e => Q (Raise e) w'
          | OutOfFuel => Q OutOfFuel w'
          end) w ->
  wp (bind m k) Q w.
Proof.
  unfold wp, bind. destruct (m w) as [[a|e|] w']; done.
Qed.

Lemma wp_print {B} (markup : string) (style : option string) (k : M B)
    (Q : result B -> world -> Prop) (w : world) :
  wp k Q (emit (ConsolePrint markup style) w) ->
  wp (console_print markup style ;; k) Q w.
Proof. done. Qed.

Lemma requested_refl w : requested [] w w.
Proof. split; [by rewrite app_nil_r|done]. Qed.

(** [validate_github_token]: an answer, after at most one request, which
    carries the token. *)
Lemma validate_github_token_spec (net : Setup.api) (token : string)
    (Q : result bool -> world -> Prop) (w : world) :
  (forall valid rs w',
     requested rs w w' -> List.length rs <= 1 -> Forall authenticated rs ->
     Q (Ok valid) w') ->
  wp (Setup.validate_github_token net token) Q w.
Proof.
  intros HQ. unfold wp, Setup.validate_github_token.
  destruct (PyStr.truthy token) eqn:Htok; cbn [negb].
  2:{ apply (HQ false []); [apply requested_refl|cbn; lia|constructor]. }
  set (r := {| method := "GET"; url := "https://api.github.com/user"; params := [];
               headers := [("Authorization", "token " ++ token);
                           ("Accept", "application/vnd.github.v3+json");
                           ("User-Agent", "GitHub-Repository-Monitor")];
               timeout := 10; json := None |}).
  assert (authenticated r) as Hr.
  { split; [done|]. split; [done|]. split; [done|]. exists token. split; [done|].
    by left. }
  assert (requested [r] w (record_request r w)) as Hreq by done.
  unfold try_except, Setup.requests_get. rewrite bind_run. fold r.
  destruct (net (List.length (sent w)) r) as [msg|st b].
  - apply (HQ false [r]); [done|cbn; lia|by constructor].
  - cbv beta match. cbn [fst snd].
    destruct (Nat.eqb st 200); destruct b as [|login message|];
      apply (HQ _ [r]); (done || (cbn; lia) || by constructor).
Qed.



Lemma wp_modify {B} (f : world -> world) (k : M B) (Q : result B -> world -> Prop)
    (w : world) :
  wp k Q (f w) -> wp (modify f ;; k) Q w.
Proof. done. Qed.





Lemma wp_get {B} (k : world -> M B) (Q : result B -> world -> Prop) (w : world) :
  wp (k w) Q w -> wp (w0 <- get ;; k w0) Q w.
Proof. done. Qed.

Lemma load_existing_config_spec (Q : result (ini * string) -> world -> Prop)
    (w : world) :
  (forall w',
     config_ini w' = config_ini w -> files w' = files w ->
     Q (Ok (starting_config w, home w ++ "/.config/github-monitor/config.ini")) w') ->
  wp Setup.load_existing_config Q w.
Proof.
  intros HQ. unfold Setup.load_existing_config, Setup.create_config_directory, makedirs.
  apply wp_bind, wp_get, wp_modify, wp_ret. cbv beta match.
  apply wp_get. unfold starting_config in HQ. cbn [config_ini set_dirs].
  rewrite append_append. change ("/.config/github-monitor" ++ "/config.ini")
    with "/.config/github-monitor/config.ini".
  destruct (config_ini w) as [c|] eqn:Hc.
  - rewrite ini_read_fresh. apply wp_print, wp_ret. by apply HQ.
  - apply wp_print, wp_ret. by apply HQ.
Qed.

(** ** What the utility saves *)






(** ** A file without a section *)

Lemma ini_get_no_section (c : ini) (section option fallback : string) :
  c !! section = None -> ini_get c section option fallback = fallback.
Proof. intros H. unfold ini_get. by rewrite H. Qed.

Lemma set_option_no_section (c : ini) (section option value : string) (w : world) :
  c !! section = None ->
  Setup.set_option c section option value w = (Raise (KeyError section), w).
Proof. intros H. unfold Setup.set_option. by rewrite H. Qed.

Lemma setup_configuration_raises (net : Setup.api) (args : Setup.arguments) (w : world)
    (c : ini) :
  config_ini w = Some c ->
  c !! "Settings" = None ->
  is_Some (Setup.if_given (Setup.args_token args))
  \/ is_Some (Setup.if_given (Setup.args_org args))
  \/ is_Some (Setup.if_given (Setup.args_slack args)) ->
  wp (Setup.setup_configuration net args)
    (fun r w' => r = Raise (KeyError "Settings") /\ config_ini w' = Some c) w.
Proof.
  intros Hc Hnone Hgiven. unfold Setup.setup_configuration.
  apply wp_print, wp_bind, load_existing_config_spec. intros w1 Hc1 _.
  cbv beta match. cbn [fst snd].
  change (starting_config (emit _ w)) with (starting_config w).
  unfold starting_config. rewrite Hc.
  cbn [config_ini emit] in Hc1. rewrite Hc in Hc1.
  rewrite !ini_get_no_section by done.
  apply wp_bind. unfold wp at 1, ini_getboolean. rewrite Hnone. cbn [fst snd ret].
  apply wp_bind.
  destruct (Setup.if_given (Setup.args_token args)) as [token|].
  { apply wp_print, wp_bind, validate_github_token_spec.
    intros valid rs w' (_ & Hc' & _) _ _. cbn [config_ini emit] in Hc'.
    destruct valid.
    - apply wp_bind. unfold wp. rewrite set_option_no_section by done.
      cbn [fst snd]. split; [done|congruence].
    - apply wp_print. unfold wp. rewrite set_option_no_section by done.
      cbn [fst snd config_ini emit]. split; [done|congruence]. }
  change (PyStr.truthy "") with false. cbv match.
  apply wp_print, wp_ret. apply wp_bind.
  destruct (Setup.if_given (Setup.args_org args)) as [org_name|].
  { apply wp_print. rewrite ini_get_no_section by done.
    change (PyStr.truthy "") with false. cbv match.
    apply wp_bind, wp_ret. cbv match.
    apply wp_print. unfold wp. rewrite set_option_no_section by done.
    cbn [fst snd config_ini emit]. split; [done|congruence]. }
  apply wp_print, wp_ret. apply wp_bind.
  destruct (Setup.if_given (Setup.args_slack args)) as [slack|].
  { apply wp_print, wp_bind. unfold wp. rewrite set_option_no_section by done.
    cbn [fst snd config_ini emit]. split; [done|congruence]. }
  destruct Hgiven as [[? H]|[[? H]|[? H]]]; discriminate.
Qed.

(** X25: a configuration file without a [Settings] section cannot take a
    value: when a token, an organization or a webhook URL is given, the setup
    utility ends with the error ['Settings'] and the exit code 1, and the
    file stays as it was. *)
Theorem setup_needs_settings_section (net : Setup.api) (args : Setup.arguments)
    (w : world) (c : ini) :
  config_ini w = Some c ->
  c !! "Settings" = None ->
  is_Some (Setup.if_given (Setup.args_token args))
  \/ is_Some (Setup.if_given (Setup.args_org args))
  \/ is_Some (Setup.if_given (Setup.args_slack args)) ->
  exists w',
    Setup.script net args w = (Ok 1, w')
    /\ config_ini w' = Some c
    /\ last (console w')
       = Some (ConsolePrint "[red]Error during configuration: 'Settings'[/red]" None).
Proof.
  intros Hc Hnone Hgiven.
  pose proof (setup_configuration_raises net args w c Hc Hnone Hgiven) as Hwp.
  unfold wp in Hwp. unfold Setup.script, try_except. rewrite bind_run.
  destruct (Setup.setup_configuration net args w) as [r w'].
  cbn [fst snd] in Hwp. destruct Hwp as [-> Hc'].
  eexists. split; [reflexivity|]. split; [exact Hc'|].
  cbn [console emit]. apply last_snoc.
Qed.

Lemma setup_needs_settings_section_witness :
  exists w',
    Setup.script Samples.api_offline Samples.token_and_org Samples.no_section = (Ok 1, w')
    /\ config_ini w' = Some ∅.
Proof.
  destruct (setup_needs_settings_section Samples.api_offline Samples.token_and_org
              Samples.no_section ∅) as (w' & Hrun & Hc & _).
  - reflexivity.
  - apply lookup_empty.
  - left. by eexists.
  - by exists w'.
Defined.

(** ** The requests of the utility *)

Lemma asks_quiet {A} (m : M A) :
  (forall w, sent (snd (m w)) = sent w /\ files (snd (m w)) = files w) -> asks 0 m.
Proof.
  intros H w. destruct (H w) as [Hs Hf]. exists [].
  split; [by rewrite app_nil_r|]. split; [done|]. split; [constructor|done].
Qed.

Lemma asks_ret {A} (a : A) : asks 0 (ret a).
Proof. by apply asks_quiet. Qed.

Lemma asks_raise {A} (e : exn) : asks 0 (@raise A e).
Proof. by apply asks_quiet. Qed.

Lemma asks_print (markup : string) (style : option string) :
  asks 0 (console_print markup style).
Proof. by apply asks_quiet. Qed.

Lemma asks_weaken {A} (n n' : nat) (m : M A) : n <= n' -> asks n m -> asks n' m.
Proof.
  intros Hle H w. destruct (H w) as (rs & Hs & Hl & Ha & Hf).
  exists rs. split; [done|]. split; [lia|done].
Qed.

Lemma asks_bind {A B} (n k : nat) (m : M A) (f : A -> M B) :
  asks n m -> (forall a, asks k (f a)) -> asks (n + k) (bind m f).
Proof.
  intros Hm Hf w. rewrite bind_run.
  destruct (Hm w) as (rs & Hs & Hl & Ha & Hfiles).
  destruct (m w) as [[a|e|] w1]; cbn [snd] in *.
  - destruct (Hf a w1) as (rs' & Hs' & Hl' & Ha' & Hfiles').
    exists (rs ++ rs')%list. split; [by rewrite Hs', Hs, app_assoc|].
    split; [rewrite length_app; lia|]. split; [by apply Forall_app|congruence].
  - exists rs. split; [done|]. split; [lia|done].
  - exists rs. split; [done|]. split; [lia|done].
Qed.

Lemma asks_then {A B} (m : M A) (f : A -> M B) (k : nat) :
  asks 0 m -> (forall a, asks k (f a)) -> asks k (bind m f).
Proof. intros Hm Hf. by apply (asks_bind 0 k). Qed.

Lemma asks_try {A} (n k : nat) (m : M A) (handles : exn -> bool) (h : exn -> M A) :
  asks n m -> (forall e, asks k (h e)) -> asks (n + k) (try_except m handles h).
Proof.
  intros Hm Hh w. unfold try_except.
  destruct (Hm w) as (rs & Hs & Hl & Ha & Hfiles).
  destruct (m w) as [[a|e|] w1]; cbn [snd] in *.
  - exists rs. split; [done|]. split; [lia|done].
  - destruct (handles e).
    + destruct (Hh e w1) as (rs' & Hs' & Hl' & Ha' & Hfiles').
      exists (rs ++ rs')%list. split; [by rewrite Hs', Hs, app_assoc|].
      split; [rewrite length_app; lia|]. split; [by apply Forall_app|congruence].
    + exists rs. split; [done|]. split; [lia|done].
  - exists rs. split; [done|]. split; [lia|done].
Qed.

Lemma asks_getboolean (c : ini) (section option : string) (fallback : bool) :
  asks 0 (ini_getboolean c section option fallback).
Proof.
  apply asks_quiet. intros w. unfold ini_getboolean, ret, raise.
  repeat case_match; done.
Qed.

Lemma asks_set_option (config : ini) (section option value : string) :
  asks 0 (Setup.set_option config section option value).
Proof.
  unfold Setup.set_option. destruct (config !! section); [apply asks_ret|apply asks_raise].
Qed.

Lemma asks_response_object (b : Setup.jbody) : asks 0 (Setup.response_object b).
Proof. destruct b; first [apply asks_ret|apply asks_raise]. Qed.

Lemma asks_requests_get (net : Setup.api) (url : string)
    (headers : list (string * string)) :
  authenticated {| method := "GET"; url := url; params := []; headers := headers;
                   timeout := 10; json := None |} ->
  asks 1 (Setup.requests_get net url headers 10).
Proof.
  intros Hr w. eexists [_]. unfold Setup.requests_get.
  destruct (net _ _); (split; [reflexivity|]; split; [done|]; split; [|done]);
    by constructor.
Qed.

Ltac quiet_steps :=
  repeat first
    [ apply asks_ret
    | apply asks_raise
    | apply asks_print
    | apply asks_set_option
    | apply asks_response_object
    | apply asks_getboolean
    | apply asks_then; [|intros ?] ].

Lemma asks_validate_github_token (net : Setup.api) (token : string) :
  asks 1 (Setup.validate_github_token net token).
Proof.
  unfold Setup.validate_github_token.
  destruct (PyStr.truthy token) eqn:Htok; cbn [negb];
    [|apply (asks_weaken 0); [lia|apply asks_ret]].
  apply (asks_try 1 0); [|intros e; quiet_steps].
  apply (asks_bind 1 0).
  - apply asks_requests_get.
    split; [done|]. split; [done|]. split; [done|]. exists token. split; [done|].
    by left.
  - intros response. destruct (Nat.eqb _ _); quiet_steps.
Qed.

Lemma asks_validate_organization (net : Setup.api) (token org_name : string) :
  PyStr.truthy token = true ->
  asks 1 (Setup.validate_organization net token org_name).
Proof.
  intros Htok. unfold Setup.validate_organization.
  destruct (PyStr.truthy org_name) eqn:Horg; cbn [negb];
    [|apply (asks_weaken 0); [lia|apply asks_ret]].
  rewrite Htok.
  apply (asks_try 1 0); [|intros e; quiet_steps].
  apply (asks_bind 1 0).
  - apply asks_requests_get.
    split; [done|]. split; [done|]. split; [done|]. exists token. split; [done|].
    cbn. do 2 right. by left.
  - intros response. destruct (Nat.eqb _ _); quiet_steps.
Qed.

Lemma asks_load_existing_config : asks 0 Setup.load_existing_config.
Proof.
  unfold Setup.load_existing_config, Setup.create_config_directory.
  apply asks_then.
  { apply asks_then; [by apply asks_quiet|intros w0].
    apply asks_then; [by apply asks_quiet|intros _]. apply asks_ret. }
  intros config_dir. apply asks_then; [by apply asks_quiet|intros w0].
  destruct (config_ini w0); quiet_steps.
Qed.

Lemma asks_summary (config : ini) : asks 0 (SetupConfig.configuration_summary config).
Proof. unfold SetupConfig.configuration_summary. quiet_steps. Qed.

Lemma asks_setup_configuration (net : Setup.api) (args : Setup.arguments) :
  asks 2 (Setup.setup_configuration net args).
Proof.
  unfold Setup.setup_configuration.
  apply asks_then; [apply asks_print|intros _].
  apply asks_then; [apply asks_load_existing_config|intros loaded].
  apply asks_then; [apply asks_getboolean|intros current_enable_slack].
  apply (asks_bind 1 1).
  { destruct (Setup.if_given _) as [token|].
    - apply asks_then; [apply asks_print|intros _].
      apply (asks_bind 1 0); [apply asks_validate_github_token|].
      intros [|]; quiet_steps.
    - destruct (PyStr.truthy _).
      + do 3 (apply asks_then; [apply asks_print|intros _]).
        apply (asks_bind 1 0); [apply asks_validate_github_token|]. intros _.
        apply asks_ret.
      + apply (asks_weaken 0); [lia|]. quiet_steps. }
  intros config. apply (asks_bind 1 0).
  { destruct (Setup.if_given _) as [org_name|].
    - apply asks_then; [apply asks_print|intros _].
      apply (asks_bind 1 0).
      + destruct (PyStr.truthy _) eqn:Htok.
        * by apply asks_validate_organization.
        * apply (asks_weaken 0); [lia|apply asks_ret].
      + intros [|]; quiet_steps.
    - destruct (PyStr.truthy (ini_get (fst loaded) _ _ _)).
      + do 2 (apply asks_then; [apply asks_print|intros _]).
        apply (asks_bind 1 0); [|intros _; apply asks_ret].
        destruct (PyStr.truthy _) eqn:Htok.
        * apply asks_then; [apply asks_print|intros _].
          apply (asks_bind 1 0); [by apply asks_validate_organization|].
          intros _. apply asks_ret.
        * apply (asks_weaken 0); [lia|apply asks_ret].
      + apply (asks_weaken 0); [lia|]. quiet_steps. }
  intros config'. apply asks_then.
  { destruct (Setup.if_given _) as [slack|]; [quiet_steps|].
    destruct (Setup.args_enable_slack args) as [enable|].
    - apply asks_then; [apply asks_print|intros _].
      destruct (PyStr.truthy _); quiet_steps.
    - destruct (PyStr.truthy _); quiet_steps. }
  intros config''. apply asks_then; [by apply asks_quiet|intros _].
  apply asks_then; [apply asks_print|intros _]. apply asks_summary.
Qed.

(** X26: the setup utility talks to the GitHub API only, at most twice,
    and never without the token: no organization is looked up before a token
    is known. It writes no file of the working directory. *)
Theorem setup_requests (net : Setup.api) (args : Setup.arguments) (w : world) :
  exists rs,
    sent (snd (Setup.script net args w)) = (sent w ++ rs)%list
    /\ List.length rs <= 2
    /\ Forall authenticated rs
    /\ files (snd (Setup.script net args w)) = files w.
Proof.
  apply (asks_try 2 0).
  - apply (asks_bind 2 0); [apply asks_setup_configuration|intros _; apply asks_ret].
  - intros e. quiet_steps.
Qed.
